(** * Keyframe insertion in Blender's animrig: a shallow embedding

    The development follows [source/blender/animrig/intern/keyframing.cc]
    (and the declarations of [ANIM_action.hh]): the keying result
    aggregator, the cycle remapper, the curve-level keyframe write and the
    legacy and layered insertion orchestrators. The keying flags of the
    settings and the keyframe deletion of the same file follow them.

    Conventions of the embedding:
    - a C [int] is a [Z]. Indices, lengths and flag words stay within the
      range of an [int]. The counters of the aggregator are given twice:
      [add] and [merge] without overflow, which the orchestrators use when
      they count one outcome per attempt, and [Int32.add] and [Int32.merge]
      with the wrap-around of a 32-bit two's complement [int] written out;
      the two agree while the sums fit an [int];
    - a C [float] is an IEEE 754 binary32 number ([spec_float] at precision
      24): every subtraction, addition, multiplication and division rounds
      to the nearest float, ties to even, as the expressions of the code do
      when each operation is evaluated in single precision and none is
      fused with another; infinities, signed zeros and NaN are part of the
      model;
    - a pointer that the code mutates through ([FCurve *], [bAction *]) is
      a value threaded through the functions and written back by the caller;
    - effects on the outside world (reports, dependency graph tags, the
      standard error stream) are collected in an event list; the release
      of the NLA context cache is not modelled;
    - an assertion of the code is a precondition: a function whose
      assertion fails, or that reads outside an array or through a null
      pointer, has no result ([None]). *)

From Stdlib Require Import ZArith Lia Ascii String SpecFloat.
From stdpp Require Import base tactics option list vector fin finite strings pretty.

Open Scope Z_scope.

(** ** Keying results *)

(** Modelled from the spec: the enumeration [SingleKeyingResult] is declared
    in [ANIM_keyframing.hh], which is not among the sources. The spec lists
    the closed set of outcome kinds; [generate_reports] names them all and
    [has_errors] asserts that [SUCCESS] is 0 and the others follow
    sequentially. *)
Inductive SingleKeyingResult : Set :=
| SUCCESS
| UNKNOWN_FAILURE
| CANNOT_CREATE_FCURVE
| FCURVE_NOT_KEYFRAMEABLE
| NO_KEY_NEEDED
| UNABLE_TO_INSERT_TO_NLA_STACK
| ID_NOT_EDITABLE
| ID_NOT_ANIMATABLE
| CANNOT_RESOLVE_PATH
| NO_VALID_LAYER
| NO_VALID_STRIP
| NO_VALID_BINDING.

#[global] Instance SingleKeyingResult_eq_dec : EqDecision SingleKeyingResult.
Proof. solve_decision. Defined.

(** [_KEYING_RESULT_MAX], the number of outcome kinds. *)
Definition KEYING_RESULT_MAX : nat := 12.

(** The cast [int(result)], as an index into the counter array. *)
Definition int_of_result (r : SingleKeyingResult) : fin KEYING_RESULT_MAX :=
  match r with
  | SUCCESS => 0%fin
  | UNKNOWN_FAILURE => 1%fin
  | CANNOT_CREATE_FCURVE => 2%fin
  | FCURVE_NOT_KEYFRAMEABLE => 3%fin
  | NO_KEY_NEEDED => 4%fin
  | UNABLE_TO_INSERT_TO_NLA_STACK => 5%fin
  | ID_NOT_EDITABLE => 6%fin
  | ID_NOT_ANIMATABLE => 7%fin
  | CANNOT_RESOLVE_PATH => 8%fin
  | NO_VALID_LAYER => 9%fin
  | NO_VALID_STRIP => 10%fin
  | NO_VALID_BINDING => 11%fin
  end.

(** The outcome kinds other than [SUCCESS], in enumeration order. *)
Definition error_kinds : list SingleKeyingResult :=
  [UNKNOWN_FAILURE; CANNOT_CREATE_FCURVE; FCURVE_NOT_KEYFRAMEABLE;
   NO_KEY_NEEDED; UNABLE_TO_INSERT_TO_NLA_STACK; ID_NOT_EDITABLE;
   ID_NOT_ANIMATABLE; CANNOT_RESOLVE_PATH; NO_VALID_LAYER; NO_VALID_STRIP;
   NO_VALID_BINDING].

(** [CombinedKeyingResult]: [std::array<int, _KEYING_RESULT_MAX>
    result_counter]. *)
Record CombinedKeyingResult : Set := mkCombined {
  result_counter : vec Z KEYING_RESULT_MAX
}.

(** The constructor: [result_counter.fill(0)]. *)
Definition CombinedKeyingResult_new : CombinedKeyingResult :=
  mkCombined (vreplicate KEYING_RESULT_MAX 0).

(** [result_counter[int(result)] += count], while the sum fits an [int]. *)
Definition add (self : CombinedKeyingResult) (result : SingleKeyingResult)
    (count : Z) : CombinedKeyingResult :=
  let i := int_of_result result in
  mkCombined (vinsert i (result_counter self !!! i + count) (result_counter self)).

(** The default argument [count = 1]. *)
Definition add1 (self : CombinedKeyingResult) (result : SingleKeyingResult)
    : CombinedKeyingResult :=
  add self result 1.

(** One iteration of the loop of [merge]:
    [result_counter[i] += other.result_counter[i]], while the sum fits an
    [int]. *)
Definition merge_step (other : CombinedKeyingResult)
    (rc : vec Z KEYING_RESULT_MAX) (i : fin KEYING_RESULT_MAX)
    : vec Z KEYING_RESULT_MAX :=
  vinsert i (rc !!! i + result_counter other !!! i) rc.

(** [for (int i = 0; i < result_counter.size(); i++)]. *)
Definition merge (self other : CombinedKeyingResult) : CombinedKeyingResult :=
  mkCombined (foldl (merge_step other) (result_counter self)
                (fin_enum KEYING_RESULT_MAX)).

Definition get_count (self : CombinedKeyingResult) (result : SingleKeyingResult)
    : Z :=
  result_counter self !!! int_of_result result.

(** The loop of [has_errors] over a run of counters, with its early
    return. *)
Fixpoint has_errors_loop (counters : list Z) : bool :=
  match counters with
  | [] => false
  | c :: rest => if 0 <? c then true else has_errors_loop rest
  end.

(** The loop starts at 1 to skip the [SUCCESS] counter. *)
Definition has_errors (self : CombinedKeyingResult) : bool :=
  has_errors_loop (drop 1 (vec_to_list (result_counter self))).

(** ** The counters as 32-bit ints

    [result_counter] holds C [int]s. [add] and [merge] above are the two
    operations while no counter leaves the range of an [int]; the
    orchestrating functions, which add one outcome per attempt, are stated
    with them. [Int32.add] and [Int32.merge] are the same two operations
    with the [+=] of a 32-bit two's complement [int] written out: a sum
    outside [INT_MIN, INT_MAX] wraps around. *)

Definition INT_MIN : Z := -2147483648.

Definition INT_MAX : Z := 2147483647.

(** The value of a mathematical integer stored into an [int]. *)
Definition int_wrap (z : Z) : Z :=
  (z + 2147483648) mod 4294967296 - 2147483648.

(** [x + y] on [int]. *)
Definition int_add (x y : Z) : Z := int_wrap (x + y).

Definition is_int (z : Z) : Prop := INT_MIN <= z <= INT_MAX.

Module Int32.

(** [result_counter[int(result)] += count]. *)
Definition add (self : CombinedKeyingResult) (result : SingleKeyingResult)
    (count : Z) : CombinedKeyingResult :=
  let i := int_of_result result in
  mkCombined
    (vinsert i (int_add (result_counter self !!! i) count)
       (result_counter self)).

(** One iteration of the loop of [merge]:
    [result_counter[i] += other.result_counter[i]]. *)
Definition merge_step (other : CombinedKeyingResult)
    (rc : vec Z KEYING_RESULT_MAX) (i : fin KEYING_RESULT_MAX)
    : vec Z KEYING_RESULT_MAX :=
  vinsert i (int_add (rc !!! i) (result_counter other !!! i)) rc.

(** [for (int i = 0; i < result_counter.size(); i++)]. *)
Definition merge (self other : CombinedKeyingResult) : CombinedKeyingResult :=
  mkCombined (foldl (merge_step other) (result_counter self)
                (fin_enum KEYING_RESULT_MAX)).

End Int32.

(** ** Reports *)

Inductive eReportType : Set := RPT_INFO | RPT_WARNING | RPT_ERROR.

#[global] Instance eReportType_eq_dec : EqDecision eReportType.
Proof. solve_decision. Defined.

Record Report : Set := mkReport {
  report_type : eReportType;
  report_message : string
}.

#[global] Instance Report_eq_dec : EqDecision Report.
Proof. solve_decision. Defined.

(** A [ReportList] in the order the reports were added. *)
Definition ReportList : Set := list Report.

(** Modelled from the spec: [BKE_report] and [BKE_reportf] belong to the
    report sink, an external collaborator that accepts a severity and a
    formatted message. They append one report. *)
Definition BKE_report (reports : ReportList) (type : eReportType)
    (message : string) : ReportList :=
  reports ++ [mkReport type message].

(** [fmt::format] of a template with one [{:d}] field: the text before the
    field, the decimal integer, the text after it. The translation macro
    [RPT_] is the identity. *)
Definition format_d (before after : string) (n : Z) : string :=
  before +:+ pretty n +:+ after.

Definition newline : string := String "010"%char EmptyString.

(** The message text that [generate_reports] formats for an outcome kind
    and its count. [SUCCESS] has none. *)
Definition error_text (r : SingleKeyingResult) (error_count : Z) : string :=
  match r with
  | SUCCESS => EmptyString
  | UNKNOWN_FAILURE =>
      format_d "There were " " keying failures for unknown reasons." error_count
  | CANNOT_CREATE_FCURVE =>
      format_d "Could not create "
        " F-Curve(s). This can happen when only inserting to available F-Curves."
        error_count
  | FCURVE_NOT_KEYFRAMEABLE =>
      format_d EmptyString
        " F-Curve(s) are not keyframeable. They might be locked or sampled."
        error_count
  | NO_KEY_NEEDED =>
      format_d "Due to the setting 'Only Insert Needed', "
        " keyframe(s) have not been inserted." error_count
  | UNABLE_TO_INSERT_TO_NLA_STACK =>
      format_d "Due to the NLA stack setup, "
        " keyframe(s) have not been inserted." error_count
  | ID_NOT_EDITABLE =>
      format_d "Inserting keys on "
        " data-block(s) has been skipped because they are not editable."
        error_count
  | ID_NOT_ANIMATABLE =>
      format_d "Inserting keys on "
        " data-block(s) has been skipped because they cannot be animated."
        error_count
  | CANNOT_RESOLVE_PATH =>
      format_d "Inserting keys on "
        " data-block(s) has been skipped because the RNA path wasn't valid for them."
        error_count
  | NO_VALID_LAYER =>
      format_d "Inserting keys on "
        " data-block(s) has been skipped because there were no layers that could accept the keys."
        error_count
  | NO_VALID_STRIP =>
      format_d "Inserting keys on "
        " data-block(s) has been skipped because there were no strips that could accept the keys."
        error_count
  | NO_VALID_BINDING =>
      format_d "Inserting keys on "
        " data-block(s) has been skipped because of missing animation bindings."
        error_count
  end.

(** One of the eleven blocks of [generate_reports]:
    [if (get_count(r) > 0) { errors.append(format(..., get_count(r))); }]. *)
Definition append_error (self : CombinedKeyingResult) (r : SingleKeyingResult)
    (errors : list string) : list string :=
  if 0 <? get_count self r
  then errors ++ [error_text r (get_count self r)]
  else errors.

(** The loop that builds the combined message:
    [error_message.append(fmt::format("\n- {}", error))]. *)
Definition append_bullets (error_message : string) (errors : list string)
    : string :=
  foldl (fun msg error => msg +:+ (newline +:+ "- " +:+ error))
    error_message errors.

Definition generate_reports (self : CombinedKeyingResult) (reports : ReportList)
    : ReportList :=
  if negb (has_errors self) && (get_count self SUCCESS =? 0)
  then BKE_report reports RPT_WARNING
         "No keys have been inserted and no errors have been reported."
  else
    let errors : list string := [] in
    let errors := append_error self UNKNOWN_FAILURE errors in
    let errors := append_error self CANNOT_CREATE_FCURVE errors in
    let errors := append_error self FCURVE_NOT_KEYFRAMEABLE errors in
    let errors := append_error self NO_KEY_NEEDED errors in
    let errors := append_error self UNABLE_TO_INSERT_TO_NLA_STACK errors in
    let errors := append_error self ID_NOT_EDITABLE errors in
    let errors := append_error self ID_NOT_ANIMATABLE errors in
    let errors := append_error self CANNOT_RESOLVE_PATH errors in
    let errors := append_error self NO_VALID_LAYER errors in
    let errors := append_error self NO_VALID_STRIP errors in
    let errors := append_error self NO_VALID_BINDING errors in
    match errors with
    | [] =>
        BKE_report reports RPT_WARNING
          "Encountered unhandled error during keyframing"
    | [error] => BKE_report reports RPT_ERROR error
    | _ =>
        BKE_report reports RPT_ERROR
          (append_bullets "Inserting keyframes failed:" errors)
    end.

(** ** Floats

    A C [float] is an IEEE 754 binary32 number: 24 bits of precision,
    infinities at exponent 128, signed zeros and NaN. The operations are
    those of the standard library's specification of floating-point
    arithmetic at that format: each one rounds its exact result to the
    nearest float, ties to even, and the comparisons are false on NaN. *)

Definition float : Set := spec_float.
Definition float2 : Set := (float * float)%type.

Definition float_prec : Z := 24.
Definition float_emax : Z := 128.

Definition float_add (x y : float) : float := SFadd float_prec float_emax x y.
Definition float_sub (x y : float) : float := SFsub float_prec float_emax x y.
Definition float_mul (x y : float) : float := SFmul float_prec float_emax x y.
Definition float_div (x y : float) : float := SFdiv float_prec float_emax x y.

Definition float_lt (x y : float) : bool := SFltb x y.
Definition float_le (x y : float) : bool := SFleb x y.
Definition float_eq (x y : float) : bool := SFeqb x y.

(** The float [m * 2^e], rounded when [m] has more than 24 bits; an
    integer constant is [float_of_Z]. *)
Definition float_of_bits (m e : Z) : float :=
  binary_normalize float_prec float_emax m e false.

Definition float_of_Z (z : Z) : float := float_of_bits z 0.

(** [floorf]: a float with a non-negative exponent is an integer; below,
    the mantissa is shifted and a negative number with a fraction is
    rounded down. Zeros, infinities and NaN are returned as they are. *)
Definition floorf (x : float) : float :=
  match x with
  | S754_finite s m e =>
      if 0 <=? e then x
      else
        let q := Z.shiftr (Zpos m) (- e) in
        let n :=
          if s then (if Zpos m =? Z.shiftl q (- e) then - q else - q - 1)
          else q in
        binary_normalize float_prec float_emax n 0 s
  | _ => x
  end.

(** The literal [0.1f]: the binary32 number nearest to one tenth. *)
Definition float_0_1 : float := float_of_bits 13421773 (-27).

(** ** Flags *)

(** Modelled from the spec: the bits of [eInsertKeyFlags] are declared in
    [DNA_anim_types.h], which is not among the sources. The spec names the
    policies (only-needed, visual keying, replace-only, cycle-aware,
    available-only, no user preferences); each is one distinct bit. *)
Definition INSERTKEY_NOFLAGS : Z := 0.
Definition INSERTKEY_NEEDED : Z := Z.shiftl 1 0.
Definition INSERTKEY_MATRIX : Z := Z.shiftl 1 1.
Definition INSERTKEY_REPLACE : Z := Z.shiftl 1 4.
Definition INSERTKEY_NO_USERPREF : Z := Z.shiftl 1 6.
Definition INSERTKEY_CYCLE_AWARE : Z := Z.shiftl 1 9.
Definition INSERTKEY_AVAILABLE : Z := Z.shiftl 1 10.

(** Modelled from the spec: the bits of [eFCurve_Flags] are declared in
    [DNA_anim_types.h], which is not among the sources. The spec names the
    curve flags protected/locked, integer-only and discrete-only. *)
Definition FCURVE_PROTECTED : Z := Z.shiftl 1 3.
Definition FCURVE_INT_VALUES : Z := Z.shiftl 1 11.
Definition FCURVE_DISCRETE_VALUES : Z := Z.shiftl 1 12.

(** [flag & mask] read as a condition. *)
Definition flag_test (flag mask : Z) : bool := negb (Z.land flag mask =? 0).

(** [flag & ~mask]. *)
Definition flag_clear (flag mask : Z) : Z := Z.land flag (Z.lnot mask).

(** ** Curves *)

(** A keyframe point: [vec[0]], [vec[1]], [vec[2]] are the left handle, the
    key and the right handle, each an (x, y) = (time, value) pair. *)
Record BezTriple : Set := mkBezTriple {
  vec0 : float2;
  vec1 : float2;
  vec2 : float2;
  ipo : Z;
  h1 : Z;
  h2 : Z;
  hide : Z
}.

(** A baked sample of a sampled curve. *)
Record FPoint : Set := mkFPoint { fpt_vec : float2 }.

Inductive eFMod_Cycling_Modes : Set :=
| FCM_EXTRAPOLATE_NONE
| FCM_EXTRAPOLATE_CYCLIC
| FCM_EXTRAPOLATE_CYCLIC_OFFSET
| FCM_EXTRAPOLATE_MIRROR.

#[global] Instance eFMod_Cycling_Modes_eq_dec : EqDecision eFMod_Cycling_Modes.
Proof. solve_decision. Defined.

Record FMod_Cycles : Set := mkFMod_Cycles {
  before_mode : eFMod_Cycling_Modes;
  after_mode : eFMod_Cycling_Modes;
  before_cycles : Z;
  after_cycles : Z
}.

Inductive eFModifier_Types : Set :=
| FMODIFIER_TYPE_GENERATOR
| FMODIFIER_TYPE_CYCLES
| FMODIFIER_TYPE_NOISE
| FMODIFIER_TYPE_OTHER.

#[global] Instance eFModifier_Types_eq_dec : EqDecision eFModifier_Types.
Proof. solve_decision. Defined.

(** An F-Modifier. [fmod_cycles] is the modifier's [data] read as
    [FMod_Cycles]; it is [None] when the data is of another kind. *)
Record FModifier : Set := mkFModifier {
  fmod_type : eFModifier_Types;
  fmod_flag : Z;
  fmod_cycles : option FMod_Cycles
}.

Inductive eFCU_Cycle_Type : Set :=
| FCU_CYCLE_NONE
| FCU_CYCLE_PERFECT
| FCU_CYCLE_OFFSET.

#[global] Instance eFCU_Cycle_Type_eq_dec : EqDecision eFCU_Cycle_Type.
Proof. solve_decision. Defined.

(** An F-Curve. [bezt] are the keyframe points in time order and [fpt] the
    samples of a sampled curve; a null array is the empty list.
    [modifiers] is the modifier list, first modifier first. *)
Record FCurve : Set := mkFCurve {
  bezt : list BezTriple;
  fpt : list FPoint;
  flag : Z;
  modifiers : list FModifier;
  rna_path : string;
  array_index : Z;
  grp : option string
}.

(** A null test on an array pointer. *)
Definition is_null {A : Type} (l : list A) : bool :=
  match l with [] => true | _ :: _ => false end.

(** [fcu->totvert]: the number of points of the array in use. *)
Definition totvert (fcu : FCurve) : Z :=
  if is_null (bezt fcu) then Z.of_nat (length (fpt fcu))
  else Z.of_nat (length (bezt fcu)).

Definition set_bezt (fcu : FCurve) (b : list BezTriple) : FCurve :=
  mkFCurve b (fpt fcu) (flag fcu) (modifiers fcu) (rna_path fcu)
    (array_index fcu) (grp fcu).

Definition set_flag (fcu : FCurve) (f : Z) : FCurve :=
  mkFCurve (bezt fcu) (fpt fcu) f (modifiers fcu) (rna_path fcu)
    (array_index fcu) (grp fcu).

Definition set_modifiers (fcu : FCurve) (m : list FModifier) : FCurve :=
  mkFCurve (bezt fcu) (fpt fcu) (flag fcu) m (rna_path fcu)
    (array_index fcu) (grp fcu).

(** Modelled from the spec: [BKE_fcurve_is_protected] is defined in the
    curve kernel, which is not among the sources. The spec gives a curve a
    protected/locked flag. *)
Definition BKE_fcurve_is_protected (fcu : FCurve) : bool :=
  flag_test (flag fcu) FCURVE_PROTECTED.

(** A curve is sampled when it carries baked samples. *)
Definition fcurve_is_sampled (fcu : FCurve) : bool := negb (is_null (fpt fcu)).

(** Modelled from the spec: [BKE_fcurve_is_keyframable] is defined in the
    curve kernel, which is not among the sources. The spec: a
    "keyframeable" predicate, false when sampled or locked. *)
Definition BKE_fcurve_is_keyframable (fcu : FCurve) : bool :=
  negb (fcurve_is_sampled fcu || BKE_fcurve_is_protected fcu).

Record KeyframeSettings : Set := mkKeyframeSettings {
  keyframe_type : Z;
  handle : Z;
  interpolation : Z
}.

Definition set_keyframe_type (s : KeyframeSettings) (keytype : Z)
    : KeyframeSettings :=
  mkKeyframeSettings keytype (handle s) (interpolation s).

(** ** Properties, data-blocks and Actions *)

Inductive PropertyType : Set :=
| PROP_BOOLEAN | PROP_INT | PROP_FLOAT | PROP_STRING | PROP_ENUM
| PROP_POINTER | PROP_COLLECTION.

#[global] Instance PropertyType_eq_dec : EqDecision PropertyType.
Proof. solve_decision. Defined.

(** A resolved property: what [RNA_property_type] and
    [RNA_property_ui_name] return for it. *)
Record PropertyRNA : Set := mkPropertyRNA {
  prop_identifier : string;
  prop_ui_name : string;
  prop_type : PropertyType
}.

Inductive StructRNA : Set := RNA_PoseBone | RNA_Object | RNA_OtherStruct.

#[global] Instance StructRNA_eq_dec : EqDecision StructRNA.
Proof. solve_decision. Defined.

(** An RNA pointer: the owning data-block (by name, [None] for a null
    [owner_id]), the struct type, and the data it points to (by name,
    [None] for null; for a pose bone this is the pose channel's name). *)
Record PointerRNA : Set := mkPointerRNA {
  owner_id : option string;
  ptr_type : StructRNA;
  ptr_data : option string
}.

(** A path descriptor of a batch: the path and the optional single array
    index. *)
Record RNAPath : Set := mkRNAPath {
  path : string;
  index : option Z
}.

Record AnimationEvalContext : Set := mkAnimationEvalContext {
  eval_time : float
}.

(** A Binding of a layered Action. *)
Record Binding : Set := mkBinding {
  binding_handle_of : Z;
  binding_name : string;
  binding_idtype : Z
}.

(** The curves of one Binding in a keyframe strip. *)
Record ChannelBag : Set := mkChannelBag {
  channelbag_binding_handle : Z;
  fcurves : list FCurve
}.

(** A strip; the keyframe strip is the only kind. *)
Record Strip : Set := mkStrip {
  strip_frame_start : option float;
  strip_frame_end : option float;
  strip_frame_offset : float;
  channelbags : list ChannelBag
}.

Record Layer : Set := mkLayer {
  layer_name : string;
  strips : list Strip
}.

(** An Action ([bAction] and its wrapper [Action]): the data-block name,
    the legacy curve list and group list, the manual frame range and flag,
    and the layered data. *)
Record bAction : Set := mkAction {
  act_name : string;
  curves : list FCurve;
  groups : list string;
  frame_start : float;
  frame_end : float;
  act_flag : Z;
  layer_array : list Layer;
  binding_array : list Binding
}.

Definition set_curves (act : bAction) (c : list FCurve) : bAction :=
  mkAction (act_name act) c (groups act) (frame_start act) (frame_end act)
    (act_flag act) (layer_array act) (binding_array act).

Definition set_groups (act : bAction) (g : list string) : bAction :=
  mkAction (act_name act) (curves act) g (frame_start act) (frame_end act)
    (act_flag act) (layer_array act) (binding_array act).

Definition set_layer_array (act : bAction) (l : list Layer) : bAction :=
  mkAction (act_name act) (curves act) (groups act) (frame_start act)
    (frame_end act) (act_flag act) l (binding_array act).

(** The animation data of a data-block. The assigned Action is held by
    value: one keying call only touches the Action of the keyed data-block,
    and a pointer comparison of Actions is a comparison of their names
    (names are unique among the Actions of a [Main]). *)
Record AnimData : Set := mkAnimData {
  action : option bAction;
  binding_handle : Z;
  binding_name_fallback : string;
  adt_flag : Z
}.

Definition set_action (adt : AnimData) (act : option bAction) : AnimData :=
  mkAnimData act (binding_handle adt) (binding_name_fallback adt) (adt_flag adt).

(** A data-block ([ID]): its name, its RNA struct type, whether its type
    can carry animation data, and the animation data if any. *)
Record ID : Set := mkID {
  id_name : string;
  id_struct : StructRNA;
  id_can_have_animdata : bool;
  adt : option AnimData
}.

Definition set_adt (id : ID) (a : option AnimData) : ID :=
  mkID (id_name id) (id_struct id) (id_can_have_animdata id) a.

(** [adt->action = act] through the data-block. *)
Definition id_write_action (id : ID) (act : bAction) : ID :=
  match adt id with
  | Some a => set_adt id (Some (set_action a (Some act)))
  | None => id
  end.

(** ** Effects *)

(** What a call does to the outside world, in order: a report added to the
    report list, a dependency graph tag on a data-block (by name) with its
    recalc flag, a line printed on the standard error stream. *)
Inductive Event : Set :=
| EvReport (r : Report)
| EvDegTag (name : string) (recalc : Z)
| EvStderr (line : string).

#[global] Instance Event_eq_dec : EqDecision Event.
Proof. solve_decision. Defined.

Definition ID_RECALC_ANIMATION_NO_FLUSH : Z := Z.shiftl 1 4.

(** Modelled from the spec: [DEG_id_tag_update(&id, flag)] belongs to the
    dependency system, an external collaborator treated as a sink
    ("notify that entity X changed"). It records one tag. *)
Definition DEG_id_tag_update (events : list Event) (name : string) (recalc : Z)
    : list Event :=
  events ++ [EvDegTag name recalc].

(** The result of the NLA remapper: the remapped values, the "force all
    channels" flag and the per-channel success bits it writes. *)
Record NlaRemap : Set := mkNlaRemap {
  remapped_values : list float;
  r_force_all : bool;
  r_successful_remaps : list bool
}.

(** ** External collaborators

    The functions below are defined outside the sources; the spec treats
    them as black boxes (property locator, value extraction, NLA stack,
    curve evaluation and point insertion, the layered Action's own
    methods of [ANIM_action.hh]). They are parameters of the embedding:
    - [BKE_fcurve_get_cycle_type]: the cycle type of the curve's cycle
      modifier (none, perfect, or offset-accumulating);
    - [get_keyframe_settings]: the default point settings, from the user
      preferences or not;
    - [insert_vert_fcurve]: the point insertion itself, with its outcome
      and the curve it leaves;
    - [add_fmodifier]: the modifier list after adding a modifier of a type;
    - [BKE_animsys_nla_remap_keyframe_values]: from the context, the
      property, the values, the requested index and whether the caller
      asked for the force-all flag; the caller's spans receive its
      output;
    - [use_animation_baklava]: the experimental user preference;
    - [binding_for_handle], [binding_add_for_id], [assign_id],
      [layer_ensure_at_least_one], [get_layer_for_keyframing]: the methods
      of [Action]; the layer is returned as its position in the layer
      array;
    - [keyframe_insert]: [KeyframeStrip::keyframe_insert]. *)
Class Externals : Type := {
  BKE_fcurve_get_cycle_type : FCurve -> eFCU_Cycle_Type;
  get_keyframe_settings : bool -> KeyframeSettings;
  insert_vert_fcurve :
    FCurve -> float2 -> KeyframeSettings -> Z -> SingleKeyingResult * FCurve;
  add_fmodifier : list FModifier -> eFModifier_Types -> FCurve -> list FModifier;
  BKE_action_is_cyclic : bAction -> bool;
  BKE_id_is_editable : ID -> bool;
  RNA_path_resolve_property :
    PointerRNA -> string -> option (PointerRNA * PropertyRNA);
  RNA_path_from_ID_to_property : PointerRNA -> PropertyRNA -> option string;
  get_rna_values : PointerRNA -> PropertyRNA -> list float;
  visualkey_can_use : PointerRNA -> PropertyRNA -> bool;
  visualkey_get_values : PointerRNA -> PropertyRNA -> list float;
  NlaKeyframingContext : Type;
  BKE_animsys_get_nla_keyframing_context :
    PointerRNA -> AnimData -> AnimationEvalContext -> option NlaKeyframingContext;
  BKE_nla_tweakedit_remap : AnimData -> float -> float;
  BKE_animsys_nla_remap_keyframe_values :
    option NlaKeyframingContext -> PointerRNA -> PropertyRNA -> list float ->
    Z -> AnimationEvalContext -> bool -> NlaRemap;
  use_animation_baklava : bool;
  binding_for_handle : bAction -> Z -> option Binding;
  binding_add_for_id : bAction -> ID -> bAction * Binding;
  assign_id : bAction -> option Binding -> ID -> bool * bAction * ID;
  layer_ensure_at_least_one : bAction -> bAction;
  get_layer_for_keyframing : bAction -> option nat;
  keyframe_insert :
    Strip -> Binding -> string -> Z -> float2 -> KeyframeSettings -> Z ->
    SingleKeyingResult * Strip
}.

(** ** Spans and bit vectors *)

(** Writing through a fixed-size span ([MutableSpan<float>], or a
    [BitVector] sized by the caller): the callee's output replaces the
    contents from the front, the size stays. *)
Definition span_write {A : Type} (span output : list A) : list A :=
  take (length span) (output ++ drop (length output) span).

(** [values[i]] and [bits[i]] for an index the code keeps in range. *)
Definition float_get (values : list float) (i : nat) : float :=
  default (float_of_Z 0) (values !! i).

Definition bit_get (bits : list bool) (i : nat) : bool :=
  default false (bits !! i).

(** [bits[index]] for an index the code does not check: the read is
    defined only inside the vector. *)
Definition bit_read (bits : list bool) (index : Z) : option bool :=
  if (0 <=? index) && (index <? Z.of_nat (length bits))
  then bits !! Z.to_nat index
  else None.

(** ** The keyframing code *)

Definition key_insertion_may_create_fcurve (insert_key_flags : Z) : bool :=
  Z.land insert_key_flags (Z.lor INSERTKEY_REPLACE INSERTKEY_AVAILABLE) =? 0.

(** [update_autoflags_fcurve_direct]. *)
Definition update_autoflags_fcurve_direct (fcu : FCurve) (prop : PropertyRNA)
    : FCurve :=
  let f := flag_clear (flag fcu) (Z.lor FCURVE_INT_VALUES FCURVE_DISCRETE_VALUES) in
  match prop_type prop with
  | PROP_FLOAT => set_flag fcu f
  | PROP_INT => set_flag fcu (Z.lor f FCURVE_INT_VALUES)
  | _ => set_flag fcu (Z.lor f (Z.lor FCURVE_DISCRETE_VALUES FCURVE_INT_VALUES))
  end.

(** [vec[0][0] -= dx; vec[1][0] -= dx; vec[2][0] -= dx] and the same with
    [+=]. *)
Definition bezt_sub_x (b : BezTriple) (dx : float) : BezTriple :=
  mkBezTriple (float_sub (fst (vec0 b)) dx, snd (vec0 b))
              (float_sub (fst (vec1 b)) dx, snd (vec1 b))
              (float_sub (fst (vec2 b)) dx, snd (vec2 b))
              (ipo b) (h1 b) (h2 b) (hide b).

Definition bezt_add_x (b : BezTriple) (dx : float) : BezTriple :=
  mkBezTriple (float_add (fst (vec0 b)) dx, snd (vec0 b))
              (float_add (fst (vec1 b)) dx, snd (vec1 b))
              (float_add (fst (vec2 b)) dx, snd (vec2 b))
              (ipo b) (h1 b) (h2 b) (hide b).

Section Keyframing.
Context `{E : Externals}.

(** [make_new_fcurve_cyclic]. *)
Definition make_new_fcurve_cyclic (fcu : FCurve) (action_range : float2)
    : FCurve :=
  if negb (totvert fcu =? 1) || is_null (bezt fcu) then fcu
  else
    let period := float_sub (snd action_range) (fst action_range) in
    if float_lt period float_0_1 then fcu
    else
      match bezt fcu with
      | [] => fcu
      | b0 :: _ =>
          let frame_offset := float_sub (fst (vec1 b0)) (fst action_range) in
          let fix_ := float_mul (floorf (float_div frame_offset period)) period in
          let b0 := bezt_sub_x b0 fix_ in
          let b1 := bezt_add_x b0 period in
          let fcu := set_bezt fcu [b0; b1] in
          if is_null (modifiers fcu)
          then set_modifiers fcu
                 (add_fmodifier (modifiers fcu) FMODIFIER_TYPE_CYCLES fcu)
          else fcu
      end.

(** [remap_cyclic_keyframe_location]: the cycle type, and the contents of
    [*px] and [*py] on return. *)
Definition remap_cyclic_keyframe_location (fcu : FCurve) (px py : float)
    : eFCU_Cycle_Type * float * float :=
  if (totvert fcu <? 2) || is_null (bezt fcu) then (FCU_CYCLE_NONE, px, py)
  else
    let type := BKE_fcurve_get_cycle_type fcu in
    if bool_decide (type = FCU_CYCLE_NONE) then (FCU_CYCLE_NONE, px, py)
    else
      match bezt fcu !! 0%nat, bezt fcu !! Z.to_nat (totvert fcu - 1) with
      | Some first, Some last =>
          let start := fst (vec1 first) in
          let end_ := fst (vec1 last) in
          if float_le end_ start then (FCU_CYCLE_NONE, px, py)
          else if float_lt px start || float_lt end_ px then
            let period := float_sub end_ start in
            let step := floorf (float_div (float_sub px start) period) in
            let px := float_sub px (float_mul step period) in
            let py :=
              if bool_decide (type = FCU_CYCLE_OFFSET) then
                match modifiers fcu with
                | fcm :: _ =>
                    match fmod_cycles fcm with
                    | Some data =>
                        let mode :=
                          if float_le (float_of_Z 0) step then after_mode data
                          else before_mode data in
                        if bool_decide (mode = FCM_EXTRAPOLATE_CYCLIC_OFFSET)
                        then float_sub py
                               (float_mul step
                                  (float_sub (snd (vec1 last))
                                     (snd (vec1 first))))
                        else py
                    | None => py
                    end
                | [] => py
                end
              else py in
            (type, px, py)
          else (type, px, py)
      | _, _ => (FCU_CYCLE_NONE, px, py)
      end.

(** [insert_keyframe_value]: the outcome and the curve on return. *)
Definition insert_keyframe_value (fcu : FCurve) (cfra curval : float)
    (keytype : Z) (flag : Z) : SingleKeyingResult * FCurve :=
  if negb (BKE_fcurve_is_keyframable fcu) then (FCURVE_NOT_KEYFRAMEABLE, fcu)
  else
    let '(cfra, curval, flag) :=
      if flag_test flag INSERTKEY_CYCLE_AWARE then
        let '(type, px, py) := remap_cyclic_keyframe_location fcu cfra curval in
        if bool_decide (type <> FCU_CYCLE_PERFECT)
        then (px, py, flag_clear flag INSERTKEY_CYCLE_AWARE)
        else (px, py, flag)
      else (cfra, curval, flag) in
    let settings :=
      get_keyframe_settings (Z.land flag INSERTKEY_NO_USERPREF =? 0) in
    let settings := set_keyframe_type settings keytype in
    insert_vert_fcurve fcu (cfra, curval) settings flag.


(** [default_channel_group_for_path]: the group label, [None] for
    [nullptr]. *)
Definition default_channel_group_for_path (animated_struct : PointerRNA)
    (prop_rna_path : string) : option string :=
  if bool_decide (ptr_type animated_struct = RNA_PoseBone)
  then ptr_data animated_struct
  else if bool_decide (ptr_type animated_struct = RNA_Object)
          && (bool_decide (is_Some (String.index 0 "location" prop_rna_path))
              || bool_decide (is_Some (String.index 0 "rotation" prop_rna_path))
              || bool_decide (is_Some (String.index 0 "scale" prop_rna_path)))
  then Some "Object Transforms"
  else None.

(** Modelled from the spec: [action_fcurve_find] is defined in the Action
    code, which is not among the sources. The spec: find(container, path,
    index) returns the existing Curve or none, and never creates. The
    curve comes with its position in the Action's list, which stands for
    the pointer. *)
Definition action_fcurve_find (act : bAction) (rna_path_ : string)
    (array_index_ : Z) : option (nat * FCurve) :=
  list_find
    (fun fcu => rna_path fcu = rna_path_ /\ array_index fcu = array_index_)
    (curves act).

(** Modelled from the spec: [action_fcurve_ensure] is defined in the
    Action code, which is not among the sources. The spec: ensure(container,
    group_label, path, index) returns the Curve for that pair, creating it
    (and any missing group) when there is none; a created curve has zero
    points. The spec does not say where in the list a new curve goes; here
    it is appended, with none of its flags set. *)
Definition action_fcurve_ensure (act : bAction) (group : option string)
    (ptr : PointerRNA) (rna_path_ : string) (array_index_ : Z)
    : bAction * option (nat * FCurve) :=
  match action_fcurve_find act rna_path_ array_index_ with
  | Some found => (act, Some found)
  | None =>
      let fcu := mkFCurve [] [] 0 [] rna_path_ array_index_ group in
      let act :=
        match group with
        | Some g =>
            if bool_decide (g ∈ groups act) then act
            else set_groups act (groups act ++ [g])
        | None => act
        end in
      (set_curves act (curves act ++ [fcu]),
       Some (length (curves act), fcu))
  end.

(** Modelled from the spec: [BKE_animdata_from_id] is defined in the
    animation-data kernel, which is not among the sources. It returns the
    animation-data attachment of the entity, none when there is none or
    when the entity type cannot carry one. *)
Definition BKE_animdata_from_id (id : ID) : option AnimData :=
  if id_can_have_animdata id then adt id else None.

(** Modelled from the spec: [BKE_animdata_ensure_id] is defined in the
    animation-data kernel, which is not among the sources. The spec: ensure
    the entity has an animation-data attachment, failing if the entity type
    cannot carry one. *)
Definition BKE_animdata_ensure_id (id : ID) : option AnimData * ID :=
  if id_can_have_animdata id then
    match adt id with
    | Some a => (Some a, id)
    | None =>
        let a := mkAnimData None 0 EmptyString 0 in
        (Some a, set_adt id (Some a))
    end
  else (None, id).

(** Modelled from the spec: [id_action_ensure] is defined in the
    animation-data code, which is not among the sources. The spec: ensure an
    Action is attached, creating an empty one if needed; there is none when
    the entity cannot be animated. *)
Definition id_action_ensure (id : ID) : option bAction * ID :=
  match BKE_animdata_ensure_id id with
  | (None, id) => (None, id)
  | (Some a, id) =>
      match action a with
      | Some act => (Some act, id)
      | None =>
          let act :=
            mkAction (id_name id +:+ "Action") [] [] (float_of_Z 0)
                (float_of_Z 0) 0 [] [] in
          (Some act, set_adt id (Some (set_action a (Some act))))
      end
  end.

(** Modelled from the spec: [RNA_id_pointer_create] belongs to the
    property locator, which is not among the sources. It is the pointer to
    the data-block itself. *)
Definition RNA_id_pointer_create (id : ID) : PointerRNA :=
  mkPointerRNA (Some (id_name id)) (id_struct id) (Some (id_name id)).

(** [get_keyframe_values]. *)
Definition get_keyframe_values (ptr : PointerRNA) (prop : PropertyRNA)
    (visual_key : bool) : list float :=
  if visual_key && visualkey_can_use ptr prop
  then visualkey_get_values ptr prop
  else get_rna_values ptr prop.

(** [nla_time_remap]: the remapped frame and [*r_nla_context]. *)
Definition nla_time_remap (anim_eval_context : AnimationEvalContext)
    (id_ptr : PointerRNA) (adt_ : option AnimData) (act : bAction)
    : float * option NlaKeyframingContext :=
  match adt_ with
  | Some a =>
      if bool_decide (act_name <$> action a = Some (act_name act)) then
        (BKE_nla_tweakedit_remap a (eval_time anim_eval_context),
         BKE_animsys_get_nla_keyframing_context id_ptr a anim_eval_context)
      else (eval_time anim_eval_context, None)
  | None => (eval_time anim_eval_context, None)
  end.

(** [insert_keyframe_fcurve_value]: the outcome and the Action on return. *)
Definition insert_keyframe_fcurve_value (ptr : PointerRNA) (prop : PropertyRNA)
    (act : bAction) (group : option string) (rna_path_ : string)
    (array_index_ : Z) (fcurve_frame curval : float) (keytype : Z) (flag : Z)
    : SingleKeyingResult * bAction :=
  let '(act, fcu_ptr) :=
    if key_insertion_may_create_fcurve flag
    then action_fcurve_ensure act group ptr rna_path_ array_index_
    else (act, action_fcurve_find act rna_path_ array_index_) in
  match fcu_ptr with
  | None => (CANNOT_CREATE_FCURVE, act)
  | Some (pos, fcu) =>
      let is_new_curve := totvert fcu =? 0 in
      let is_cyclic_action :=
        flag_test flag INSERTKEY_CYCLE_AWARE && BKE_action_is_cyclic act in
      let fcu :=
        if is_cyclic_action && (totvert fcu =? 1)
        then make_new_fcurve_cyclic fcu (frame_start act, frame_end act)
        else fcu in
      let fcu := update_autoflags_fcurve_direct fcu prop in
      let '(result, fcu) :=
        insert_keyframe_value fcu fcurve_frame curval keytype flag in
      let fcu :=
        if is_cyclic_action && is_new_curve
        then make_new_fcurve_cyclic fcu (frame_start act, frame_end act)
        else fcu in
      (result, set_curves act (<[pos := fcu]> (curves act)))
  end.

(** One call of [insert_keyframe_fcurve_value] as the orchestrators make
    it: the channel, the flags it was made under and its outcome. The list
    of attempts of a run is ghost state: it records the calls in order and
    nothing reads it. *)
Record Attempt : Set := mkAttempt {
  attempt_index : nat;
  attempt_flag : Z;
  attempt_result : SingleKeyingResult
}.

(** The locals that the loops of [insert_keyframe] update: the Action
    behind [act], [combined_result], [key_count], and the ghost attempts. *)
Record KeyState : Set := mkKeyState {
  ks_act : bAction;
  ks_result : CombinedKeyingResult;
  ks_key_count : Z;
  ks_attempts : list Attempt
}.

(** The arguments of [insert_keyframe] that its loops pass on unchanged. *)
Record KeyArgs : Set := mkKeyArgs {
  ka_ptr : PointerRNA;
  ka_prop : PropertyRNA;
  ka_group : option string;
  ka_rna_path : string;
  ka_frame : float;
  ka_values : list float;
  ka_keytype : Z
}.

(** The body shared by the loops of [insert_keyframe]:
    [result = insert_keyframe_fcurve_value(..., array_index, ...,
    values[array_index], keytype, flag); combined_result.add(result);
    if (result == SUCCESS) key_count++;]. *)
Definition key_channel (a : KeyArgs) (flag : Z) (st : KeyState)
    (array_index_ : nat) : SingleKeyingResult * KeyState :=
  let '(result, act) :=
    insert_keyframe_fcurve_value (ka_ptr a) (ka_prop a) (ks_act st)
      (ka_group a) (ka_rna_path a) (Z.of_nat array_index_) (ka_frame a)
      (float_get (ka_values a) array_index_) (ka_keytype a) flag in
  (result,
   mkKeyState act (add1 (ks_result st) result)
     (if bool_decide (result = SUCCESS) then ks_key_count st + 1
      else ks_key_count st)
     (ks_attempts st ++ [mkAttempt array_index_ flag result])).

(** The first loop of the force-all branch, over the indices still to
    visit: it stops at the first success and returns [exclude]. *)
Fixpoint force_first_loop (a : KeyArgs) (flag : Z) (remaps : list bool)
    (indices : list nat) (st : KeyState) : Z * KeyState :=
  match indices with
  | [] => (-1, st)
  | array_index_ :: rest =>
      if negb (bit_get remaps array_index_)
      then force_first_loop a flag remaps rest st
      else
        let '(result, st) := key_channel a flag st array_index_ in
        if bool_decide (result = SUCCESS) then (Z.of_nat array_index_, st)
        else force_first_loop a flag remaps rest st
  end.

(** The second loop of the force-all branch: every remapped channel but
    [exclude]. *)
Fixpoint force_rest_loop (a : KeyArgs) (flag : Z) (remaps : list bool)
    (exclude : Z) (indices : list nat) (st : KeyState) : KeyState :=
  match indices with
  | [] => st
  | array_index_ :: rest =>
      if negb (bit_get remaps array_index_)
      then force_rest_loop a flag remaps exclude rest st
      else if bool_decide (Z.of_nat array_index_ <> exclude)
      then force_rest_loop a flag remaps exclude rest
             (snd (key_channel a flag st array_index_))
      else force_rest_loop a flag remaps exclude rest st
  end.

(** The loop of "simply insert all channels". *)
Fixpoint all_channels_loop (a : KeyArgs) (flag : Z) (remaps : list bool)
    (indices : list nat) (st : KeyState) : KeyState :=
  match indices with
  | [] => st
  | array_index_ :: rest =>
      if negb (bit_get remaps array_index_)
      then all_channels_loop a flag remaps rest st
      else all_channels_loop a flag remaps rest
             (snd (key_channel a flag st array_index_))
  end.

(** The part of [insert_keyframe] from "Key the entire array" to the end of
    "Key a single index". *)
Definition key_channels (a : KeyArgs) (array_index_ : Z) (flag : Z)
    (force_all : bool) (remaps : list bool) (st : KeyState) : KeyState :=
  let indices := seq 0 (length (ka_values a)) in
  if (array_index_ =? -1) || force_all then
    if force_all
       && negb (Z.land flag (Z.lor INSERTKEY_REPLACE INSERTKEY_AVAILABLE) =? 0)
    then
      let '(exclude, st) := force_first_loop a flag remaps indices st in
      if negb (exclude =? -1) then
        let flag :=
          flag_clear flag (Z.lor INSERTKEY_REPLACE INSERTKEY_AVAILABLE) in
        force_rest_loop a flag remaps exclude indices st
      else st
    else all_channels_loop a flag remaps indices st
  else
    if (0 <=? array_index_) && (array_index_ <? Z.of_nat (length (ka_values a)))
       && bit_get remaps (Z.to_nat array_index_)
    then snd (key_channel a flag st (Z.to_nat array_index_))
    else st.

(** What a run of [insert_keyframe] leaves: the returned aggregate, the
    data-block (with its Action), the events, and the ghost attempts. *)
Record InsertRun : Set := mkInsertRun {
  run_result : CombinedKeyingResult;
  run_id : ID;
  run_events : list Event;
  run_attempts : list Attempt
}.

(** [insert_keyframe]. *)
Definition insert_keyframe (id : ID) (group : option string)
    (rna_path_ : string) (array_index_ : Z)
    (anim_eval_context : AnimationEvalContext) (keytype : Z) (flag : Z)
    : InsertRun :=
  let combined_result := CombinedKeyingResult_new in
  if negb (BKE_id_is_editable id)
  then mkInsertRun (add1 combined_result ID_NOT_EDITABLE) id [] []
  else
    let id_ptr := RNA_id_pointer_create id in
    match RNA_path_resolve_property id_ptr rna_path_ with
    | None => mkInsertRun (add1 combined_result CANNOT_RESOLVE_PATH) id [] []
    | Some (ptr, prop) =>
        match id_action_ensure id with
        | (None, id) =>
            mkInsertRun (add1 combined_result ID_NOT_ANIMATABLE) id [] []
        | (Some act, id) =>
            let adt_ := BKE_animdata_from_id id in
            let '(nla_mapped_frame, nla_context) :=
              nla_time_remap anim_eval_context id_ptr adt_ act in
            let visual_keyframing := flag_test flag INSERTKEY_MATRIX in
            let values := get_keyframe_values ptr prop visual_keyframing in
            let remap :=
              BKE_animsys_nla_remap_keyframe_values nla_context ptr prop
                values array_index_ anim_eval_context true in
            let force_all := r_force_all remap in
            let successful_remaps :=
              span_write (replicate (length values) false)
                (r_successful_remaps remap) in
            let values := span_write values (remapped_values remap) in
            let st :=
              key_channels
                (mkKeyArgs ptr prop group rna_path_ nla_mapped_frame values
                   keytype)
                array_index_ flag force_all successful_remaps
                (mkKeyState act combined_result 0 []) in
            let events :=
              if 0 <? ks_key_count st then
                let events :=
                  DEG_id_tag_update [] (act_name act)
                    ID_RECALC_ANIMATION_NO_FLUSH in
                match adt_ ≫= action with
                | Some adt_action =>
                    if bool_decide (act_name adt_action <> act_name act)
                    then DEG_id_tag_update events (act_name adt_action)
                           ID_RECALC_ANIMATION_NO_FLUSH
                    else events
                | None => events
                end
              else [] in
            mkInsertRun (ks_result st) (id_write_action id (ks_act st))
              events (ks_attempts st)
        end
    end.

(** The loop of [insert_key_legacy_action] over the values still to visit,
    with [property_array_index]. *)
Fixpoint insert_key_legacy_loop (ptr : PointerRNA) (prop : PropertyRNA)
    (group : option string) (rna_path_ : string) (frame : float)
    (insert_key_flag : Z) (key_type : Z) (keying_mask : list bool)
    (values : list float) (property_array_index : nat)
    (action_ : bAction) (combined_result : CombinedKeyingResult)
    : CombinedKeyingResult * bAction :=
  match values with
  | [] => (combined_result, action_)
  | value :: rest =>
      if negb (bit_get keying_mask property_array_index)
      then
        insert_key_legacy_loop ptr prop group rna_path_ frame insert_key_flag
          key_type keying_mask rest (S property_array_index) action_
          (add1 combined_result UNABLE_TO_INSERT_TO_NLA_STACK)
      else
        let '(keying_result, action_) :=
          insert_keyframe_fcurve_value ptr prop action_ group rna_path_
            (Z.of_nat property_array_index) frame value key_type
            insert_key_flag in
        insert_key_legacy_loop ptr prop group rna_path_ frame insert_key_flag
          key_type keying_mask rest (S property_array_index) action_
          (add1 combined_result keying_result)
  end.

(** Modelled from the spec: [Action::is_action_legacy] is declared in
    [ANIM_action.hh] and defined outside the sources. Its documentation and
    the spec: a legacy Action uses the flat curve list and has no layers
    and no bindings; an empty Action is valid as both. *)
Definition is_action_legacy (act : bAction) : bool :=
  is_null (layer_array act) && is_null (binding_array act).

(** [insert_key_legacy_action]: the aggregate and the Action on return. The
    assertion that the Action is a legacy Action is the function's
    precondition; there is no result outside it. *)
Definition insert_key_legacy_action (action_ : bAction) (ptr : PointerRNA)
    (prop : PropertyRNA) (rna_path_ : string) (frame : float)
    (values : list float) (insert_key_flag : Z) (key_type : Z)
    (keying_mask : list bool) : option (CombinedKeyingResult * bAction) :=
  if negb (is_action_legacy action_) then None
  else
    let group := default_channel_group_for_path ptr rna_path_ in
    Some (insert_key_legacy_loop ptr prop group rna_path_ frame
            insert_key_flag key_type keying_mask values 0 action_
            CombinedKeyingResult_new).

(** The loop of [get_keyframe_values_create_reports] over the indices
    still to visit: [total_failed] and the text of the failed indices. *)
Fixpoint failed_remaps_loop (index_ : Z) (force_all : bool)
    (successful_remaps : list bool) (indices : list nat)
    (total_failed : Z) (ds_failed_indices : string) : Z * string :=
  match indices with
  | [] => (total_failed, ds_failed_indices)
  | i :: rest =>
      let cur_index_evaluated :=
        (index_ =? Z.of_nat i) || (index_ =? -1) || force_all in
      if negb cur_index_evaluated
      then failed_remaps_loop index_ force_all successful_remaps rest
             total_failed ds_failed_indices
      else if bit_get successful_remaps i
      then failed_remaps_loop index_ force_all successful_remaps rest
             total_failed ds_failed_indices
      else failed_remaps_loop index_ force_all successful_remaps rest
             (total_failed + 1)
             (ds_failed_indices +:+ pretty (Z.of_nat i) +:+ ", ")
  end.

(** [get_keyframe_values_create_reports]. The report reads
    [ptr.owner_id->name]: with a null [owner_id] there is no result. *)
Definition get_keyframe_values_create_reports (reports : ReportList)
    (ptr : PointerRNA) (prop : PropertyRNA) (index_ : Z) (count : nat)
    (force_all : bool) (successful_remaps : list bool) : option ReportList :=
  let '(total_failed, str_failed_indices) :=
    failed_remaps_loop index_ force_all successful_remaps (seq 0 count)
      0 EmptyString in
  if total_failed =? 0 then Some reports
  else
    owner_name ← owner_id ptr;
    Some (BKE_report reports RPT_WARNING
            ("Could not insert " +:+ pretty total_failed +:+
             " keyframe(s) due to zero NLA influence, base value, or value remapping failed: "
             +:+ owner_name +:+ "." +:+ prop_ui_name prop +:+
             " for indices [" +:+ str_failed_indices +:+ "]")).

(** [nla_map_keyframe_values_and_generate_reports]: the returned bit
    vector, the values left in the span, and the reports. *)
Definition nla_map_keyframe_values_and_generate_reports (values : list float)
    (index_ : Z) (ptr : PointerRNA) (prop : PropertyRNA)
    (nla_context : option NlaKeyframingContext)
    (anim_eval_context : AnimationEvalContext) (reports : ReportList)
    (want_force_all : bool) : option (list bool * list float * ReportList) :=
  let remap :=
    BKE_animsys_nla_remap_keyframe_values nla_context ptr prop values index_
      anim_eval_context want_force_all in
  let successful_remaps :=
    span_write (replicate (length values) false) (r_successful_remaps remap) in
  let values := span_write values (remapped_values remap) in
  reports ←
    get_keyframe_values_create_reports reports ptr prop index_ (length values)
      false successful_remaps;
  Some (successful_remaps, values, reports).

(** What [insert_keyframe_direct] leaves: the returned flag, the reports
    and the curve. *)
Record DirectRun : Set := mkDirectRun {
  direct_return : bool;
  direct_reports : ReportList;
  direct_fcu : option FCurve
}.

(** [insert_keyframe_direct]. There is no result ([None]) where the code
    reads outside an array or through a null pointer. *)
Definition insert_keyframe_direct (reports : ReportList) (ptr : PointerRNA)
    (prop : option PropertyRNA) (fcu : option FCurve)
    (anim_eval_context : AnimationEvalContext) (keytype : Z)
    (nla_context : option NlaKeyframingContext) (flag : Z)
    : option DirectRun :=
  match fcu with
  | None =>
      Some (mkDirectRun false
              (BKE_report reports RPT_ERROR "No F-Curve to add keyframes to")
              None)
  | Some fcu =>
      if bool_decide (owner_id ptr = None) && bool_decide (ptr_data ptr = None)
      then
        Some (mkDirectRun false
                (BKE_report reports RPT_ERROR
                   "No RNA pointer available to retrieve values for keyframing from")
                (Some fcu))
      else
        let resolved :=
          match prop with
          | Some prop => Some (ptr, prop)
          | None => RNA_path_resolve_property ptr (rna_path fcu)
          end in
        match resolved with
        | None =>
            let idname := default "<No ID pointer>" (owner_id ptr) in
            Some (mkDirectRun false
                    (BKE_report reports RPT_ERROR
                       ("Could not insert keyframe, as RNA path is invalid for the given ID (ID = "
                        +:+ idname +:+ ", path = " +:+ rna_path fcu +:+ ")"))
                    (Some fcu))
        | Some (ptr, prop) =>
            let fcu := update_autoflags_fcurve_direct fcu prop in
            let index_ := array_index fcu in
            let visual_keyframing := flag_test flag INSERTKEY_MATRIX in
            let values := get_keyframe_values ptr prop visual_keyframing in
            '(successful_remaps, values, reports) ←
              nla_map_keyframe_values_and_generate_reports values index_ ptr
                prop nla_context anim_eval_context reports false;
            let current_value :=
              if (0 <=? index_) && (index_ <? Z.of_nat (length values))
              then float_get values (Z.to_nat index_)
              else (float_of_Z 0) in
            remapped ← bit_read successful_remaps index_;
            if negb remapped then Some (mkDirectRun false reports (Some fcu))
            else
              let cfra := eval_time anim_eval_context in
              let '(result, fcu) :=
                insert_keyframe_value fcu cfra current_value keytype flag in
              let reports :=
                if bool_decide (result <> SUCCESS) then
                  BKE_report reports RPT_ERROR
                    ("Failed to insert keys on F-Curve with path '" +:+
                     rna_path fcu +:+ "[" +:+ pretty (array_index fcu) +:+
                     "]', ensure that it is not locked or sampled, and try removing F-Modifiers")
                else reports in
              Some (mkDirectRun (bool_decide (result = SUCCESS)) reports
                      (Some fcu))
        end
  end.

(** Modelled from the spec: [Action::is_action_layered] is declared in
    [ANIM_action.hh] and defined outside the sources. Its documentation and
    the spec: animation data is stored in the layer array; an empty Action
    is valid as both a legacy and a layered Action. *)
Definition is_action_layered (act : bAction) : bool :=
  negb (is_null (layer_array act)) || negb (is_null (binding_array act))
  || is_null (curves act).

(** [strip->is_infinite()]: both ends are the infinite sentinel. *)
Definition strip_is_infinite (strip : Strip) : bool :=
  bool_decide (strip_frame_start strip = None)
  && bool_decide (strip_frame_end strip = None).

(** [insert_key_layer]: the outcome and the layer on return. The three
    assertions are the function's precondition; there is no result
    outside it. *)
Definition insert_key_layer (layer : Layer) (binding : Binding)
    (rna_path_ : string) (position : float2) (array_index_ : Z)
    (key_settings : KeyframeSettings) (insert_key_flags : Z)
    : option (SingleKeyingResult * Layer) :=
  match strips layer with
  | [strip] =>
      if strip_is_infinite strip && float_eq (strip_frame_offset strip)
          (float_of_Z 0)
      then
        let '(result, strip) :=
          keyframe_insert strip binding rna_path_ array_index_ position
            key_settings insert_key_flags in
        Some (result, mkLayer (layer_name layer) [strip])
      else None
  | _ => None
  end.

(** The inner loop of [insert_key_layered_action], over the property
    indices still to visit. [layer] is the position of the keyframing layer
    in the Action, which stands for the pointer. *)
Fixpoint insert_key_layered_elements (layer : nat) (binding : Binding)
    (rna_path_ : RNAPath) (rna_path_id_to_prop : string)
    (rna_values : list float) (scene_frame : float)
    (key_settings : KeyframeSettings) (insert_key_flags : Z)
    (indices : list nat) (action_ : bAction)
    (combined_result : CombinedKeyingResult)
    : option (bAction * CombinedKeyingResult) :=
  match indices with
  | [] => Some (action_, combined_result)
  | property_index :: rest =>
      if bool_decide (is_Some (index rna_path_))
         && bool_decide (index rna_path_ <> Some (Z.of_nat property_index))
      then
        insert_key_layered_elements layer binding rna_path_
          rna_path_id_to_prop rna_values scene_frame key_settings
          insert_key_flags rest action_ combined_result
      else
        the_layer ← layer_array action_ !! layer;
        '(result, the_layer) ←
          insert_key_layer the_layer binding rna_path_id_to_prop
            (scene_frame, float_get rna_values property_index)
            (Z.of_nat property_index) key_settings insert_key_flags;
        insert_key_layered_elements layer binding rna_path_
          rna_path_id_to_prop rna_values scene_frame key_settings
          insert_key_flags rest
          (set_layer_array action_ (<[layer := the_layer]> (layer_array action_)))
          (add1 combined_result result)
  end.

(** The locals that the path loop of [insert_key_layered_action] updates. *)
Record LayeredState : Set := mkLayeredState {
  ls_action : bAction;
  ls_result : CombinedKeyingResult;
  ls_events : list Event
}.

(** The loop of [insert_key_layered_action] over the paths still to
    visit. *)
Fixpoint insert_key_layered_paths (layer : nat) (binding : Binding)
    (rna_pointer : PointerRNA) (scene_frame : float)
    (key_settings : KeyframeSettings) (insert_key_flags : Z)
    (rna_paths : list RNAPath) (st : LayeredState) : option LayeredState :=
  match rna_paths with
  | [] => Some st
  | rna_path_ :: rest =>
      match RNA_path_resolve_property rna_pointer (path rna_path_) with
      | None =>
          insert_key_layered_paths layer binding rna_pointer scene_frame
            key_settings insert_key_flags rest
            (mkLayeredState (ls_action st)
               (add1 (ls_result st) CANNOT_RESOLVE_PATH)
               (ls_events st ++
                [EvStderr ("Failed to insert key on binding " +:+
                           binding_name binding +:+
                           " due to unresolved RNA path: " +:+
                           path rna_path_ +:+ newline)]))
      | Some (ptr, prop) =>
          rna_path_id_to_prop ← RNA_path_from_ID_to_property ptr prop;
          let use_visual_keyframing :=
            flag_test insert_key_flags INSERTKEY_MATRIX in
          let rna_values := get_keyframe_values ptr prop use_visual_keyframing in
          '(action_, combined_result) ←
            insert_key_layered_elements layer binding rna_path_
              rna_path_id_to_prop rna_values scene_frame key_settings
              insert_key_flags (seq 0 (length rna_values)) (ls_action st)
              (ls_result st);
          insert_key_layered_paths layer binding rna_pointer scene_frame
            key_settings insert_key_flags rest
            (mkLayeredState action_ combined_result (ls_events st))
      end
  end.

(** What [insert_key_layered_action] leaves: the returned aggregate, the
    Action, the data-block and the events. *)
Record LayeredRun : Set := mkLayeredRun {
  layered_result : CombinedKeyingResult;
  layered_action : bAction;
  layered_id : ID;
  layered_events : list Event
}.

(** What [insert_key_rna] leaves: the returned aggregate, the data-block
    (with its Action) and the events. *)
Record BatchRun : Set := mkBatchRun {
  batch_result : CombinedKeyingResult;
  batch_id : ID;
  batch_events : list Event
}.

(** The start of [insert_key_layered_action]: the Binding for the handle,
    or a new Binding that is assigned to the data-block. The assertion on
    the assignment is part of the function's precondition. The Binding is
    passed on by value. *)
Definition layered_binding_ensure (action_ : bAction) (binding_handle_ : Z)
    (id : ID) : option (bAction * ID * Binding) :=
  match binding_for_handle action_ binding_handle_ with
  | Some binding => Some (action_, id, binding)
  | None =>
      let '(action_, binding) := binding_add_for_id action_ id in
      let '(success, action_, id) := assign_id action_ (Some binding) id in
      if success then Some (action_, id, binding) else None
  end.

(** [insert_key_layered_action]. [id] is [rna_pointer->owner_id]. The
    assertions are the function's precondition; there is no result outside
    it. *)
Definition insert_key_layered_action (action_ : bAction) (binding_handle_ : Z)
    (rna_pointer : PointerRNA) (id : ID) (rna_paths : list RNAPath)
    (scene_frame : float) (key_settings : KeyframeSettings)
    (insert_key_flags : Z) : option LayeredRun :=
  if negb (is_action_layered action_) then None
  else
    '(action_, id, binding) ← layered_binding_ensure action_ binding_handle_ id;
    let action_ := layer_ensure_at_least_one action_ in
    layer ← get_layer_for_keyframing action_;
    st ←
      insert_key_layered_paths layer binding rna_pointer scene_frame
        key_settings insert_key_flags rna_paths
        (mkLayeredState action_ CombinedKeyingResult_new []);
    Some (mkLayeredRun (ls_result st) (ls_action st) id
            (DEG_id_tag_update (ls_events st) (act_name (ls_action st))
               ID_RECALC_ANIMATION_NO_FLUSH)).

(** The handle type and interpolation that [insert_key_rna] hard-codes. *)
Definition HD_AUTO_ANIM : Z := 4.
Definition BEZT_IPO_BEZ : Z := 2.

(** The legacy loop of [insert_key_rna] over the paths still to visit. *)
Fixpoint insert_key_rna_legacy_paths (rna_pointer : PointerRNA)
    (nla_context : option NlaKeyframingContext) (nla_frame : float)
    (visual_keyframing : bool) (insert_key_flags : Z) (key_type : Z)
    (anim_eval_context : AnimationEvalContext) (rna_paths : list RNAPath)
    (action_ : bAction) (combined_result : CombinedKeyingResult)
    : option (bAction * CombinedKeyingResult) :=
  match rna_paths with
  | [] => Some (action_, combined_result)
  | rna_path_ :: rest =>
      match RNA_path_resolve_property rna_pointer (path rna_path_) with
      | None =>
          insert_key_rna_legacy_paths rna_pointer nla_context nla_frame
            visual_keyframing insert_key_flags key_type anim_eval_context rest
            action_ (add1 combined_result CANNOT_RESOLVE_PATH)
      | Some (ptr, prop) =>
          rna_path_id_to_prop ← RNA_path_from_ID_to_property ptr prop;
          let rna_values := get_keyframe_values ptr prop visual_keyframing in
          let remap :=
            BKE_animsys_nla_remap_keyframe_values nla_context rna_pointer prop
              rna_values (default (-1) (index rna_path_)) anim_eval_context
              false in
          let successful_remaps :=
            span_write (replicate (length rna_values) false)
              (r_successful_remaps remap) in
          let rna_values := span_write rna_values (remapped_values remap) in
          '(result, action_) ←
            insert_key_legacy_action action_ rna_pointer prop
              rna_path_id_to_prop nla_frame rna_values insert_key_flags
              key_type successful_remaps;
          insert_key_rna_legacy_paths rna_pointer nla_context nla_frame
            visual_keyframing insert_key_flags key_type anim_eval_context rest
            action_ (merge combined_result result)
      end
  end.

(** [insert_key_rna]. [id] is [rna_pointer->owner_id]. *)
Definition insert_key_rna (rna_pointer : PointerRNA) (id : ID)
    (rna_paths : list RNAPath) (scene_frame : float) (insert_key_flags : Z)
    (key_type : Z) (anim_eval_context : AnimationEvalContext)
    : option BatchRun :=
  let combined_result := CombinedKeyingResult_new in
  match BKE_animdata_ensure_id id with
  | (None, id) =>
      Some (mkBatchRun (add1 combined_result ID_NOT_ANIMATABLE) id [])
  | (Some _, id) =>
      '(action_, id) ←
        match id_action_ensure id with
        | (Some action_, id) => Some (action_, id)
        | (None, _) => None
        end;
      adt_ ← BKE_animdata_from_id id;
      if use_animation_baklava && is_action_layered action_ then
        let key_settings := mkKeyframeSettings key_type HD_AUTO_ANIM BEZT_IPO_BEZ in
        run ←
          insert_key_layered_action action_ (binding_handle adt_) rna_pointer
            id rna_paths scene_frame key_settings insert_key_flags;
        Some (mkBatchRun (layered_result run)
                (id_write_action (layered_id run) (layered_action run))
                (layered_events run))
      else
        let nla_context :=
          if bool_decide (act_name <$> action adt_ = Some (act_name action_))
          then BKE_animsys_get_nla_keyframing_context
                 (RNA_id_pointer_create id) adt_ anim_eval_context
          else None in
        let nla_frame := BKE_nla_tweakedit_remap adt_ scene_frame in
        let visual_keyframing := flag_test insert_key_flags INSERTKEY_MATRIX in
        '(action_, combined_result) ←
          insert_key_rna_legacy_paths rna_pointer nla_context nla_frame
            visual_keyframing insert_key_flags key_type anim_eval_context
            rna_paths action_ combined_result;
        Some (mkBatchRun combined_result (id_write_action id action_) [])
  end.

End Keyframing.

(** ** Vocabulary of the statements *)

(** The error kinds whose count is not zero, in enumeration order. *)
Definition nonzero_error_kinds (a : CombinedKeyingResult)
    : list SingleKeyingResult :=
  filter (fun r => get_count a r <> 0) error_kinds.

(** The aggregates that the interface builds from the empty one with
    counts that are not negative. *)
Inductive built : CombinedKeyingResult -> Prop :=
| built_new : built CombinedKeyingResult_new
| built_add (a : CombinedKeyingResult) (r : SingleKeyingResult) (c : Z) :
    built a -> 0 <= c -> built (add a r c)
| built_merge (a b : CombinedKeyingResult) :
    built a -> built b -> built (merge a b).

(** A sub-message of the combined report: a new line, a dash, the text. *)
Definition bullet (text : string) : string := newline +:+ "- " +:+ text.

Definition string_concat (l : list string) : string :=
  foldr String.append EmptyString l.

(** The time and the value of a keyframe point. *)
Definition bezt_time (b : BezTriple) : float := fst (vec1 b).
Definition bezt_value (b : BezTriple) : float := snd (vec1 b).

(** The cycles data of the first modifier, which
    [remap_cyclic_keyframe_location] reads for offset cycles. *)
Definition first_cycles_data (fcu : FCurve) : option FMod_Cycles :=
  match modifiers fcu with
  | fcm :: _ => fmod_cycles fcm
  | [] => None
  end.

(** ** A concrete set of collaborators

    The embedding runs on examples with the collaborators below: a point
    insertion that keeps the points in time order and overwrites a point at
    the same time, a property locator that knows three vector properties,
    an NLA remapper that either reports the requested channels or forces
    and accepts all channels, and a layered Action that keeps one layer with
    one infinite strip. *)

Definition simple_get_cycle_type (fcu : FCurve) : eFCU_Cycle_Type :=
  match modifiers fcu with
  | fcm :: _ =>
      match fmod_type fcm, fmod_cycles fcm with
      | FMODIFIER_TYPE_CYCLES, Some data =>
          let cyclic m := bool_decide (m = FCM_EXTRAPOLATE_CYCLIC) in
          let offset m := bool_decide (m = FCM_EXTRAPOLATE_CYCLIC_OFFSET) in
          if cyclic (before_mode data) && cyclic (after_mode data)
          then FCU_CYCLE_PERFECT
          else if (cyclic (before_mode data) || offset (before_mode data))
                  && (cyclic (after_mode data) || offset (after_mode data))
          then FCU_CYCLE_OFFSET
          else FCU_CYCLE_NONE
      | _, _ => FCU_CYCLE_NONE
      end
  | [] => FCU_CYCLE_NONE
  end.

Fixpoint simple_bezt_insert (b : BezTriple) (l : list BezTriple)
    : list BezTriple :=
  match l with
  | [] => [b]
  | x :: rest =>
      if float_lt (bezt_time b) (bezt_time x) then b :: x :: rest
      else if float_eq (bezt_time b) (bezt_time x) then b :: rest
      else x :: simple_bezt_insert b rest
  end.

Definition simple_insert_vert_fcurve (fcu : FCurve) (position : float2)
    (settings : KeyframeSettings) (flag : Z) : SingleKeyingResult * FCurve :=
  let b :=
    mkBezTriple position position position (interpolation settings)
      (handle settings) (handle settings) (keyframe_type settings) in
  (SUCCESS, set_bezt fcu (simple_bezt_insert b (bezt fcu))).

Definition simple_add_fmodifier (mods : list FModifier)
    (type : eFModifier_Types) (fcu : FCurve) : list FModifier :=
  mkFModifier type 0
    (if bool_decide (type = FMODIFIER_TYPE_CYCLES)
     then Some (mkFMod_Cycles FCM_EXTRAPOLATE_CYCLIC FCM_EXTRAPOLATE_CYCLIC 0 0)
     else None)
  :: mods.

Definition simple_resolve_property (ptr : PointerRNA) (path_ : string)
    : option (PointerRNA * PropertyRNA) :=
  if bool_decide (path_ = "location") || bool_decide (path_ = "rotation_euler")
     || bool_decide (path_ = "scale")
  then Some (ptr, mkPropertyRNA path_ path_ PROP_FLOAT)
  else None.

(** With [force] the remapper sets the force-all flag (when asked for it)
    and accepts every channel; without, it accepts the requested
    channels. *)
Definition simple_nla_remap (force : bool) (values : list float) (index_ : Z)
    (want_force_all : bool) : NlaRemap :=
  mkNlaRemap values (force && want_force_all)
    (map (fun i => force || (index_ =? -1) || (index_ =? Z.of_nat i))
       (seq 0 (length values))).

Definition simple_binding_for_handle (act : bAction) (h : Z) : option Binding :=
  snd <$> list_find (fun b => binding_handle_of b = h) (binding_array act).

Definition simple_binding_add_for_id (act : bAction) (id : ID)
    : bAction * Binding :=
  let b :=
    mkBinding (1 + Z.of_nat (length (binding_array act)))
      ("OB" +:+ id_name id) 0 in
  (mkAction (act_name act) (curves act) (groups act) (frame_start act)
     (frame_end act) (act_flag act) (layer_array act) (binding_array act ++ [b]),
   b).

Definition simple_assign_id (act : bAction) (b : option Binding) (id : ID)
    : bool * bAction * ID :=
  match adt id, b with
  | Some a, Some b =>
      (true, act,
       set_adt id
         (Some (mkAnimData (action a) (binding_handle_of b) (binding_name b)
                  (adt_flag a))))
  | _, _ => (false, act, id)
  end.

Definition simple_layer_ensure_at_least_one (act : bAction) : bAction :=
  if is_null (layer_array act)
  then set_layer_array act [mkLayer "Layer" [mkStrip None None (float_of_Z 0)
      []]]
  else act.

Definition simple_get_layer_for_keyframing (act : bAction) : option nat :=
  if is_null (layer_array act) then None else Some 0%nat.

(** The strip finds or creates the channel bag of the binding and the
    curve of the channel, and inserts the point. *)
Definition simple_keyframe_insert (strip : Strip) (binding : Binding)
    (rna_path_ : string) (array_index_ : Z) (time_value : float2)
    (settings : KeyframeSettings) (flags : Z) : SingleKeyingResult * Strip :=
  let h := binding_handle_of binding in
  let '(bags, bag_pos, bag) :=
    match list_find (fun bag => channelbag_binding_handle bag = h)
            (channelbags strip) with
    | Some (pos, bag) => (channelbags strip, pos, bag)
    | None =>
        (channelbags strip ++ [mkChannelBag h []],
         length (channelbags strip), mkChannelBag h [])
    end in
  let '(curves_, fcu_pos, fcu) :=
    match list_find
            (fun fcu => rna_path fcu = rna_path_ /\ array_index fcu = array_index_)
            (fcurves bag) with
    | Some (pos, fcu) => (fcurves bag, pos, fcu)
    | None =>
        let fcu := mkFCurve [] [] 0 [] rna_path_ array_index_ None in
        (fcurves bag ++ [fcu], length (fcurves bag), fcu)
    end in
  let '(result, fcu) := simple_insert_vert_fcurve fcu time_value settings flags in
  (result,
   mkStrip (strip_frame_start strip) (strip_frame_end strip)
     (strip_frame_offset strip)
     (<[bag_pos := mkChannelBag h (<[fcu_pos := fcu]> curves_)]> bags)).

Definition simple_externals (force : bool) : Externals := {|
  BKE_fcurve_get_cycle_type := simple_get_cycle_type;
  get_keyframe_settings := fun _ => mkKeyframeSettings 0 4 2;
  insert_vert_fcurve := simple_insert_vert_fcurve;
  add_fmodifier := simple_add_fmodifier;
  BKE_action_is_cyclic := fun _ => false;
  BKE_id_is_editable := fun _ => true;
  RNA_path_resolve_property := simple_resolve_property;
  RNA_path_from_ID_to_property := fun _ prop => Some (prop_identifier prop);
  get_rna_values := fun _ _ => [float_of_Z 1; float_of_Z 2; float_of_Z 3];
  visualkey_can_use := fun _ _ => false;
  visualkey_get_values := fun _ _ => [];
  NlaKeyframingContext := unit;
  BKE_animsys_get_nla_keyframing_context := fun _ _ _ => None;
  BKE_nla_tweakedit_remap := fun _ t => t;
  BKE_animsys_nla_remap_keyframe_values :=
    fun _ _ _ values index_ _ want => simple_nla_remap force values index_ want;
  use_animation_baklava := true;
  binding_for_handle := simple_binding_for_handle;
  binding_add_for_id := simple_binding_add_for_id;
  assign_id := simple_assign_id;
  layer_ensure_at_least_one := simple_layer_ensure_at_least_one;
  get_layer_for_keyframing := simple_get_layer_for_keyframing;
  keyframe_insert := simple_keyframe_insert
|}.

(** A curve with the given points, no samples, no flags, and the given
    modifiers. *)
Definition example_curve (points : list BezTriple) (mods : list FModifier)
    : FCurve :=
  mkFCurve points [] 0 mods "location" 0 None.

Definition example_point (time value : float) : BezTriple :=
  mkBezTriple (time, value) (time, value) (time, value) 2 4 4 0.

Definition cycles_modifier (before after : eFMod_Cycling_Modes) : FModifier :=
  mkFModifier FMODIFIER_TYPE_CYCLES 0 (Some (mkFMod_Cycles before after 0 0)).

(** An object "Cube" whose legacy Action holds one curve, for channel 1 of
    "location", with one point at frame 5. *)
Definition example_location_1 : FCurve :=
  mkFCurve [example_point (float_of_Z 5) (float_of_Z 0)] [] 0 [] "location" 1
      None.

Definition example_action : bAction :=
  mkAction "CubeAction" [example_location_1] [] (float_of_Z 0) (float_of_Z 0) 0
      [] [].

Definition example_id : ID :=
  mkID "Cube" RNA_Object true
    (Some (mkAnimData (Some example_action) 0 EmptyString 0)).

(** The same object with an empty Action, which is valid as a layered
    Action. *)
Definition example_empty_action : bAction :=
  mkAction "CubeAction" [] [] (float_of_Z 0) (float_of_Z 0) 0 [] [].

Definition example_layered_id : ID :=
  mkID "Cube" RNA_Object true
    (Some (mkAnimData (Some example_empty_action) 0 EmptyString 0)).

Definition example_pointer : PointerRNA :=
  mkPointerRNA (Some "Cube") RNA_Object (Some "Cube").

Definition example_context : AnimationEvalContext := mkAnimationEvalContext
    (float_of_Z 1).

(** The three results of [remap_cyclic_keyframe_location]. *)
Definition remap_type (r : eFCU_Cycle_Type * float * float) : eFCU_Cycle_Type :=
  fst (fst r).
Definition remap_time (r : eFCU_Cycle_Type * float * float) : float :=
  snd (fst r).
Definition remap_value (r : eFCU_Cycle_Type * float * float) : float := snd r.

(** The aggregate that records the outcomes of a list of attempts, on top
    of an aggregate. *)
Definition tally_from (c : CombinedKeyingResult) (l : list Attempt)
    : CombinedKeyingResult :=
  foldl (fun c t => add1 c (attempt_result t)) c l.

Definition tally (l : list Attempt) : CombinedKeyingResult :=
  tally_from CombinedKeyingResult_new l.

(** The number of successful attempts. *)
Definition successes (l : list Attempt) : Z :=
  Z.of_nat (length (filter (fun t => attempt_result t = SUCCESS) l)).

(** A run of the loops extends the attempts by [T]: the aggregate
    receives the outcomes of [T] and the key count its successes. *)
Definition extends (st st' : KeyState) (T : list Attempt) : Prop :=
  ks_attempts st' = ks_attempts st ++ T
  /\ ks_result st' = tally_from (ks_result st) T
  /\ ks_key_count st' = ks_key_count st + successes T.

(** Two states of the path loop with the same Action, the second with one
    more outcome of kind [X]. *)
Definition shifted (X : SingleKeyingResult) (s s' : LayeredState) : Prop :=
  ls_action s' = ls_action s /\ ls_result s' = add1 (ls_result s) X.

(** The number of outcomes an aggregate holds, over all kinds. *)
Definition total_count (c : CombinedKeyingResult) : Z :=
  get_count c SUCCESS + foldr Z.add 0 (map (get_count c) error_kinds).

(** The channels below [n] that a mask rejects. *)
Definition masked_out (mask : list bool) (n : nat) : list nat :=
  filter (fun i => bit_get mask i = false) (seq 0 n).

Section StatementVocabulary.
Context `{E : Externals}.

(** What [insert_keyframe] computes before it keys the channels, for the
    data-block [id] as [id_action_ensure] left it, its Action [act] and
    the resolved property: the output of the NLA remapper, the values left
    in the span, the bits of [successful_remaps], and the remapped frame. *)
Definition keyframe_nla (id : ID) (act : bAction) (ptr : PointerRNA)
    (prop : PropertyRNA) (array_index_ : Z)
    (anim_eval_context : AnimationEvalContext) (flag : Z) : NlaRemap :=
  BKE_animsys_nla_remap_keyframe_values
    (snd (nla_time_remap anim_eval_context (RNA_id_pointer_create id)
            (BKE_animdata_from_id id) act))
    ptr prop (get_keyframe_values ptr prop (flag_test flag INSERTKEY_MATRIX))
    array_index_ anim_eval_context true.

Definition keyframe_values (id : ID) (act : bAction) (ptr : PointerRNA)
    (prop : PropertyRNA) (array_index_ : Z)
    (anim_eval_context : AnimationEvalContext) (flag : Z) : list float :=
  span_write (get_keyframe_values ptr prop (flag_test flag INSERTKEY_MATRIX))
    (remapped_values
       (keyframe_nla id act ptr prop array_index_ anim_eval_context flag)).

Definition keyframe_remaps (id : ID) (act : bAction) (ptr : PointerRNA)
    (prop : PropertyRNA) (array_index_ : Z)
    (anim_eval_context : AnimationEvalContext) (flag : Z) : list bool :=
  span_write
    (replicate
       (length (get_keyframe_values ptr prop (flag_test flag INSERTKEY_MATRIX)))
       false)
    (r_successful_remaps
       (keyframe_nla id act ptr prop array_index_ anim_eval_context flag)).

Definition keyframe_frame (id : ID) (act : bAction)
    (anim_eval_context : AnimationEvalContext) : float :=
  fst (nla_time_remap anim_eval_context (RNA_id_pointer_create id)
         (BKE_animdata_from_id id) act).

(** The settings [insert_keyframe_value] hands to the point insertion. *)
Definition point_settings (flag keytype : Z) : KeyframeSettings :=
  set_keyframe_type
    (get_keyframe_settings (Z.land flag INSERTKEY_NO_USERPREF =? 0)) keytype.

(** The point insertion adds exactly one point to the curve, reports
    success, and leaves the curve's path and index. *)
Definition inserts_one_point (fcu : FCurve) (position : float2)
    (settings : KeyframeSettings) (flag : Z) : Prop :=
  exists fcu',
    insert_vert_fcurve fcu position settings flag = (SUCCESS, fcu')
    /\ rna_path fcu' = rna_path fcu
    /\ array_index fcu' = array_index fcu
    /\ length (bezt fcu') = S (length (bezt fcu)).

(** The layer at position [li] of the Action is as [insert_key_layer]
    asserts it: exactly one strip, infinite, without time offset. *)
Definition keyframing_layer_ready (act : bAction) (li : nat) : Prop :=
  exists layer strip,
    layer_array act !! li = Some layer
    /\ strips layer = [strip]
    /\ strip_is_infinite strip = true
    /\ float_eq (strip_frame_offset strip) (float_of_Z 0) = true.

(** [keyframe_insert] leaves the frame range and the offset of the
    strip. *)
Definition keyframe_insert_keeps_range : Prop :=
  forall strip binding rna_path_ array_index_ position settings flags,
    let strip' :=
      snd (keyframe_insert strip binding rna_path_ array_index_ position
             settings flags) in
    strip_frame_start strip' = strip_frame_start strip
    /\ strip_frame_end strip' = strip_frame_end strip
    /\ strip_frame_offset strip' = strip_frame_offset strip.

(** Every property of the batch that the locator resolves has a path from
    its data-block. *)
Definition resolved_have_paths (rna_pointer : PointerRNA)
    (rna_paths : list RNAPath) : Prop :=
  forall p ptr prop,
    p ∈ rna_paths ->
    RNA_path_resolve_property rna_pointer (path p) = Some (ptr, prop) ->
    is_Some (RNA_path_from_ID_to_property ptr prop).

End StatementVocabulary.

(** The number of keyframe points an Action holds, in its legacy curves
    and in the channel bags of its layers. *)
Definition curve_points (l : list FCurve) : nat :=
  foldr Nat.add 0%nat (map (fun fcu => length (bezt fcu)) l).

Definition action_points (act : bAction) : nat :=
  (curve_points (curves act)
   + curve_points
       (layer ← layer_array act; strip ← strips layer;
        bag ← channelbags strip; fcurves bag))%nat.

(** A run notified the dependency system. *)
Definition notified (events : list Event) : Prop :=
  exists name recalc, EvDegTag name recalc ∈ events.

(** C4 as claimed, for one run of the layered path: a notification only if
    at least one key was written. *)
Definition notified_only_if_key_written (run : LayeredRun) : Prop :=
  notified (layered_events run) -> 0 < get_count (layered_result run) SUCCESS.

(** Two runs of a batch that differ by one requested path that does not
    resolve: one more [CANNOT_RESOLVE_PATH], and otherwise the same
    outcomes and the same data. *)
Definition one_more_unresolved_layered (r r' : LayeredRun) : Prop :=
  layered_result r' = add1 (layered_result r) CANNOT_RESOLVE_PATH
  /\ layered_action r' = layered_action r
  /\ layered_id r' = layered_id r.

Definition one_more_unresolved (r r' : BatchRun) : Prop :=
  batch_result r' = add1 (batch_result r) CANNOT_RESOLVE_PATH
  /\ batch_id r' = batch_id r.

(** A curve of "location" at array index 3, which a 3-element property
    does not have. *)
Definition example_location_3 : FCurve :=
  mkFCurve [] [] 0 [] "location" 3 None.

Definition example_settings : KeyframeSettings := mkKeyframeSettings 0 4 2.

(** ** Keying flags from the settings

    [eKeying_Flag], the tool settings of a scene and the user preferences
    [U] are declared outside the sources: the three keying flags that
    [get_keyframing_flags] tests and [U.keying_flag] are parameters. *)
Record ToolSettings : Set := mkToolSettings { keying_flag : Z }.

Record Scene : Set := mkScene { toolsettings : ToolSettings }.

Section KeyingFlags.
Context (KEYING_FLAG_VISUALKEY KEYING_FLAG_CYCLEAWARE
         MANUALKEY_FLAG_INSERTNEEDED : Z).
Context (U_keying_flag : Z).

(** [is_keying_flag]; [scene] is [None] for [nullptr]. *)
Definition is_keying_flag (scene : option Scene) (flag : Z) : bool :=
  match scene with
  | Some scene =>
      flag_test (keying_flag (toolsettings scene)) flag
      || flag_test U_keying_flag flag
  | None => flag_test U_keying_flag flag
  end.

(** [get_keyframing_flags]. *)
Definition get_keyframing_flags (scene : option Scene) : Z :=
  let flag := INSERTKEY_NOFLAGS in
  let flag :=
    if is_keying_flag scene KEYING_FLAG_VISUALKEY
    then Z.lor flag INSERTKEY_MATRIX else flag in
  let flag :=
    if is_keying_flag scene KEYING_FLAG_CYCLEAWARE
    then Z.lor flag INSERTKEY_CYCLE_AWARE else flag in
  let flag :=
    if is_keying_flag scene MANUALKEY_FLAG_INSERTNEEDED
    then Z.lor flag INSERTKEY_NEEDED else flag in
  flag.

End KeyingFlags.

(** ** Keyframe deletion

    [delete_keyframe] and [clear_keyframe] work on the data-block, on its
    animation data and on the Action behind [act], which is the assigned
    Action when [act] is null. The functions they call to delete are
    defined outside the sources and reach the animation data and the
    Action through the pointers they are given: they are parameters that
    return the animation data and the Action as they leave them. A curve
    is handed over as its position in the Action. *)

(** The calls to the dependency graph that the deletion makes. *)
Inductive DepsgraphCall : Set :=
| DegIdTagUpdateEx (name : string) (recalc : Z)
| DegRelationsTagUpdate.

#[global] Instance DepsgraphCall_eq_dec : EqDecision DepsgraphCall.
Proof. solve_decision. Defined.

(** The collaborators of the deletion:
    - [RNA_property_array_length];
    - [delete_keyframe_fcurve(adt, fcu, cfra)]: whether a key was deleted;
    - [animdata_fcurve_delete(nullptr, adt, fcu)];
    - [BKE_idtype_idcode_to_name(GS(id->name))]. *)
Class DeletionExternals : Type := {
  RNA_property_array_length : PointerRNA -> PropertyRNA -> Z;
  delete_keyframe_fcurve :
    AnimData -> bAction -> nat -> float -> bool * AnimData * bAction;
  animdata_fcurve_delete : AnimData -> bAction -> nat -> AnimData * bAction;
  BKE_idtype_idcode_to_name : ID -> string
}.

(** [name + n]: the string past its first [n] characters. *)
Fixpoint string_skip (n : nat) (s : string) : string :=
  match n, s with
  | S n, String _ s => string_skip n s
  | _, _ => s
  end.

(** The values [array_index, ..., array_index_max - 1] of the loop
    variable. *)
Definition index_range (array_index_ array_index_max : Z) : list Z :=
  map (fun k => array_index_ + Z.of_nat k)
    (seq 0 (Z.to_nat (array_index_max - array_index_))).

(** What a run of [delete_keyframe] or [clear_keyframe] leaves: the
    returned count, the reports, the calls to the dependency graph, the
    data-block and the Action behind [act]. *)
Record DeleteRun : Set := mkDeleteRun {
  delete_return : Z;
  delete_reports : ReportList;
  delete_calls : list DepsgraphCall;
  delete_id : option ID;
  delete_act : option bAction
}.

Section Deletion.
Context `{E : Externals} `{D : DeletionExternals}.

(** [deg_tag_after_keyframe_delete]. *)
Definition deg_tag_after_keyframe_delete (calls : list DepsgraphCall)
    (id : ID) (adt_ : AnimData) : list DepsgraphCall :=
  match action adt_ with
  | None =>
      calls ++ [DegIdTagUpdateEx (id_name id) ID_RECALC_ANIMATION_NO_FLUSH;
                DegRelationsTagUpdate]
  | Some adt_action =>
      calls ++ [DegIdTagUpdateEx (act_name adt_action)
                  ID_RECALC_ANIMATION_NO_FLUSH]
  end.

(** The bounds of the loops of [delete_keyframe] and [clear_keyframe]:
    [array_index] and [array_index_max] when the loop starts. *)
Definition delete_index_bounds (ptr : PointerRNA) (prop : PropertyRNA)
    (array_index_ : Z) : Z * Z :=
  let array_index_max := array_index_ + 1 in
  if array_index_ =? -1 then
    let array_index_ := 0 in
    let array_index_max := RNA_property_array_length ptr prop in
    if array_index_max =? array_index_
    then (array_index_, array_index_max + 1)
    else (array_index_, array_index_max)
  else (array_index_, array_index_max).

(** The loop of [delete_keyframe] over the indices still to visit. *)
Fixpoint delete_keyframe_loop (id : ID) (rna_path_ : string) (cfra : float)
    (indices : list Z) (reports : ReportList) (adt_ : AnimData)
    (act : bAction) (key_count : Z) : ReportList * AnimData * bAction * Z :=
  match indices with
  | [] => (reports, adt_, act, key_count)
  | array_index_ :: rest =>
      match action_fcurve_find act rna_path_ array_index_ with
      | None =>
          delete_keyframe_loop id rna_path_ cfra rest reports adt_ act
            key_count
      | Some (pos, fcu) =>
          if BKE_fcurve_is_protected fcu then
            delete_keyframe_loop id rna_path_ cfra rest
              (BKE_report reports RPT_WARNING
                 ("Not deleting keyframe for locked F-Curve '" +:+
                  rna_path fcu +:+ "' for " +:+ BKE_idtype_idcode_to_name id
                  +:+ " '" +:+ string_skip 2 (id_name id) +:+ "'"))
              adt_ act key_count
          else
            let '(deleted, adt_, act) :=
              delete_keyframe_fcurve adt_ act pos cfra in
            delete_keyframe_loop id rna_path_ cfra rest reports adt_ act
              (key_count + (if deleted then 1 else 0))
      end
  end.

(** [delete_keyframe]; [id] and [act] are [None] for [nullptr]. *)
Definition delete_keyframe (reports : ReportList) (id : option ID)
    (act : option bAction) (rna_path_ : string) (array_index_ : Z)
    (cfra : float) : DeleteRun :=
  match id, id ≫= BKE_animdata_from_id with
  | Some id_, Some adt_ =>
      let id_ptr := RNA_id_pointer_create id_ in
      match RNA_path_resolve_property id_ptr rna_path_ with
      | None =>
          mkDeleteRun 0
            (BKE_report reports RPT_ERROR
               ("Could not delete keyframe, as RNA path is invalid for the given ID (ID = "
                +:+ id_name id_ +:+ ", path = " +:+ rna_path_ +:+ ")"))
            [] id act
      | Some (ptr, prop) =>
          let resolved :=
            match act with
            | Some act => Some (act, cfra)
            | None =>
                match action adt_ with
                | Some adt_action =>
                    Some (adt_action, BKE_nla_tweakedit_remap adt_ cfra)
                | None => None
                end
            end in
          match resolved with
          | None =>
              mkDeleteRun 0
                (BKE_report reports RPT_ERROR
                   ("No action to delete keyframes from for ID = " +:+
                    id_name id_))
                [] id act
          | Some (act_, cfra) =>
              let '(array_index_, array_index_max) :=
                delete_index_bounds ptr prop array_index_ in
              let '(reports, adt_, act_, key_count) :=
                delete_keyframe_loop id_ rna_path_ cfra
                  (index_range array_index_ array_index_max) reports adt_
                  act_ 0 in
              let calls :=
                if negb (key_count =? 0)
                then deg_tag_after_keyframe_delete [] id_ adt_
                else [] in
              mkDeleteRun key_count reports calls
                (Some (set_adt id_ (Some adt_))) (Some act_)
          end
      end
  | _, _ =>
      mkDeleteRun 0
        (BKE_report reports RPT_ERROR
           "No ID block and/or AnimData to delete keyframe from")
        [] id act
  end.

(** The loop of [clear_keyframe] over the indices still to visit. *)
Fixpoint clear_keyframe_loop (id : ID) (rna_path_ : string)
    (indices : list Z) (reports : ReportList) (adt_ : AnimData)
    (act : bAction) (key_count : Z) : ReportList * AnimData * bAction * Z :=
  match indices with
  | [] => (reports, adt_, act, key_count)
  | array_index_ :: rest =>
      match action_fcurve_find act rna_path_ array_index_ with
      | None =>
          clear_keyframe_loop id rna_path_ rest reports adt_ act key_count
      | Some (pos, fcu) =>
          if BKE_fcurve_is_protected fcu then
            clear_keyframe_loop id rna_path_ rest
              (BKE_report reports RPT_WARNING
                 ("Not clearing all keyframes from locked F-Curve '" +:+
                  rna_path fcu +:+ "' for " +:+ BKE_idtype_idcode_to_name id
                  +:+ " '" +:+ string_skip 2 (id_name id) +:+ "'"))
              adt_ act key_count
          else
            let '(adt_, act) := animdata_fcurve_delete adt_ act pos in
            clear_keyframe_loop id rna_path_ rest reports adt_ act
              (key_count + 1)
      end
  end.

(** [clear_keyframe]; the flag argument is unused. *)
Definition clear_keyframe (reports : ReportList) (id : option ID)
    (act : option bAction) (rna_path_ : string) (array_index_ : Z)
    : DeleteRun :=
  match id, id ≫= BKE_animdata_from_id with
  | Some id_, Some adt_ =>
      let id_ptr := RNA_id_pointer_create id_ in
      match RNA_path_resolve_property id_ptr rna_path_ with
      | None =>
          mkDeleteRun 0
            (BKE_report reports RPT_ERROR
               ("Could not clear keyframe, as RNA path is invalid for the given ID (ID = "
                +:+ id_name id_ +:+ ", path = " +:+ rna_path_ +:+ ")"))
            [] id act
      | Some (ptr, prop) =>
          let resolved :=
            match act with
            | Some act => Some act
            | None => action adt_
            end in
          match resolved with
          | None =>
              mkDeleteRun 0
                (BKE_report reports RPT_ERROR
                   ("No action to delete keyframes from for ID = " +:+
                    id_name id_))
                [] id act
          | Some act_ =>
              let '(array_index_, array_index_max) :=
                delete_index_bounds ptr prop array_index_ in
              let '(reports, adt_, act_, key_count) :=
                clear_keyframe_loop id_ rna_path_
                  (index_range array_index_ array_index_max) reports adt_
                  act_ 0 in
              let calls :=
                if negb (key_count =? 0)
                then deg_tag_after_keyframe_delete [] id_ adt_
                else [] in
              mkDeleteRun key_count reports calls
                (Some (set_adt id_ (Some adt_))) (Some act_)
          end
      end
  | _, _ =>
      mkDeleteRun 0
        (BKE_report reports RPT_ERROR
           "No ID block and/or AnimData to delete keyframe from")
        [] id act
  end.

End Deletion.

(** A concrete set of collaborators for the deletion: "location",
    "rotation_euler" and "scale" have three elements and every other
    property is a single value; deleting a key removes the points at the
    frame; deleting a curve removes it from the Action and unassigns an
    Action left without curves. *)
Definition simple_array_length (ptr : PointerRNA) (prop : PropertyRNA) : Z :=
  if bool_decide (prop_identifier prop ∈ ["location"; "rotation_euler"; "scale"])
  then 3 else 0.

Definition simple_write_back (adt_ : AnimData) (act : bAction) : AnimData :=
  if bool_decide (act_name <$> action adt_ = Some (act_name act))
  then set_action adt_ (if is_null (curves act) then None else Some act)
  else adt_.

Definition simple_delete_keyframe_fcurve (adt_ : AnimData) (act : bAction)
    (pos : nat) (cfra : float) : bool * AnimData * bAction :=
  match curves act !! pos with
  | Some fcu =>
      let kept := filter (fun b => float_eq (bezt_time b) cfra = false) (bezt fcu) in
      let act' := set_curves act (<[pos := set_bezt fcu kept]> (curves act)) in
      (negb (length kept =? length (bezt fcu))%nat,
       simple_write_back adt_ act', act')
  | None => (false, adt_, act)
  end.

Definition simple_animdata_fcurve_delete (adt_ : AnimData) (act : bAction)
    (pos : nat) : AnimData * bAction :=
  let act' := set_curves act (delete pos (curves act)) in
  (simple_write_back adt_ act', act').

Definition simple_deletion : DeletionExternals := {|
  RNA_property_array_length := simple_array_length;
  delete_keyframe_fcurve := simple_delete_keyframe_fcurve;
  animdata_fcurve_delete := simple_animdata_fcurve_delete;
  BKE_idtype_idcode_to_name := fun _ => "Object"
|}.

(** The concrete collaborators with a property locator that also knows
    the single-valued boolean property "hide_viewport". *)
Definition scalar_resolve_property (ptr : PointerRNA) (path_ : string)
    : option (PointerRNA * PropertyRNA) :=
  if bool_decide (path_ = "hide_viewport")
  then Some (ptr, mkPropertyRNA path_ "Disable in Viewports" PROP_BOOLEAN)
  else simple_resolve_property ptr path_.

Definition scalar_externals : Externals := {|
  BKE_fcurve_get_cycle_type := simple_get_cycle_type;
  get_keyframe_settings := fun _ => mkKeyframeSettings 0 4 2;
  insert_vert_fcurve := simple_insert_vert_fcurve;
  add_fmodifier := simple_add_fmodifier;
  BKE_action_is_cyclic := fun _ => false;
  BKE_id_is_editable := fun _ => true;
  RNA_path_resolve_property := scalar_resolve_property;
  RNA_path_from_ID_to_property := fun _ prop => Some (prop_identifier prop);
  get_rna_values := fun _ _ => [float_of_Z 1; float_of_Z 2; float_of_Z 3];
  visualkey_can_use := fun _ _ => false;
  visualkey_get_values := fun _ _ => [];
  NlaKeyframingContext := unit;
  BKE_animsys_get_nla_keyframing_context := fun _ _ _ => None;
  BKE_nla_tweakedit_remap := fun _ t => t;
  BKE_animsys_nla_remap_keyframe_values :=
    fun _ _ _ values index_ _ want => simple_nla_remap false values index_ want;
  use_animation_baklava := true;
  binding_for_handle := simple_binding_for_handle;
  binding_add_for_id := simple_binding_add_for_id;
  assign_id := simple_assign_id;
  layer_ensure_at_least_one := simple_layer_ensure_at_least_one;
  get_layer_for_keyframing := simple_get_layer_for_keyframing;
  keyframe_insert := simple_keyframe_insert
|}.

(** "Cube" with one curve for "hide_viewport", keyed at frame 5. *)
Definition example_hidden_id : ID :=
  mkID "Cube" RNA_Object true
    (Some (mkAnimData
             (Some (mkAction "CubeAction"
                      [mkFCurve [example_point (float_of_Z 5) (float_of_Z 1)] []
                          0 []
                         "hide_viewport" 0 None]
                      [] (float_of_Z 0) (float_of_Z 0) 0 [] []))
             0 EmptyString 0)).

(** ** Vocabulary of the further properties *)

(** The indices below [count] that [get_keyframe_values_create_reports]
    evaluates and finds not remapped. *)
Definition failed_indices (index_ : Z) (force_all : bool)
    (successful_remaps : list bool) (count : nat) : list nat :=
  filter (fun i => (index_ = Z.of_nat i \/ index_ = -1 \/ force_all = true)
                   /\ bit_get successful_remaps i = false)
    (seq 0 count).

(** The curves of every other RNA path are still curves of the Action, as
    they were. *)
Definition other_paths_kept (rna_path_ : string) (act act' : bAction) : Prop :=
  forall fcu,
    fcu ∈ curves act -> rna_path fcu <> rna_path_ -> fcu ∈ curves act'.

(** The fields of an Action that the legacy keying code never writes. *)
Definition action_header (act : bAction)
    : string * float * float * Z * list Layer * list Binding :=
  (act_name act, frame_start act, frame_end act, act_flag act,
   layer_array act, binding_array act).

(** The sum of a list of numbers. *)
Definition sum_list (l : list Z) : Z := foldr Z.add 0 l.

Section BatchVocabulary.
Context `{E : Externals}.

(** The number of values of the property that a path of a batch resolves
    to. *)
Definition path_values (rna_pointer : PointerRNA) (insert_key_flags : Z)
    (p : RNAPath) : option nat :=
  '(ptr, prop) ← RNA_path_resolve_property rna_pointer (path p);
  Some (length (get_keyframe_values ptr prop
                  (flag_test insert_key_flags INSERTKEY_MATRIX))).

(** The number of outcomes of one path in the legacy branch of
    [insert_key_rna]: one per value, one for an unresolved path. *)
Definition legacy_path_outcomes (rna_pointer : PointerRNA)
    (insert_key_flags : Z) (p : RNAPath) : Z :=
  match path_values rna_pointer insert_key_flags p with
  | None => 1
  | Some n => Z.of_nat n
  end.

(** The number of outcomes of one path in [insert_key_layered_action]: one
    per value for a path without index, one for a path with an index
    inside the values, none for an index outside, one for an unresolved
    path. *)
Definition layered_path_outcomes (rna_pointer : PointerRNA)
    (insert_key_flags : Z) (p : RNAPath) : Z :=
  match path_values rna_pointer insert_key_flags p with
  | None => 1
  | Some n =>
      match index p with
      | None => Z.of_nat n
      | Some i => if (0 <=? i) && (i <? Z.of_nat n) then 1 else 0
      end
  end.

End BatchVocabulary.

(** What the writes to the channels of one path keep of an Action: the
    curves of other paths, the number of curves at least, and the header. *)
Definition path_frame (rna_path_ : string) (act act' : bAction) : Prop :=
  other_paths_kept rna_path_ act act'
  /\ (length (curves act) <= length (curves act'))%nat
  /\ action_header act' = action_header act.

(** The same, with no curve added. *)
Definition path_frame_fixed (rna_path_ : string) (act act' : bAction) : Prop :=
  path_frame rna_path_ act act'
  /\ length (curves act') = length (curves act).

(** ** A cycle whose ends are not whole frames

    The first key sits at the binary32 number nearest to -0.4, the last key
    at frame 3, and the time to remap is the binary32 number nearest to
    6.4. *)

Definition float_minus_0_4 : float := float_of_bits (-13421773) (-25).

Definition float_6_4 : float := float_of_bits 13421773 (-21).

Definition example_fraction_cycle : FCurve :=
  example_curve
    [example_point float_minus_0_4 (float_of_Z 0);
     example_point (float_of_Z 3) (float_of_Z 5)]
    [cycles_modifier FCM_EXTRAPOLATE_CYCLIC FCM_EXTRAPOLATE_CYCLIC].

(** * Properties *)

(** ** The keying result aggregator *)

Lemma int_of_result_inj (r r' : SingleKeyingResult) :
  int_of_result r = int_of_result r' -> r = r'.
Proof. destruct r, r'; simpl; intros H; try reflexivity; inversion H. Qed.

Lemma get_count_new (r : SingleKeyingResult) :
  get_count CombinedKeyingResult_new r = 0.
Proof. destruct r; reflexivity. Qed.

Lemma get_count_add (a : CombinedKeyingResult) (r r' : SingleKeyingResult)
    (c : Z) :
  get_count (add a r c) r'
  = if decide (r = r') then get_count a r' + c else get_count a r'.
Proof.
  unfold get_count, add; simpl. destruct (decide (r = r')) as [->|Hne].
  - apply vlookup_insert.
  - apply vlookup_insert_ne. intros Heq. apply Hne, int_of_result_inj, Heq.
Qed.

Lemma get_count_add1 (a : CombinedKeyingResult) (r r' : SingleKeyingResult) :
  get_count (add1 a r) r'
  = if decide (r = r') then get_count a r' + 1 else get_count a r'.
Proof. apply get_count_add. Qed.

(** The loop of [merge] over distinct indices adds the other counter at
    the visited indices and leaves the rest. *)
Lemma merge_loop_lookup (other : CombinedKeyingResult)
    (l : list (fin KEYING_RESULT_MAX)) :
  NoDup l ->
  forall (rc : vec Z KEYING_RESULT_MAX) (i : fin KEYING_RESULT_MAX),
    foldl (merge_step other) rc l !!! i
    = if decide (i ∈ l) then rc !!! i + result_counter other !!! i
      else rc !!! i.
Proof.
  induction 1 as [|j l Hj Hl IH]; intros rc i; simpl.
  - destruct (decide (i ∈ [])) as [Hin|_]; [inversion Hin | reflexivity].
  - rewrite IH. unfold merge_step.
    destruct (decide (i = j)) as [->|Hij].
    + rewrite vlookup_insert.
      destruct (decide (j ∈ l)); [contradiction|].
      destruct (decide (j ∈ j :: l)) as [_|Hn]; [reflexivity|].
      exfalso; apply Hn; left.
    + rewrite vlookup_insert_ne by congruence.
      destruct (decide (i ∈ l)) as [Hin|Hnin];
        destruct (decide (i ∈ j :: l)) as [Hin'|Hnin']; try reflexivity.
      * exfalso; apply Hnin'; right; exact Hin.
      * exfalso. apply elem_of_cons in Hin' as [->|Hin']; contradiction.
Qed.

Lemma merge_pointwise (a b : CombinedKeyingResult) :
  result_counter (merge a b)
  = vzip_with Z.add (result_counter a) (result_counter b).
Proof.
  apply vec_eq; intros i. unfold merge; cbn [result_counter].
  rewrite (merge_loop_lookup b (fin_enum KEYING_RESULT_MAX)).
  - destruct (decide (i ∈ fin_enum KEYING_RESULT_MAX)) as [_|Hn].
    + symmetry; apply vlookup_zip_with.
    + exfalso; apply Hn. exact (elem_of_enum (A := fin KEYING_RESULT_MAX) i).
  - exact (NoDup_enum (fin KEYING_RESULT_MAX)).
Qed.

Lemma get_count_merge (a b : CombinedKeyingResult) (r : SingleKeyingResult) :
  get_count (merge a b) r = get_count a r + get_count b r.
Proof. unfold get_count. rewrite merge_pointwise. apply vlookup_zip_with. Qed.

(** Two aggregates with the same count for every kind are equal. *)
Lemma combined_eq (a b : CombinedKeyingResult) :
  (forall r, get_count a r = get_count b r) -> a = b.
Proof.
  destruct a as [va], b as [vb]; unfold get_count; simpl; intros H.
  f_equal. apply vec_eq; intros i.
  inv_fin i; [exact (H SUCCESS)|]; intros i.
  inv_fin i; [exact (H UNKNOWN_FAILURE)|]; intros i.
  inv_fin i; [exact (H CANNOT_CREATE_FCURVE)|]; intros i.
  inv_fin i; [exact (H FCURVE_NOT_KEYFRAMEABLE)|]; intros i.
  inv_fin i; [exact (H NO_KEY_NEEDED)|]; intros i.
  inv_fin i; [exact (H UNABLE_TO_INSERT_TO_NLA_STACK)|]; intros i.
  inv_fin i; [exact (H ID_NOT_EDITABLE)|]; intros i.
  inv_fin i; [exact (H ID_NOT_ANIMATABLE)|]; intros i.
  inv_fin i; [exact (H CANNOT_RESOLVE_PATH)|]; intros i.
  inv_fin i; [exact (H NO_VALID_LAYER)|]; intros i.
  inv_fin i; [exact (H NO_VALID_STRIP)|]; intros i.
  inv_fin i; [exact (H NO_VALID_BINDING)|]; intros i.
  inv_fin i.
Qed.

(** *** With the counters as 32-bit ints *)

Lemma int_wrap_id (z : Z) : is_int z -> int_wrap z = z.
Proof.
  unfold is_int, INT_MIN, INT_MAX, int_wrap. intros Hz.
  rewrite Z.mod_small by lia. lia.
Qed.

Lemma int_wrap_add_l (x y : Z) : int_wrap (int_wrap x + y) = int_wrap (x + y).
Proof.
  unfold int_wrap. f_equal.
  replace ((x + 2147483648) mod 4294967296 - 2147483648 + y + 2147483648)
    with ((x + 2147483648) mod 4294967296 + y) by lia.
  rewrite Zplus_mod_idemp_l. f_equal. lia.
Qed.

Lemma int_add_comm (x y : Z) : int_add x y = int_add y x.
Proof. unfold int_add. now rewrite Z.add_comm. Qed.

Lemma int_add_assoc (x y z : Z) :
  int_add (int_add x y) z = int_add x (int_add y z).
Proof.
  unfold int_add. rewrite int_wrap_add_l.
  rewrite (Z.add_comm x (int_wrap (y + z))), int_wrap_add_l.
  f_equal. lia.
Qed.

Lemma int_add_exact (x y : Z) : is_int (x + y) -> int_add x y = x + y.
Proof. apply int_wrap_id. Qed.

Lemma get_count_int_add (a : CombinedKeyingResult) (r r' : SingleKeyingResult)
    (c : Z) :
  get_count (Int32.add a r c) r'
  = if decide (r = r') then int_add (get_count a r') c else get_count a r'.
Proof.
  unfold get_count, Int32.add; simpl. destruct (decide (r = r')) as [->|Hne].
  - apply vlookup_insert.
  - apply vlookup_insert_ne. intros Heq. apply Hne, int_of_result_inj, Heq.
Qed.

Lemma int_merge_loop_lookup (other : CombinedKeyingResult)
    (l : list (fin KEYING_RESULT_MAX)) :
  NoDup l ->
  forall (rc : vec Z KEYING_RESULT_MAX) (i : fin KEYING_RESULT_MAX),
    foldl (Int32.merge_step other) rc l !!! i
    = if decide (i ∈ l) then int_add (rc !!! i) (result_counter other !!! i)
      else rc !!! i.
Proof.
  induction 1 as [|j l Hj Hl IH]; intros rc i; simpl.
  - destruct (decide (i ∈ [])) as [Hin|_]; [inversion Hin | reflexivity].
  - rewrite IH. unfold Int32.merge_step.
    destruct (decide (i = j)) as [->|Hij].
    + rewrite vlookup_insert.
      destruct (decide (j ∈ l)); [contradiction|].
      destruct (decide (j ∈ j :: l)) as [_|Hn]; [reflexivity|].
      exfalso; apply Hn; left.
    + rewrite vlookup_insert_ne by congruence.
      destruct (decide (i ∈ l)) as [Hin|Hnin];
        destruct (decide (i ∈ j :: l)) as [Hin'|Hnin']; try reflexivity.
      * exfalso; apply Hnin'; right; exact Hin.
      * exfalso. apply elem_of_cons in Hin' as [->|Hin']; contradiction.
Qed.

Lemma get_count_int_merge (a b : CombinedKeyingResult)
    (r : SingleKeyingResult) :
  get_count (Int32.merge a b) r = int_add (get_count a r) (get_count b r).
Proof.
  unfold get_count, Int32.merge; cbn [result_counter].
  rewrite (int_merge_loop_lookup b (fin_enum KEYING_RESULT_MAX)).
  - destruct (decide (int_of_result r ∈ fin_enum KEYING_RESULT_MAX))
      as [_|Hn]; [reflexivity|].
    exfalso; apply Hn.
    exact (elem_of_enum (A := fin KEYING_RESULT_MAX) (int_of_result r)).
  - exact (NoDup_enum (fin KEYING_RESULT_MAX)).
Qed.

(** While the sums fit an [int], the operations on ints are [add] and
    [merge]. *)
Lemma int_add_is_add (a : CombinedKeyingResult) (r : SingleKeyingResult)
    (c : Z) :
  is_int (get_count a r + c) -> Int32.add a r c = add a r c.
Proof.
  intros Hc. apply combined_eq; intros r'.
  rewrite get_count_int_add, get_count_add.
  destruct (decide (r = r')) as [<-|_]; [|reflexivity].
  now apply int_add_exact.
Qed.

Lemma int_merge_is_merge (a b : CombinedKeyingResult) :
  (forall r, is_int (get_count a r + get_count b r)) ->
  Int32.merge a b = merge a b.
Proof.
  intros Hc. apply combined_eq; intros r.
  rewrite get_count_int_merge, get_count_merge. apply int_add_exact, Hc.
Qed.

(** C7. For every result code R and every count c that an [int] holds (in
    particular every such c >= 0), [add(R, c)] on a fresh aggregator makes
    [get_count(R)] equal to c. [merge] is commutative and associative, and
    merging in either order gives the same count for every kind: the sum of
    the two counts as the [int] addition computes it, which is the sum of
    the two counts whenever that sum fits an [int]. *)
Theorem C7_add_get_count_and_merge :
  (forall (R : SingleKeyingResult) (c : Z),
      is_int c -> get_count (Int32.add CombinedKeyingResult_new R c) R = c) /\
  (forall (A B : CombinedKeyingResult) (R : SingleKeyingResult),
      get_count (Int32.merge A B) R = int_add (get_count A R) (get_count B R)
      /\ (is_int (get_count A R + get_count B R) ->
          get_count (Int32.merge A B) R = get_count A R + get_count B R)
      /\ get_count (Int32.merge A B) R = get_count (Int32.merge B A) R) /\
  (forall A B : CombinedKeyingResult, Int32.merge A B = Int32.merge B A) /\
  (forall A B C : CombinedKeyingResult,
      Int32.merge (Int32.merge A B) C = Int32.merge A (Int32.merge B C)).
Proof.
  split; [|split; [|split]].
  - intros R c Hc. rewrite get_count_int_add, get_count_new.
    destruct (decide (R = R)); [|congruence]. now apply int_add_exact.
  - intros A B R. split; [|split].
    + apply get_count_int_merge.
    + intros Hsum. rewrite get_count_int_merge. now apply int_add_exact.
    + rewrite !get_count_int_merge. apply int_add_comm.
  - intros A B. apply combined_eq; intros r.
    rewrite !get_count_int_merge. apply int_add_comm.
  - intros A B C. apply combined_eq; intros r.
    rewrite !get_count_int_merge. apply int_add_assoc.
Qed.

(** Three outcomes of one kind added to a fresh aggregator, and two
    aggregates with small counts merged. *)
Lemma C7_add_get_count_and_merge_witness :
  get_count (Int32.add CombinedKeyingResult_new NO_KEY_NEEDED 3) NO_KEY_NEEDED
  = 3
  /\ get_count
       (Int32.merge (Int32.add CombinedKeyingResult_new SUCCESS 2)
          (Int32.add CombinedKeyingResult_new SUCCESS 5)) SUCCESS
     = 7.
Proof.
  split.
  - apply (proj1 C7_add_get_count_and_merge NO_KEY_NEEDED 3).
    unfold is_int, INT_MIN, INT_MAX. lia.
  - apply (proj1 (proj2 (proj1 (proj2 C7_add_get_count_and_merge)
                           (Int32.add CombinedKeyingResult_new SUCCESS 2)
                           (Int32.add CombinedKeyingResult_new SUCCESS 5)
                           SUCCESS))).
    vm_compute. split; discriminate.
Defined.

(** The sum of two counts need not fit an [int]: a counter at [INT_MAX]
    merged with a counter at 1 holds [INT_MIN], while the sum of the two
    counts is 2147483648. *)
Lemma C7_merged_count_wraps_around :
  let A := Int32.add CombinedKeyingResult_new SUCCESS INT_MAX in
  let B := Int32.add CombinedKeyingResult_new SUCCESS 1 in
  get_count A SUCCESS = INT_MAX
  /\ get_count B SUCCESS = 1
  /\ get_count A SUCCESS + get_count B SUCCESS = 2147483648
  /\ get_count (Int32.merge A B) SUCCESS = INT_MIN
  /\ ~ (forall (A B : CombinedKeyingResult) (R : SingleKeyingResult),
          get_count (Int32.merge A B) R = get_count A R + get_count B R).
Proof.
  cbv zeta. split; [reflexivity|]. split; [reflexivity|].
  split; [reflexivity|]. split; [reflexivity|].
  intros Hsum.
  specialize (Hsum (Int32.add CombinedKeyingResult_new SUCCESS INT_MAX)
                (Int32.add CombinedKeyingResult_new SUCCESS 1) SUCCESS).
  vm_compute in Hsum. discriminate.
Qed.

(** ** Reports *)

Lemma string_app_assoc (s1 s2 s3 : string) :
  (s1 +:+ s2) +:+ s3 = s1 +:+ (s2 +:+ s3).
Proof.
  induction s1 as [|c s1 IH]; [reflexivity|].
  change (String c ((s1 +:+ s2) +:+ s3) = String c (s1 +:+ (s2 +:+ s3))).
  f_equal; exact IH.
Qed.

Lemma string_app_empty_r (s : string) : s +:+ EmptyString = s.
Proof.
  induction s as [|c s IH]; [reflexivity|].
  change (String c (s +:+ EmptyString) = String c s). f_equal; exact IH.
Qed.

Lemma append_bullets_concat (errors : list string) (header : string) :
  append_bullets header errors = header +:+ string_concat (map bullet errors).
Proof.
  unfold append_bullets. revert header.
  induction errors as [|e errors IH]; intros header.
  - cbn. now rewrite string_app_empty_r.
  - cbn [foldl map]. rewrite IH. unfold string_concat; cbn [foldr].
    unfold bullet. apply string_app_assoc.
Qed.

Lemma has_errors_loop_true (l : list Z) :
  has_errors_loop l = true <-> Exists (fun c => 0 < c) l.
Proof.
  induction l as [|c l IH]; simpl.
  - split; [discriminate | intros H; inversion H].
  - destruct (Z.ltb_spec 0 c) as [Hc|Hc].
    + split; [intros _; now left | reflexivity].
    + rewrite IH. split; [intros H; now right|].
      intros H; inversion H; subst; [lia | assumption].
Qed.

(** The counters after the first are the counts of the error kinds. *)
Lemma error_counters (a : CombinedKeyingResult) :
  drop 1 (vec_to_list (result_counter a)) = map (get_count a) error_kinds.
Proof.
  destruct a as [v]. unfold get_count; cbn [result_counter].
  inv_vec v; intros. reflexivity.
Qed.

Lemma has_errors_true (a : CombinedKeyingResult) :
  has_errors a = true
  <-> exists r, r ∈ error_kinds /\ 0 < get_count a r.
Proof.
  unfold has_errors. rewrite error_counters, has_errors_loop_true.
  rewrite Exists_exists. split.
  - intros (c & Hin & Hc). apply list_elem_of_fmap in Hin as (r & -> & Hr).
    exists r; split; assumption.
  - intros (r & Hr & Hc). exists (get_count a r); split; [|assumption].
    apply list_elem_of_fmap. exists r; split; [reflexivity | assumption].
Qed.

(** The eleven blocks of [generate_reports] collect, in enumeration order,
    the texts of the error kinds with a positive count. *)
Lemma append_error_fold (a : CombinedKeyingResult)
    (l : list SingleKeyingResult) (errors : list string) :
  foldl (fun errs r => append_error a r errs) errors l
  = errors ++ map (fun r => error_text r (get_count a r))
                (filter (fun r => 0 < get_count a r) l).
Proof.
  revert errors. induction l as [|r l IH]; intros errors; simpl.
  - now rewrite app_nil_r.
  - rewrite IH. unfold append_error.
    destruct (Z.ltb_spec 0 (get_count a r)) as [Hc|Hc].
    + rewrite filter_cons_True by assumption. simpl.
      now rewrite <- app_assoc.
    + rewrite filter_cons_False by lia. reflexivity.
Qed.

Lemma error_kinds_not_success (r : SingleKeyingResult) :
  r ∈ error_kinds <-> r <> SUCCESS.
Proof.
  split.
  - intros Hin ->. unfold error_kinds in Hin.
    repeat (apply elem_of_cons in Hin as [Hin|Hin]; [discriminate|]).
    inversion Hin.
  - intros Hne. unfold error_kinds.
    destruct r; try congruence; repeat (try (left; fail); right); left.
Qed.

(** What [generate_reports] does, by the list of error kinds with a
    positive count. *)
Lemma generate_reports_by_errors (a : CombinedKeyingResult)
    (reports : ReportList) :
  let kinds := filter (fun r => 0 < get_count a r) error_kinds in
  let texts := map (fun r => error_text r (get_count a r)) kinds in
  generate_reports a reports
  = match texts with
    | [] =>
        if get_count a SUCCESS =? 0
        then reports ++ [mkReport RPT_WARNING
               "No keys have been inserted and no errors have been reported."]
        else reports ++ [mkReport RPT_WARNING
               "Encountered unhandled error during keyframing"]
    | [error] => reports ++ [mkReport RPT_ERROR error]
    | _ =>
        reports ++ [mkReport RPT_ERROR
          ("Inserting keyframes failed:" +:+ string_concat (map bullet texts))]
    end.
Proof.
  intros kinds texts. unfold generate_reports.
  change (append_error a NO_VALID_BINDING _)
    with (foldl (fun errs r => append_error a r errs) [] error_kinds).
  rewrite append_error_fold. simpl app. fold kinds. fold texts.
  destruct (has_errors a) eqn:Herr.
  - apply has_errors_true in Herr as (r & Hr & Hc).
    assert (Hin : r ∈ kinds).
    { apply list_elem_of_filter; split; assumption. }
    simpl. unfold BKE_report. rewrite append_bullets_concat.
    destruct texts as [|t1 [|t2 texts']] eqn:Ht; try reflexivity.
    apply (f_equal length) in Ht. unfold texts in Ht.
    rewrite length_map in Ht. destruct kinds; [inversion Hin | discriminate].
  - assert (Hk : kinds = []).
    { destruct kinds as [|r kinds'] eqn:Hk; [reflexivity|].
      assert (Hin : r ∈ filter (fun r => 0 < get_count a r) error_kinds).
      { fold kinds. rewrite Hk. left. }
      apply list_elem_of_filter in Hin as [Hc Hr].
      assert (has_errors a = true) by (apply has_errors_true; eauto).
      congruence. }
    unfold texts. rewrite Hk. simpl.
    destruct (get_count a SUCCESS =? 0); reflexivity.
Qed.

Lemma filter_none {A : Type} (P : A -> Prop) `{forall x, Decision (P x)}
    (l : list A) :
  (forall x, x ∈ l -> ~ P x) -> filter P l = [].
Proof.
  induction l as [|x l IH]; intros Hl; [reflexivity|].
  rewrite filter_cons_False by (apply Hl; left).
  apply IH. intros y Hy. apply Hl. right; exact Hy.
Qed.

Lemma nonzero_error_kinds_positive (a : CombinedKeyingResult) :
  (forall r, 0 <= get_count a r) ->
  filter (fun r => 0 < get_count a r) error_kinds = nonzero_error_kinds a.
Proof.
  intros Hnonneg. unfold nonzero_error_kinds. apply list_filter_iff.
  intros r. specialize (Hnonneg r). lia.
Qed.

(** The counts of a built aggregate are not negative. *)
Lemma built_counts_nonneg (a : CombinedKeyingResult) :
  built a -> forall r, 0 <= get_count a r.
Proof.
  induction 1 as [|a r c _ IH Hc|a b _ IHa _ IHb]; intros k.
  - now rewrite get_count_new.
  - rewrite get_count_add. specialize (IH k). destruct (decide (r = k)); lia.
  - rewrite get_count_merge. specialize (IHa k). specialize (IHb k). lia.
Qed.

(** C3. For every aggregate (a histogram of occurrence counts, so no count
    is negative): when all counts are zero [generate_reports] adds exactly
    one warning; when exactly one error kind has a nonzero count it adds a
    single error report, the text of that kind with its count; when two or
    more error kinds have nonzero counts it adds one error report that
    starts with the header line, followed by one sub-message per such
    kind, in enumeration order, each with its count. The text of every
    error kind contains the decimal count. *)
Theorem C3_generate_reports_policy (a : CombinedKeyingResult)
    (reports : ReportList) :
  (forall r, 0 <= get_count a r) ->
  ((forall r, get_count a r = 0) ->
     generate_reports a reports
     = reports ++ [mkReport RPT_WARNING
         "No keys have been inserted and no errors have been reported."])
  /\ (forall r, nonzero_error_kinds a = [r] ->
        generate_reports a reports
        = reports ++ [mkReport RPT_ERROR (error_text r (get_count a r))])
  /\ ((2 <= length (nonzero_error_kinds a))%nat ->
        generate_reports a reports
        = reports ++ [mkReport RPT_ERROR
            ("Inserting keyframes failed:" +:+
             string_concat
               (map (fun r => bullet (error_text r (get_count a r)))
                  (nonzero_error_kinds a)))])
  /\ (forall r c, r <> SUCCESS ->
        exists before after, error_text r c = before +:+ pretty c +:+ after).
Proof.
  intros Hnonneg.
  pose proof (generate_reports_by_errors a reports) as Hgen. cbv zeta in Hgen.
  rewrite (nonzero_error_kinds_positive a Hnonneg) in Hgen.
  repeat split.
  - intros Hzero. rewrite Hgen.
    assert (Hnil : nonzero_error_kinds a = []).
    { unfold nonzero_error_kinds. apply filter_none.
      intros r _ Hr. apply Hr, Hzero. }
    rewrite Hnil. simpl. now rewrite Hzero.
  - intros r Hone. rewrite Hgen, Hone. reflexivity.
  - intros Hlen. rewrite Hgen.
    destruct (nonzero_error_kinds a) as [|r1 [|r2 kinds]]; simpl in Hlen;
      try lia.
    cbn [map]. rewrite map_map. reflexivity.
  - intros r c Hr. destruct r; try congruence; unfold error_text, format_d;
      eexists _, _; reflexivity.
Qed.

(** The aggregates of the spec's examples satisfy the assumption of C3,
    and its three cases give the reports the spec describes. *)
Lemma C3_generate_reports_policy_witness :
  generate_reports CombinedKeyingResult_new []
  = [mkReport RPT_WARNING
       "No keys have been inserted and no errors have been reported."]
  /\ generate_reports (add CombinedKeyingResult_new CANNOT_RESOLVE_PATH 2) []
     = [mkReport RPT_ERROR
          "Inserting keys on 2 data-block(s) has been skipped because the RNA path wasn't valid for them."]
  /\ generate_reports
       (add1 (add1 CombinedKeyingResult_new CANNOT_RESOLVE_PATH) ID_NOT_EDITABLE)
       []
     = [mkReport RPT_ERROR
          ("Inserting keyframes failed:" +:+ newline +:+
           "- Inserting keys on 1 data-block(s) has been skipped because they are not editable."
           +:+ newline +:+
           "- Inserting keys on 1 data-block(s) has been skipped because the RNA path wasn't valid for them.")].
Proof.
  split; [|split].
  - apply (proj1 (C3_generate_reports_policy CombinedKeyingResult_new []
                    ltac:(intros r; destruct r; vm_compute; discriminate))).
    intros r; destruct r; reflexivity.
  - apply (proj1 (proj2 (C3_generate_reports_policy
                           (add CombinedKeyingResult_new CANNOT_RESOLVE_PATH 2) []
                           ltac:(intros r; destruct r; vm_compute; discriminate)))
             CANNOT_RESOLVE_PATH).
    reflexivity.
  - apply (proj1 (proj2 (proj2 (C3_generate_reports_policy
             (add1 (add1 CombinedKeyingResult_new CANNOT_RESOLVE_PATH)
                ID_NOT_EDITABLE) []
             ltac:(intros r; destruct r; vm_compute; discriminate))))).
    vm_compute. lia.
Defined.

(** C10. On an aggregate with at least one success and no nonzero error
    count, [generate_reports] adds exactly one report: the fallback
    warning about an unhandled error. *)
Theorem C10_success_only_reports_warning (a : CombinedKeyingResult)
    (reports : ReportList) :
  1 <= get_count a SUCCESS ->
  (forall r, r <> SUCCESS -> get_count a r = 0) ->
  generate_reports a reports
  = reports ++ [mkReport RPT_WARNING
      "Encountered unhandled error during keyframing"].
Proof.
  intros Hsucc Hzero.
  pose proof (generate_reports_by_errors a reports) as Hgen. cbv zeta in Hgen.
  rewrite Hgen.
  assert (Hnil : filter (fun r => 0 < get_count a r) error_kinds = []).
  { apply filter_none. intros r Hr Hc.
    apply error_kinds_not_success in Hr. rewrite (Hzero r Hr) in Hc. lia. }
  rewrite Hnil. simpl.
  destruct (Z.eqb_spec (get_count a SUCCESS) 0); [lia | reflexivity].
Qed.

Lemma C10_success_only_reports_warning_witness :
  generate_reports (add1 CombinedKeyingResult_new SUCCESS) []
  = [mkReport RPT_WARNING "Encountered unhandled error during keyframing"].
Proof.
  apply (C10_success_only_reports_warning
           (add1 CombinedKeyingResult_new SUCCESS) []).
  - vm_compute. discriminate.
  - intros r Hr. destruct r; try reflexivity. congruence.
Defined.

(** ** The cycle remapper and the curve-level write *)

(** On a curve with keyframe points, [bezt[totvert - 1]] is the last
    point. *)
Lemma bezt_last_lookup (fcu : FCurve) (b : BezTriple) (l : list BezTriple) :
  bezt fcu = b :: l ->
  bezt fcu !! Z.to_nat (totvert fcu - 1) = last (bezt fcu).
Proof.
  intros Hb. unfold totvert. rewrite Hb. cbn [is_null].
  rewrite last_lookup. f_equal. cbn [length]. lia.
Qed.

Section CurveProperties.
Context `{E : Externals}.

(** C2. [remap_cyclic_keyframe_location] returns the cycle type "none" and
    leaves time and value as they were when the curve has fewer than 2
    points, when the cycle type of the curve is none, or when the last
    point's time is at most the first point's time. Otherwise a time
    outside [first.time, last.time] becomes
    t - floor((t - start) / period) * period with period = last.time -
    first.time, and the value is reduced by step * (last.value -
    first.value) exactly for an offset cycle whose mode on the relevant
    side (after for step >= 0, before otherwise) is cyclic-offset; a time
    inside is left as it is. The arithmetic is the code's: binary32, every
    operation rounded. On a 2-point curve spanning [0, 10] with a cycle,
    time 23 becomes 3 and time -7 becomes 3. *)
Theorem C2_remap_cyclic_keyframe_location (fcu : FCurve) (px py : float) :
  (((length (bezt fcu) < 2)%nat
    \/ BKE_fcurve_get_cycle_type fcu = FCU_CYCLE_NONE
    \/ (exists first last_,
          head (bezt fcu) = Some first /\ last (bezt fcu) = Some last_
          /\ float_le (bezt_time last_) (bezt_time first) = true)) ->
   remap_cyclic_keyframe_location fcu px py = (FCU_CYCLE_NONE, px, py))
  /\ (forall first last_,
        (2 <= length (bezt fcu))%nat ->
        BKE_fcurve_get_cycle_type fcu <> FCU_CYCLE_NONE ->
        head (bezt fcu) = Some first -> last (bezt fcu) = Some last_ ->
        float_le (bezt_time last_) (bezt_time first) = false ->
        let start := bezt_time first in
        let period := float_sub (bezt_time last_) (bezt_time first) in
        let step := floorf (float_div (float_sub px start) period) in
        let offset_applies :=
          match first_cycles_data fcu with
          | Some data =>
              bool_decide (BKE_fcurve_get_cycle_type fcu = FCU_CYCLE_OFFSET)
              && bool_decide
                   ((if float_le (float_of_Z 0) step then after_mode data
                     else before_mode data) = FCM_EXTRAPOLATE_CYCLIC_OFFSET)
          | None => false
          end in
        (float_lt px (bezt_time first) = true
         \/ float_lt (bezt_time last_) px = true ->
         remap_cyclic_keyframe_location fcu px py
         = (BKE_fcurve_get_cycle_type fcu,
            float_sub px (float_mul step period),
            if offset_applies
            then float_sub py
                   (float_mul step
                      (float_sub (bezt_value last_) (bezt_value first)))
            else py))
        /\ (float_lt px (bezt_time first) = false ->
            float_lt (bezt_time last_) px = false ->
            remap_cyclic_keyframe_location fcu px py
            = (BKE_fcurve_get_cycle_type fcu, px, py)))
  /\ (forall first last_,
        bezt fcu = [first; last_] ->
        bezt_time first = float_of_Z 0 -> bezt_time last_ = float_of_Z 10 ->
        BKE_fcurve_get_cycle_type fcu <> FCU_CYCLE_NONE ->
        remap_time (remap_cyclic_keyframe_location fcu (float_of_Z 23) py)
        = float_of_Z 3
        /\ remap_time (remap_cyclic_keyframe_location fcu (float_of_Z (-7)) py)
           = float_of_Z 3).
Proof.
  split; [|split].
  - intros Hnone. unfold remap_cyclic_keyframe_location.
    destruct (bezt fcu) as [|b0 l] eqn:Hb.
    { cbn [is_null]. now rewrite orb_true_r. }
    rewrite <- Hb, (bezt_last_lookup fcu b0 l Hb), Hb. cbn [is_null lookup].
    rewrite orb_false_r. cbn [list_lookup].
    destruct (totvert fcu <? 2) eqn:Htot; [reflexivity|].
    case_bool_decide as Hty; [reflexivity|].
    destruct (last (b0 :: l)) as [bl|] eqn:Hlast; [|reflexivity].
    destruct Hnone as [Hlen|[Hnone|(first & last_ & Hf & Hl & Hle)]].
    + exfalso. apply Z.ltb_ge in Htot. unfold totvert in Htot.
      rewrite Hb in Htot. cbn [is_null] in Htot. simpl in Hlen. simpl in Htot.
      lia.
    + contradiction.
    + simpl in Hf. injection Hf as <-. injection Hl as <-.
      change (fst (vec1 bl)) with (bezt_time bl).
      change (fst (vec1 b0)) with (bezt_time b0).
      now rewrite Hle.
  - intros first last_ Hlen Hty Hf Hl Hlt start period step offset_applies.
    unfold remap_cyclic_keyframe_location.
    destruct (bezt fcu) as [|b0 l] eqn:Hb; [simpl in Hlen; lia|].
    rewrite <- Hb, (bezt_last_lookup fcu b0 l Hb), Hb. cbn [is_null].
    rewrite orb_false_r. cbn [lookup list_lookup].
    assert (Htot : (totvert fcu <? 2) = false).
    { apply Z.ltb_ge. unfold totvert. rewrite Hb. cbn [is_null].
      simpl in Hlen |- *. lia. }
    rewrite Htot. case_bool_decide; [contradiction|].
    rewrite Hl. simpl in Hf. injection Hf as ->.
    change (fst (vec1 last_)) with (bezt_time last_).
    change (fst (vec1 first)) with (bezt_time first).
    change (snd (vec1 last_)) with (bezt_value last_).
    change (snd (vec1 first)) with (bezt_value first).
    rewrite Hlt. split.
    + intros Hout.
      assert (Hcond : float_lt px (bezt_time first)
                      || float_lt (bezt_time last_) px = true).
      { apply orb_true_iff. exact Hout. }
      rewrite Hcond. fold start period. fold step.
      f_equal. unfold offset_applies, first_cycles_data.
      case_bool_decide as Hoff; cbn [andb].
      * destruct (modifiers fcu) as [|fcm mods]; [reflexivity|].
        destruct (fmod_cycles fcm) as [data|]; reflexivity.
      * destruct (modifiers fcu) as [|fcm mods]; [reflexivity|].
        destruct (fmod_cycles fcm); reflexivity.
    + intros Hin1 Hin2. now rewrite Hin1, Hin2.
  - intros first last_ Hb Hf Hl Hty.
    unfold remap_time, remap_cyclic_keyframe_location, totvert.
    rewrite Hb. cbn [is_null length]. cbn [Z.ltb orb].
    case_bool_decide; [contradiction|].
    change (Z.to_nat (Z.of_nat 2 - 1)) with 1%nat. cbn [lookup list_lookup].
    change (fst (vec1 last_)) with (bezt_time last_).
    change (fst (vec1 first)) with (bezt_time first).
    rewrite Hf, Hl. split; reflexivity.
Qed.

(** C6. On a curve that is locked (protected) or sampled,
    [insert_keyframe_value] returns [FCURVE_NOT_KEYFRAMEABLE] and the curve
    it leaves is the curve it was given: no point is inserted or
    modified. *)
Theorem C6_locked_or_sampled_curve_rejected (fcu : FCurve)
    (cfra curval : float) (keytype flag : Z) :
  BKE_fcurve_is_protected fcu = true \/ fcurve_is_sampled fcu = true ->
  insert_keyframe_value fcu cfra curval keytype flag
  = (FCURVE_NOT_KEYFRAMEABLE, fcu)
  /\ bezt (snd (insert_keyframe_value fcu cfra curval keytype flag)) = bezt fcu.
Proof.
  intros Hlocked.
  assert (Hk : BKE_fcurve_is_keyframable fcu = false).
  { unfold BKE_fcurve_is_keyframable. apply negb_false_iff, orb_true_iff.
    tauto. }
  unfold insert_keyframe_value. rewrite Hk. split; reflexivity.
Qed.

End CurveProperties.

(** The spec's example: a 2-point curve spanning [0, 10] with values 0 and
    5 and a regular cycle. *)
Lemma C2_remap_cyclic_keyframe_location_witness :
  let fcu :=
    example_curve [example_point (float_of_Z 0) (float_of_Z 0); example_point
        (float_of_Z 10) (float_of_Z 5)]
      [cycles_modifier FCM_EXTRAPOLATE_CYCLIC FCM_EXTRAPOLATE_CYCLIC] in
  remap_time
    (remap_cyclic_keyframe_location (E := simple_externals false) fcu
        (float_of_Z 23) (float_of_Z 1))
  = float_of_Z 3
  /\ remap_time
       (remap_cyclic_keyframe_location (E := simple_externals false) fcu
           (float_of_Z (-7)) (float_of_Z 1))
     = float_of_Z 3.
Proof.
  apply (proj2 (proj2 (@C2_remap_cyclic_keyframe_location
                         (simple_externals false)
                         (example_curve [example_point (float_of_Z 0)
                             (float_of_Z 0); example_point (float_of_Z 10)
                             (float_of_Z 5)]
                            [cycles_modifier FCM_EXTRAPOLATE_CYCLIC
                               FCM_EXTRAPOLATE_CYCLIC])
                         (float_of_Z 0) (float_of_Z 1)))
           (example_point (float_of_Z 0) (float_of_Z 0)) (example_point
               (float_of_Z 10) (float_of_Z 5)));
    [reflexivity | reflexivity | reflexivity | discriminate].
Defined.

Example remap_regular_cycle_23 :
  remap_cyclic_keyframe_location (E := simple_externals false)
    (example_curve [example_point (float_of_Z 0) (float_of_Z 0); example_point
        (float_of_Z 10) (float_of_Z 5)]
       [cycles_modifier FCM_EXTRAPOLATE_CYCLIC FCM_EXTRAPOLATE_CYCLIC])
    (float_of_Z 23) (float_of_Z 1)
  = (FCU_CYCLE_PERFECT, float_of_Z 3, float_of_Z 1).
Proof. reflexivity. Qed.

Example remap_offset_cycle_23 :
  remap_cyclic_keyframe_location (E := simple_externals false)
    (example_curve [example_point (float_of_Z 0) (float_of_Z 0); example_point
        (float_of_Z 10) (float_of_Z 5)]
       [cycles_modifier FCM_EXTRAPOLATE_CYCLIC FCM_EXTRAPOLATE_CYCLIC_OFFSET])
    (float_of_Z 23) (float_of_Z 1)
  = (FCU_CYCLE_OFFSET, float_of_Z 3, float_of_Z (-9)).
Proof. reflexivity. Qed.

(** Without a cycles modifier the concrete collaborators report no cycle,
    and the remapper leaves a time outside the range as it is. *)
Example remap_without_modifier :
  remap_cyclic_keyframe_location (E := simple_externals false)
    (example_curve [example_point (float_of_Z 0) (float_of_Z 0); example_point
        (float_of_Z 10) (float_of_Z 5)] [])
    (float_of_Z 23) (float_of_Z 1)
  = (FCU_CYCLE_NONE, float_of_Z 23, float_of_Z 1).
Proof. reflexivity. Qed.

(** A locked curve with two points: the write is refused and the points
    stay. *)
Lemma C6_locked_or_sampled_curve_rejected_witness :
  let fcu :=
    set_flag (example_curve [example_point (float_of_Z 0) (float_of_Z 0);
        example_point (float_of_Z 10) (float_of_Z 5)] [])
      FCURVE_PROTECTED in
  insert_keyframe_value (E := simple_externals false) fcu (float_of_Z 3)
      (float_of_Z 1) 0 0
  = (FCURVE_NOT_KEYFRAMEABLE, fcu)
  /\ bezt (snd (insert_keyframe_value (E := simple_externals false) fcu
      (float_of_Z 3) (float_of_Z 1) 0 0))
     = bezt fcu.
Proof.
  apply (@C6_locked_or_sampled_curve_rejected (simple_externals false)).
  left. reflexivity.
Defined.

(** ** Flags *)

Lemma land_pow2 (f k : Z) :
  0 <= k -> Z.land f (2 ^ k) = if Z.testbit f k then 2 ^ k else 0.
Proof.
  intros Hk. apply Z.bits_inj'. intros n Hn.
  rewrite Z.land_spec, Z.pow2_bits_eqb by exact Hk.
  destruct (Z.eqb_spec k n) as [->|Hne].
  - destruct (Z.testbit f n); [|now rewrite Z.bits_0].
    rewrite Z.pow2_bits_eqb by exact Hn. now rewrite Z.eqb_refl.
  - rewrite andb_false_r. destruct (Z.testbit f k); [|now rewrite Z.bits_0].
    rewrite Z.pow2_bits_eqb by exact Hk. symmetry. now apply Z.eqb_neq.
Qed.

(** A single-bit flag test reads that bit. *)
Lemma flag_test_bit (f k : Z) :
  0 <= k -> flag_test f (Z.shiftl 1 k) = Z.testbit f k.
Proof.
  intros Hk. unfold flag_test. rewrite Z.shiftl_1_l, land_pow2 by exact Hk.
  destruct (Z.testbit f k); [|reflexivity].
  destruct (Z.eqb_spec (2 ^ k) 0) as [H0|_]; [|reflexivity].
  pose proof (Z.pow_pos_nonneg 2 k ltac:(lia) Hk). lia.
Qed.

Lemma flag_clear_bit (f mask n : Z) :
  0 <= n ->
  Z.testbit (flag_clear f mask) n = Z.testbit f n && negb (Z.testbit mask n).
Proof.
  intros Hn. unfold flag_clear. now rewrite Z.land_spec, Z.lnot_spec by exact Hn.
Qed.

(** Dropping the replace and available bits leaves the cycle-aware bit and
    allows curve creation. *)
Lemma relaxed_cycle_aware (f : Z) :
  flag_test (flag_clear f (Z.lor INSERTKEY_REPLACE INSERTKEY_AVAILABLE))
    INSERTKEY_CYCLE_AWARE
  = flag_test f INSERTKEY_CYCLE_AWARE.
Proof.
  unfold INSERTKEY_CYCLE_AWARE. rewrite !flag_test_bit by lia.
  rewrite flag_clear_bit by lia. now rewrite andb_true_r.
Qed.

Lemma relaxed_may_create (f : Z) :
  key_insertion_may_create_fcurve
    (flag_clear f (Z.lor INSERTKEY_REPLACE INSERTKEY_AVAILABLE))
  = true.
Proof.
  unfold key_insertion_may_create_fcurve, flag_clear.
  rewrite <- Z.land_assoc, (Z.land_comm (Z.lnot _)), Z.land_lnot_diag.
  now rewrite Z.land_0_r.
Qed.

(** [update_autoflags_fcurve_direct] touches neither the points, the
    identity of the curve, nor whether it can be keyed. *)
Lemma update_autoflags_keeps (fcu : FCurve) (prop : PropertyRNA) :
  bezt (update_autoflags_fcurve_direct fcu prop) = bezt fcu
  /\ fpt (update_autoflags_fcurve_direct fcu prop) = fpt fcu
  /\ rna_path (update_autoflags_fcurve_direct fcu prop) = rna_path fcu
  /\ array_index (update_autoflags_fcurve_direct fcu prop) = array_index fcu
  /\ BKE_fcurve_is_keyframable (update_autoflags_fcurve_direct fcu prop)
     = BKE_fcurve_is_keyframable fcu.
Proof.
  unfold update_autoflags_fcurve_direct.
  assert (Hbit : forall x,
             Z.testbit x 3 = false ->
             flag_test (Z.lor (flag_clear (flag fcu)
                                 (Z.lor FCURVE_INT_VALUES FCURVE_DISCRETE_VALUES)) x)
               FCURVE_PROTECTED
             = flag_test (flag fcu) FCURVE_PROTECTED).
  { intros x Hx. unfold FCURVE_PROTECTED. rewrite !flag_test_bit by lia.
    rewrite Z.lor_spec, flag_clear_bit, Hx by lia.
    now rewrite orb_false_r, andb_true_r. }
  assert (Hbit0 :
            flag_test (flag_clear (flag fcu)
                         (Z.lor FCURVE_INT_VALUES FCURVE_DISCRETE_VALUES))
              FCURVE_PROTECTED
            = flag_test (flag fcu) FCURVE_PROTECTED).
  { rewrite <- (Hbit 0) by reflexivity. now rewrite Z.lor_0_r. }
  unfold BKE_fcurve_is_keyframable, BKE_fcurve_is_protected, fcurve_is_sampled.
  destruct (prop_type prop); cbn [set_flag bezt fpt rna_path array_index flag];
    repeat split; f_equal; f_equal;
    first [exact Hbit0 | apply Hbit; reflexivity].
Qed.

(** ** The legacy orchestrator *)

Section LegacyProperties.
Context `{E : Externals}.

Lemma tally_from_app (c : CombinedKeyingResult) (l1 l2 : list Attempt) :
  tally_from c (l1 ++ l2) = tally_from (tally_from c l1) l2.
Proof. unfold tally_from. apply foldl_app. Qed.

Lemma successes_app (l1 l2 : list Attempt) :
  successes (l1 ++ l2) = successes l1 + successes l2.
Proof. unfold successes. rewrite filter_app, length_app. lia. Qed.

Lemma extends_refl (st : KeyState) : extends st st [].
Proof.
  unfold extends, successes. simpl. rewrite app_nil_r. repeat split; lia.
Qed.

Lemma extends_trans (st1 st2 st3 : KeyState) (T1 T2 : list Attempt) :
  extends st1 st2 T1 -> extends st2 st3 T2 -> extends st1 st3 (T1 ++ T2).
Proof.
  intros (Ha1 & Hr1 & Hk1) (Ha2 & Hr2 & Hk2). repeat split.
  - rewrite Ha2, Ha1. now rewrite app_assoc.
  - rewrite Hr2, Hr1. now rewrite tally_from_app.
  - rewrite Hk2, Hk1, successes_app. lia.
Qed.

Lemma key_channel_extends (a : KeyArgs) (flag : Z) (st : KeyState) (i : nat) :
  extends st (snd (key_channel a flag st i))
    [mkAttempt i flag (fst (key_channel a flag st i))].
Proof.
  unfold key_channel.
  destruct (insert_keyframe_fcurve_value _ _ _ _ _ _ _ _ _ _) as [result act].
  cbn [fst snd]. unfold extends; cbn [ks_attempts ks_result ks_key_count].
  repeat split. unfold successes. cbn [filter list_filter].
  case_bool_decide as Hr.
  - rewrite decide_True by exact Hr. simpl. lia.
  - rewrite decide_False by exact Hr. simpl. lia.
Qed.

(** The first loop of the force-all branch attempts the remapped channels
    in order under the given flags, up to and including the first
    success. *)
Lemma force_first_loop_spec (a : KeyArgs) (flag : Z) (remaps : list bool)
    (indices : list nat) (st : KeyState) :
  exists T,
    extends st (snd (force_first_loop a flag remaps indices st)) T
    /\ Forall (fun t => attempt_flag t = flag) T
    /\ ((fst (force_first_loop a flag remaps indices st) = -1
         /\ map attempt_index T
            = filter (fun i => bit_get remaps i = true) indices
         /\ Forall (fun t => attempt_result t <> SUCCESS) T)
        \/ (exists k pre post T1,
              fst (force_first_loop a flag remaps indices st) = Z.of_nat k
              /\ indices = pre ++ k :: post
              /\ bit_get remaps k = true
              /\ T = T1 ++ [mkAttempt k flag SUCCESS]
              /\ map attempt_index T1
                 = filter (fun i => bit_get remaps i = true) pre
              /\ Forall (fun t => attempt_result t <> SUCCESS) T1)).
Proof.
  revert st. induction indices as [|i rest IH]; intros st.
  - exists []. cbn [force_first_loop fst snd]. split; [apply extends_refl|].
    split; [constructor|]. left. repeat split; constructor.
  - cbn [force_first_loop]. destruct (bit_get remaps i) eqn:Hbit; cbn [negb].
    + pose proof (key_channel_extends a flag st i) as Hext.
      destruct (key_channel a flag st i) as [result st1]. cbn [fst snd] in Hext.
      case_bool_decide as Hres.
      * subst result. exists [mkAttempt i flag SUCCESS]. cbn [fst snd].
        split; [exact Hext|]. split; [repeat constructor|]. right.
        exists i, [], rest, []. repeat split; try reflexivity; try assumption.
        constructor.
      * destruct (IH st1) as (T & HextT & Hflag & Hcases).
        exists (mkAttempt i flag result :: T).
        split; [exact (extends_trans _ _ _ _ _ Hext HextT)|].
        split; [constructor; [reflexivity | exact Hflag]|].
        destruct Hcases as [(Hex & Hidx & Hfail)
                           |(k & pre & post & T1 & Hex & Hind & Hk & HT & Hidx & Hfail)].
        -- left. split; [exact Hex|]. split.
           ++ rewrite filter_cons_True by exact Hbit. cbn [map attempt_index].
              now rewrite Hidx.
           ++ constructor; [exact Hres | exact Hfail].
        -- right. exists k, (i :: pre), post, (mkAttempt i flag result :: T1).
           split; [exact Hex|]. split; [now rewrite Hind|].
           split; [exact Hk|]. split; [now rewrite HT|]. split.
           ++ rewrite filter_cons_True by exact Hbit. cbn [map attempt_index].
              now rewrite Hidx.
           ++ constructor; [exact Hres | exact Hfail].
    + destruct (IH st) as (T & HextT & Hflag & Hcases).
      exists T. split; [exact HextT|]. split; [exact Hflag|].
      assert (Hnot : ~ bit_get remaps i = true) by congruence.
      destruct Hcases as [(Hex & Hidx & Hfail)
                         |(k & pre & post & T1 & Hex & Hind & Hk & HT & Hidx & Hfail)].
      * left. split; [exact Hex|]. split; [|exact Hfail].
        now rewrite filter_cons_False by exact Hnot.
      * right. exists k, (i :: pre), post, T1.
        split; [exact Hex|]. split; [now rewrite Hind|].
        split; [exact Hk|]. split; [exact HT|]. split; [|exact Hfail].
        now rewrite filter_cons_False by exact Hnot.
Qed.

(** The second loop attempts every remapped channel but [exclude], in
    order, under the given flags. *)
Lemma force_rest_loop_spec (a : KeyArgs) (flag : Z) (remaps : list bool)
    (exclude : Z) (indices : list nat) (st : KeyState) :
  exists T,
    extends st (force_rest_loop a flag remaps exclude indices st) T
    /\ Forall (fun t => attempt_flag t = flag) T
    /\ map attempt_index T
       = filter (fun i => bit_get remaps i = true /\ Z.of_nat i <> exclude)
           indices.
Proof.
  revert st. induction indices as [|i rest IH]; intros st.
  - exists []. cbn [force_rest_loop]. split; [apply extends_refl|].
    split; [constructor | reflexivity].
  - cbn [force_rest_loop]. destruct (bit_get remaps i) eqn:Hbit; cbn [negb].
    + case_bool_decide as Hex.
      * pose proof (key_channel_extends a flag st i) as Hext.
        destruct (IH (snd (key_channel a flag st i))) as (T & HextT & Hflag & Hidx).
        exists (mkAttempt i flag (fst (key_channel a flag st i)) :: T).
        split; [exact (extends_trans _ _ _ _ _ Hext HextT)|].
        split; [constructor; [reflexivity | exact Hflag]|].
        rewrite filter_cons_True by (split; assumption).
        cbn [map attempt_index]. now rewrite Hidx.
      * destruct (IH st) as (T & HextT & Hflag & Hidx).
        exists T. split; [exact HextT|]. split; [exact Hflag|].
        rewrite filter_cons_False by tauto. exact Hidx.
    + destruct (IH st) as (T & HextT & Hflag & Hidx).
      exists T. split; [exact HextT|]. split; [exact Hflag|].
      rewrite filter_cons_False; [exact Hidx|]. intros [Hc _]. congruence.
Qed.

(** The plain loop attempts every remapped channel, in order. *)
Lemma all_channels_loop_spec (a : KeyArgs) (flag : Z) (remaps : list bool)
    (indices : list nat) (st : KeyState) :
  exists T,
    extends st (all_channels_loop a flag remaps indices st) T
    /\ Forall (fun t => attempt_flag t = flag) T
    /\ map attempt_index T = filter (fun i => bit_get remaps i = true) indices.
Proof.
  revert st. induction indices as [|i rest IH]; intros st.
  - exists []. cbn [all_channels_loop]. split; [apply extends_refl|].
    split; [constructor | reflexivity].
  - cbn [all_channels_loop]. destruct (bit_get remaps i) eqn:Hbit; cbn [negb].
    + pose proof (key_channel_extends a flag st i) as Hext.
      destruct (IH (snd (key_channel a flag st i))) as (T & HextT & Hflag & Hidx).
      exists (mkAttempt i flag (fst (key_channel a flag st i)) :: T).
      split; [exact (extends_trans _ _ _ _ _ Hext HextT)|].
      split; [constructor; [reflexivity | exact Hflag]|].
      rewrite filter_cons_True by exact Hbit.
      cbn [map attempt_index]. now rewrite Hidx.
    + destruct (IH st) as (T & HextT & Hflag & Hidx).
      exists T. split; [exact HextT|]. split; [exact Hflag|].
      rewrite filter_cons_False; [exact Hidx | congruence].
Qed.

Lemma span_write_length {A : Type} (span output : list A) :
  length (span_write span output) = length span.
Proof.
  unfold span_write. rewrite length_take, length_app, length_drop. lia.
Qed.

Lemma keyframe_remaps_length (id : ID) (act : bAction) (ptr : PointerRNA)
    (prop : PropertyRNA) (ai : Z) (ctx : AnimationEvalContext) (flag : Z) :
  length (keyframe_remaps id act ptr prop ai ctx flag)
  = length (keyframe_values id act ptr prop ai ctx flag).
Proof.
  unfold keyframe_remaps, keyframe_values.
  now rewrite !span_write_length, length_replicate.
Qed.

(** [id_action_ensure] leaves the name and the struct type. *)
Lemma id_action_ensure_pointer (id id' : ID) (act : option bAction) :
  id_action_ensure id = (act, id') ->
  RNA_id_pointer_create id' = RNA_id_pointer_create id.
Proof.
  unfold id_action_ensure, BKE_animdata_ensure_id, RNA_id_pointer_create.
  destruct (id_can_have_animdata id); [|intros [= <- <-]; reflexivity].
  destruct (adt id) as [a|].
  - destruct (action a); intros [= <- <-]; reflexivity.
  - cbn [action]. intros [= <- <-]. reflexivity.
Qed.

(** [insert_keyframe] past its three early returns. *)
Lemma insert_keyframe_keyed (id id' : ID) (group : option string)
    (rna_path_ : string) (ai : Z) (ctx : AnimationEvalContext)
    (keytype flag : Z) (ptr : PointerRNA) (prop : PropertyRNA)
    (act : bAction) :
  BKE_id_is_editable id = true ->
  RNA_path_resolve_property (RNA_id_pointer_create id) rna_path_
  = Some (ptr, prop) ->
  id_action_ensure id = (Some act, id') ->
  let st :=
    key_channels
      (mkKeyArgs ptr prop group rna_path_ (keyframe_frame id' act ctx)
         (keyframe_values id' act ptr prop ai ctx flag) keytype)
      ai flag (r_force_all (keyframe_nla id' act ptr prop ai ctx flag))
      (keyframe_remaps id' act ptr prop ai ctx flag)
      (mkKeyState act CombinedKeyingResult_new 0 []) in
  run_result (insert_keyframe id group rna_path_ ai ctx keytype flag)
  = ks_result st
  /\ run_attempts (insert_keyframe id group rna_path_ ai ctx keytype flag)
     = ks_attempts st
  /\ run_id (insert_keyframe id group rna_path_ ai ctx keytype flag)
     = id_write_action id' (ks_act st)
  /\ run_events (insert_keyframe id group rna_path_ ai ctx keytype flag)
     = if 0 <? ks_key_count st then
         match BKE_animdata_from_id id' ≫= action with
         | Some adt_action =>
             if bool_decide (act_name adt_action <> act_name act)
             then [EvDegTag (act_name act) ID_RECALC_ANIMATION_NO_FLUSH;
                   EvDegTag (act_name adt_action) ID_RECALC_ANIMATION_NO_FLUSH]
             else [EvDegTag (act_name act) ID_RECALC_ANIMATION_NO_FLUSH]
         | None => [EvDegTag (act_name act) ID_RECALC_ANIMATION_NO_FLUSH]
         end
       else [].
Proof.
  intros Hed Hres Hact. cbv zeta.
  unfold keyframe_frame, keyframe_values, keyframe_remaps, keyframe_nla.
  rewrite (id_action_ensure_pointer id id' (Some act) Hact).
  unfold insert_keyframe. rewrite Hed, Hres, Hact. cbn [negb].
  destruct (nla_time_remap ctx (RNA_id_pointer_create id)
              (BKE_animdata_from_id id') act) as [frame nla_context] eqn:Hnla.
  cbn [fst snd run_result run_attempts run_id run_events].
  repeat split.
Qed.

(** The channels a list of attempts touched satisfy what the filter that
    selected them requires. *)
Lemma attempts_in_filter (P : nat -> Prop) `{forall i, Decision (P i)}
    (T : list Attempt) (l : list nat) :
  map attempt_index T = filter P l ->
  Forall (fun t => P (attempt_index t) /\ attempt_index t ∈ l) T.
Proof.
  intros Hmap. apply Forall_forall. intros t Ht.
  assert (Hin : attempt_index t ∈ filter P l).
  { rewrite <- Hmap. apply list_elem_of_fmap. exists t. split; [reflexivity|exact Ht]. }
  apply list_elem_of_filter in Hin. exact Hin.
Qed.

(** Every attempt of [key_channels] is at a channel inside the values that
    the remap mask accepts. *)
Lemma key_channels_spec (a : KeyArgs) (ai flag : Z) (force_all : bool)
    (remaps : list bool) (st : KeyState) :
  exists T,
    extends st (key_channels a ai flag force_all remaps st) T
    /\ Forall (fun t => (attempt_index t < length (ka_values a))%nat
                        /\ bit_get remaps (attempt_index t) = true) T.
Proof.
  assert (Hseq : forall (P : nat -> Prop) `{forall i, Decision (P i)} T,
             (forall i, P i -> bit_get remaps i = true) ->
             map attempt_index T = filter P (seq 0 (length (ka_values a))) ->
             Forall (fun t => (attempt_index t < length (ka_values a))%nat
                              /\ bit_get remaps (attempt_index t) = true) T).
  { intros P HP T HPb Hmap. apply attempts_in_filter in Hmap.
    eapply Forall_impl; [exact Hmap|]. intros t [Hp Hin]. split.
    - apply elem_of_seq in Hin. lia.
    - apply HPb, Hp. }
  unfold key_channels.
  destruct ((ai =? -1) || force_all).
  - destruct (force_all && negb (Z.land flag (Z.lor INSERTKEY_REPLACE INSERTKEY_AVAILABLE) =? 0)).
    + destruct (force_first_loop_spec a flag remaps
                  (seq 0 (length (ka_values a))) st)
        as (T1 & Hext1 & _ & Hcases).
      destruct (force_first_loop a flag remaps (seq 0 (length (ka_values a))) st)
        as [exclude st1]. cbn [fst snd] in Hext1, Hcases.
      assert (HT1 : Forall (fun t => (attempt_index t < length (ka_values a))%nat
                                     /\ bit_get remaps (attempt_index t) = true) T1).
      { destruct Hcases as [(_ & Hidx & _)
                           |(k & pre & post & T1' & _ & Hind & Hk & -> & Hidx & _)].
        - eapply Hseq; [|exact Hidx]. tauto.
        - apply Forall_app. split.
          + apply attempts_in_filter in Hidx.
            eapply Forall_impl; [exact Hidx|]. intros t [Hp Hin]. split; [|exact Hp].
            assert (Hin' : attempt_index t ∈ seq 0 (length (ka_values a))).
            { rewrite Hind. apply elem_of_app. left; exact Hin. }
            apply elem_of_seq in Hin'. lia.
          + constructor; [|constructor]. cbn [attempt_index]. split; [|exact Hk].
            assert (Hin' : k ∈ seq 0 (length (ka_values a))).
            { rewrite Hind. apply elem_of_app. right; left. }
            apply elem_of_seq in Hin'. lia. }
      destruct (negb (exclude =? -1)).
      * destruct (force_rest_loop_spec a
                    (flag_clear flag (Z.lor INSERTKEY_REPLACE INSERTKEY_AVAILABLE))
                    remaps exclude (seq 0 (length (ka_values a))) st1)
          as (T2 & Hext2 & _ & Hidx2).
        exists (T1 ++ T2). split; [exact (extends_trans _ _ _ _ _ Hext1 Hext2)|].
        apply Forall_app. split; [exact HT1|].
        eapply Hseq; [|exact Hidx2]. tauto.
      * exists T1. split; assumption.
    + destruct (all_channels_loop_spec a flag remaps
                  (seq 0 (length (ka_values a))) st) as (T & Hext & _ & Hidx).
      exists T. split; [exact Hext|]. eapply Hseq; [|exact Hidx]. tauto.
  - destruct ((0 <=? ai) && (ai <? Z.of_nat (length (ka_values a)))
              && bit_get remaps (Z.to_nat ai)) eqn:Hcond.
    + exists [mkAttempt (Z.to_nat ai) flag (fst (key_channel a flag st (Z.to_nat ai)))].
      split; [apply key_channel_extends|]. constructor; [|constructor].
      cbn [attempt_index]. apply andb_true_iff in Hcond as [Hrange Hbit].
      apply andb_true_iff in Hrange as [H0 Hlt].
      apply Z.leb_le in H0. apply Z.ltb_lt in Hlt. split; [lia | exact Hbit].
    + exists []. split; [apply extends_refl | constructor].
Qed.

Lemma total_count_new : total_count CombinedKeyingResult_new = 0.
Proof. reflexivity. Qed.

Lemma total_count_add1 (c : CombinedKeyingResult) (r : SingleKeyingResult) :
  total_count (add1 c r) = total_count c + 1.
Proof.
  unfold total_count, error_kinds. cbn [map foldr].
  rewrite !get_count_add1.
  destruct r; repeat (destruct (decide _) as [?|?]; try congruence); lia.
Qed.

Lemma tally_from_total (c : CombinedKeyingResult) (T : list Attempt) :
  total_count (tally_from c T) = total_count c + Z.of_nat (length T).
Proof.
  revert c. induction T as [|t T IH]; intros c; cbn [tally_from foldl length].
  - lia.
  - fold (tally_from (add1 c (attempt_result t)) T).
    rewrite IH, total_count_add1. lia.
Qed.

Lemma add_add1 (c : CombinedKeyingResult) (r : SingleKeyingResult) (n : Z) :
  add (add1 c r) r n = add c r (n + 1).
Proof.
  apply combined_eq; intros r'. unfold add1. rewrite !get_count_add.
  destruct (decide (r = r')); lia.
Qed.

Lemma add_zero (c : CombinedKeyingResult) (r : SingleKeyingResult) :
  add c r 0 = c.
Proof.
  apply combined_eq; intros r'. rewrite get_count_add.
  destruct (decide (r = r')); lia.
Qed.

(** The loop of [insert_key_legacy_action] records one outcome per value,
    and that outcome is [UNABLE_TO_INSERT_TO_NLA_STACK] for every channel
    the mask rejects. *)
Lemma insert_key_legacy_loop_spec (ptr : PointerRNA) (prop : PropertyRNA)
    (group : option string) (rna_path_ : string) (frame : float)
    (flag key_type : Z) (mask : list bool) (values : list float) :
  forall (idx : nat) (action_ : bAction) (cr : CombinedKeyingResult),
    let out :=
      insert_key_legacy_loop ptr prop group rna_path_ frame flag key_type mask
        values idx action_ cr in
    total_count (fst out) = total_count cr + Z.of_nat (length values)
    /\ get_count cr UNABLE_TO_INSERT_TO_NLA_STACK
       + Z.of_nat (length (filter (fun i => bit_get mask i = false)
                             (seq idx (length values))))
       <= get_count (fst out) UNABLE_TO_INSERT_TO_NLA_STACK
    /\ ((forall i, (idx <= i < idx + length values)%nat ->
                   bit_get mask i = false) ->
        out = (add cr UNABLE_TO_INSERT_TO_NLA_STACK (Z.of_nat (length values)),
               action_)).
Proof.
  induction values as [|value rest IH]; intros idx action_ cr out.
  - subst out. cbn [insert_key_legacy_loop fst length seq].
    rewrite filter_nil. cbn [length]. repeat split; try lia.
    intros _. now rewrite add_zero.
  - subst out. cbn [insert_key_legacy_loop length seq].
    destruct (bit_get mask idx) eqn:Hbit; cbn [negb].
    + destruct (insert_keyframe_fcurve_value ptr prop action_ group rna_path_
                  (Z.of_nat idx) frame value key_type flag)
        as [keying_result action1].
      specialize (IH (S idx) action1 (add1 cr keying_result)).
      cbv zeta in IH. destruct IH as (Htot & Hmask & _).
      rewrite filter_cons_False by congruence.
      rewrite total_count_add1 in Htot. rewrite get_count_add1 in Hmask.
      repeat split; try lia.
      * destruct (decide (keying_result = UNABLE_TO_INSERT_TO_NLA_STACK)); lia.
      * intros Hall. specialize (Hall idx ltac:(lia)). congruence.
    + specialize (IH (S idx) action_ (add1 cr UNABLE_TO_INSERT_TO_NLA_STACK)).
      cbv zeta in IH. destruct IH as (Htot & Hmask & Hall).
      rewrite filter_cons_True by exact Hbit.
      rewrite total_count_add1 in Htot. rewrite get_count_add1 in Hmask.
      rewrite decide_True in Hmask by reflexivity. cbn [length].
      repeat split; try lia.
      intros Hrej. rewrite Hall by (intros i Hi; apply Hrej; lia).
      rewrite add_add1. do 2 f_equal. lia.
Qed.

(** The outcomes of the loop of [insert_key_legacy_action], channel by
    channel: one per value, and [UNABLE_TO_INSERT_TO_NLA_STACK] at every
    channel the mask rejects. *)
Lemma insert_key_legacy_loop_outcomes (ptr : PointerRNA) (prop : PropertyRNA)
    (group : option string) (rna_path_ : string) (frame : float)
    (flag key_type : Z) (mask : list bool) (values : list float) :
  forall (idx : nat) (action_ : bAction) (cr : CombinedKeyingResult),
    exists outcomes : list SingleKeyingResult,
      length outcomes = length values
      /\ fst (insert_key_legacy_loop ptr prop group rna_path_ frame flag
                key_type mask values idx action_ cr)
         = foldl add1 cr outcomes
      /\ forall j, (j < length values)%nat ->
                   bit_get mask (idx + j) = false ->
                   outcomes !! j = Some UNABLE_TO_INSERT_TO_NLA_STACK.
Proof.
  induction values as [|value rest IH]; intros idx action_ cr.
  - exists []. cbn [insert_key_legacy_loop fst length foldl].
    repeat split. intros j Hj. lia.
  - cbn [insert_key_legacy_loop length].
    destruct (bit_get mask idx) eqn:Hbit; cbn [negb].
    + destruct (insert_keyframe_fcurve_value ptr prop action_ group rna_path_
                  (Z.of_nat idx) frame value key_type flag)
        as [keying_result action1].
      destruct (IH (S idx) action1 (add1 cr keying_result))
        as (outcomes & Hlen & Hres & Hmask).
      exists (keying_result :: outcomes). cbn [length foldl].
      split; [now rewrite Hlen|]. split; [exact Hres|].
      intros [|j] Hj Hj0.
      * rewrite Nat.add_0_r in Hj0. congruence.
      * cbn [lookup list_lookup]. apply Hmask; [lia|].
        now replace (S idx + j)%nat with (idx + S j)%nat by lia.
    + destruct (IH (S idx) action_ (add1 cr UNABLE_TO_INSERT_TO_NLA_STACK))
        as (outcomes & Hlen & Hres & Hmask).
      exists (UNABLE_TO_INSERT_TO_NLA_STACK :: outcomes). cbn [length foldl].
      split; [now rewrite Hlen|]. split; [exact Hres|].
      intros [|j] Hj Hj0.
      * reflexivity.
      * cbn [lookup list_lookup]. apply Hmask; [lia|].
        now replace (S idx + j)%nat with (idx + S j)%nat by lia.
Qed.

(** C9. In [insert_keyframe], past the early returns, the aggregate holds
    exactly the outcomes of the attempted channel writes, and every
    attempt is at a channel inside the extracted values that the NLA remap
    mask accepts: a channel the mask rejects, or an explicit index outside
    the values, adds no outcome of any kind (when no channel qualifies the
    returned aggregate is empty). [insert_key_legacy_action], on a legacy
    Action, instead records one outcome per value, and the outcome of each
    channel the mask rejects is [UNABLE_TO_INSERT_TO_NLA_STACK]. *)
Theorem C9_masked_channels_silent_or_recorded :
  (forall (id id' : ID) (group : option string) (rna_path_ : string) (ai : Z)
          (ctx : AnimationEvalContext) (keytype flag : Z) (ptr : PointerRNA)
          (prop : PropertyRNA) (act : bAction),
      BKE_id_is_editable id = true ->
      RNA_path_resolve_property (RNA_id_pointer_create id) rna_path_
      = Some (ptr, prop) ->
      id_action_ensure id = (Some act, id') ->
      let values := keyframe_values id' act ptr prop ai ctx flag in
      let remaps := keyframe_remaps id' act ptr prop ai ctx flag in
      let force_all := r_force_all (keyframe_nla id' act ptr prop ai ctx flag) in
      let run := insert_keyframe id group rna_path_ ai ctx keytype flag in
      run_result run = tally (run_attempts run)
      /\ total_count (run_result run) = Z.of_nat (length (run_attempts run))
      /\ Forall (fun t => (attempt_index t < length values)%nat
                           /\ bit_get remaps (attempt_index t) = true)
            (run_attempts run)
      /\ ((forall i, (i < length values)%nat -> bit_get remaps i = false) ->
           run_result run = CombinedKeyingResult_new)
      /\ (force_all = false -> ai <> -1 ->
           (ai < 0 \/ Z.of_nat (length values) <= ai
            \/ bit_get remaps (Z.to_nat ai) = false) ->
           run_result run = CombinedKeyingResult_new))
  /\ (forall (action_ : bAction) (ptr : PointerRNA) (prop : PropertyRNA)
             (rna_path_ : string) (frame : float) (values : list float)
             (flag key_type : Z) (keying_mask : list bool),
        is_action_legacy action_ = true ->
        exists out outcomes,
          insert_key_legacy_action action_ ptr prop rna_path_ frame values
            flag key_type keying_mask
          = Some out
          /\ length outcomes = length values
          /\ fst out = foldl add1 CombinedKeyingResult_new outcomes
          /\ (forall i, (i < length values)%nat ->
                        bit_get keying_mask i = false ->
                        outcomes !! i = Some UNABLE_TO_INSERT_TO_NLA_STACK)
          /\ total_count (fst out) = Z.of_nat (length values)
          /\ Z.of_nat (length (masked_out keying_mask (length values)))
             <= get_count (fst out) UNABLE_TO_INSERT_TO_NLA_STACK
          /\ ((forall i, (i < length values)%nat ->
                         bit_get keying_mask i = false) ->
              out = (add CombinedKeyingResult_new UNABLE_TO_INSERT_TO_NLA_STACK
                       (Z.of_nat (length values)),
                     action_))).
Proof.
  split.
  - intros id id' group rna_path_ ai ctx keytype flag ptr prop act Hed Hres Hact
      values remaps force_all run.
    destruct (insert_keyframe_keyed id id' group rna_path_ ai ctx keytype flag
                ptr prop act Hed Hres Hact) as (Hr & Ha & _ & _).
    fold run values remaps force_all in Hr, Ha.
    set (a := mkKeyArgs ptr prop group rna_path_ (keyframe_frame id' act ctx)
                values keytype) in *.
    set (st0 := mkKeyState act CombinedKeyingResult_new 0 []) in *.
    destruct (key_channels_spec a ai flag force_all remaps st0)
      as (T & (HaT & HrT & _) & HT).
    cbn [ks_attempts ks_result st0 app] in HaT, HrT.
    assert (Hattempts : run_attempts run = T) by (rewrite Ha; exact HaT).
    assert (Hresult : run_result run = tally T) by (rewrite Hr; exact HrT).
    assert (Hempty : T = [] -> run_result run = CombinedKeyingResult_new).
    { intros ->. exact Hresult. }
    split; [now rewrite Hattempts|].
    split; [rewrite Hresult, Hattempts; unfold tally;
            rewrite tally_from_total, total_count_new; lia|].
    split; [rewrite Hattempts; exact HT|].
    split.
    + intros Hall. apply Hempty. destruct T as [|t T]; [reflexivity|].
      apply Forall_cons in HT as [[Hlt Hbit] _].
      rewrite (Hall _ Hlt) in Hbit. discriminate.
    + intros Hforce Hai Hout.
      rewrite Hr. unfold key_channels. rewrite Hforce.
      destruct (Z.eqb_spec ai (-1)) as [?|_]; [contradiction|]. cbn [orb].
      destruct ((0 <=? ai) && (ai <? Z.of_nat (length (ka_values a)))
                && bit_get remaps (Z.to_nat ai)) eqn:Hcond; [|reflexivity].
      exfalso. apply andb_true_iff in Hcond as [Hrange Hbit].
      apply andb_true_iff in Hrange as [H0 Hlt].
      apply Z.leb_le in H0. apply Z.ltb_lt in Hlt. cbn [ka_values a] in Hlt.
      destruct Hout as [?|[?|?]]; [lia | lia | congruence].
  - intros action_ ptr prop rna_path_ frame values flag key_type keying_mask
      Hlegacy.
    unfold insert_key_legacy_action, masked_out. rewrite Hlegacy. cbn [negb].
    destruct (insert_key_legacy_loop_outcomes ptr prop
                (default_channel_group_for_path ptr rna_path_) rna_path_ frame
                flag key_type keying_mask values 0 action_
                CombinedKeyingResult_new) as (outcomes & Hlen & Hres & Hout).
    eexists _, outcomes. split; [reflexivity|].
    split; [exact Hlen|]. split; [exact Hres|]. split; [exact Hout|].
    pose proof (insert_key_legacy_loop_spec ptr prop
                  (default_channel_group_for_path ptr rna_path_) rna_path_ frame
                  flag key_type keying_mask values 0 action_
                  CombinedKeyingResult_new) as Hloop.
    cbv zeta in Hloop. destruct Hloop as (Htot & Hmask & Hall).
    rewrite total_count_new in Htot. rewrite get_count_new in Hmask.
    repeat split; try lia.
    intros Hrej. apply Hall. intros i Hi. apply Hrej. lia.
Qed.

Lemma seq_split_at (n k : nat) (pre post : list nat) :
  seq 0 n = pre ++ k :: post -> pre = seq 0 k /\ (k < n)%nat.
Proof.
  intros Hseq.
  assert (Hk : seq 0 n !! length pre = Some k).
  { rewrite Hseq. apply list_lookup_middle. reflexivity. }
  apply lookup_seq in Hk as [Hk Hlt]. simpl in Hk. subst k.
  split; [|exact Hlt].
  assert (Hsplit : seq 0 n = seq 0 (length pre) ++ seq (length pre) (n - length pre)).
  { rewrite <- seq_app. f_equal. lia. }
  rewrite Hsplit in Hseq. apply app_inj_1 in Hseq as [Hpre _].
  - now symmetry.
  - now rewrite length_seq.
Qed.

(** The attempts of the force-all branch under a replace-only or
    available-only policy. *)
Lemma force_all_attempts (a : KeyArgs) (ai flag : Z) (remaps : list bool)
    (st : KeyState) :
  Z.land flag (Z.lor INSERTKEY_REPLACE INSERTKEY_AVAILABLE) <> 0 ->
  let n := length (ka_values a) in
  let relaxed := flag_clear flag (Z.lor INSERTKEY_REPLACE INSERTKEY_AVAILABLE) in
  exists T,
    extends st (key_channels a ai flag true remaps st) T
    /\ ((Forall (fun t => attempt_flag t = flag /\ attempt_result t <> SUCCESS) T
         /\ map attempt_index T = filter (fun i => bit_get remaps i = true) (seq 0 n))
        \/ (exists k T1 T2,
              T = T1 ++ [mkAttempt k flag SUCCESS] ++ T2
              /\ (k < n)%nat /\ bit_get remaps k = true
              /\ map attempt_index T1
                 = filter (fun i => bit_get remaps i = true) (seq 0 k)
              /\ Forall (fun t => attempt_flag t = flag
                                  /\ attempt_result t <> SUCCESS) T1
              /\ map attempt_index T2
                 = filter (fun i => bit_get remaps i = true /\ i <> k) (seq 0 n)
              /\ Forall (fun t => attempt_flag t = relaxed) T2)).
Proof.
  intros Hpolicy n relaxed. unfold key_channels. rewrite orb_true_r.
  destruct (Z.eqb_spec (Z.land flag (Z.lor INSERTKEY_REPLACE INSERTKEY_AVAILABLE)) 0)
    as [?|_]; [contradiction|]. cbn [andb negb]. fold n relaxed.
  destruct (force_first_loop_spec a flag remaps (seq 0 n) st)
    as (T1 & Hext1 & Hflag1 & Hcases).
  destruct (force_first_loop a flag remaps (seq 0 n) st) as [exclude st1].
  cbn [fst snd] in Hext1, Hcases.
  destruct Hcases as [(-> & Hidx & Hfail)
                     |(k & pre & post & T1' & -> & Hind & Hk & -> & Hidx & Hfail)].
  - cbn [Z.eqb negb]. exists T1. split; [exact Hext1|]. left. split; [|exact Hidx].
    apply Forall_forall. intros t Ht. split.
    + exact (proj1 (Forall_forall _ _) Hflag1 t Ht).
    + exact (proj1 (Forall_forall _ _) Hfail t Ht).
  - apply seq_split_at in Hind as [-> Hlt].
    destruct (Z.eqb_spec (Z.of_nat k) (-1)) as [?|_]; [lia|]. cbn [negb].
    destruct (force_rest_loop_spec a relaxed remaps (Z.of_nat k) (seq 0 n) st1)
      as (T2 & Hext2 & Hflag2 & Hidx2).
    exists ((T1' ++ [mkAttempt k flag SUCCESS]) ++ T2).
    split; [exact (extends_trans _ _ _ _ _ Hext1 Hext2)|].
    right. exists k, T1', T2. split; [now rewrite <- app_assoc|].
    split; [exact Hlt|]. split; [exact Hk|]. split; [exact Hidx|]. split.
    + apply Forall_app in Hflag1 as [Hflag1 _].
      apply Forall_forall. intros t Ht. split.
      * exact (proj1 (Forall_forall _ _) Hflag1 t Ht).
      * exact (proj1 (Forall_forall _ _) Hfail t Ht).
    + split; [|exact Hflag2]. rewrite Hidx2. apply list_filter_iff.
      intros i. split; intros [Hb Hne]; (split; [exact Hb | lia]).
Qed.

(** *** Single channel writes *)

Lemma insert_keyframe_value_plain (fcu : FCurve) (cfra curval : float)
    (keytype flag : Z) :
  flag_test flag INSERTKEY_CYCLE_AWARE = false ->
  BKE_fcurve_is_keyframable fcu = true ->
  insert_keyframe_value fcu cfra curval keytype flag
  = insert_vert_fcurve fcu (cfra, curval) (point_settings flag keytype) flag.
Proof.
  intros Hcycle Hkey. unfold insert_keyframe_value. now rewrite Hkey, Hcycle.
Qed.

Lemma action_fcurve_find_none (act : bAction) (rna_path_ : string) (i : Z) :
  Forall (fun fcu => ~ (rna_path fcu = rna_path_ /\ array_index fcu = i))
    (curves act) ->
  action_fcurve_find act rna_path_ i = None.
Proof. intros H. unfold action_fcurve_find. now apply list_find_None. Qed.

(** A write to a channel whose curve exists, without cycle awareness. *)
Lemma fcurve_value_found (ptr : PointerRNA) (prop : PropertyRNA)
    (act : bAction) (group : option string) (rna_path_ : string) (i : Z)
    (frame v : float) (keytype flag : Z) (pos : nat) (fcu : FCurve) :
  action_fcurve_find act rna_path_ i = Some (pos, fcu) ->
  flag_test flag INSERTKEY_CYCLE_AWARE = false ->
  BKE_fcurve_is_keyframable fcu = true ->
  inserts_one_point (update_autoflags_fcurve_direct fcu prop) (frame, v)
    (point_settings flag keytype) flag ->
  exists fcu',
    insert_keyframe_fcurve_value ptr prop act group rna_path_ i frame v
      keytype flag
    = (SUCCESS, set_curves act (<[pos := fcu']> (curves act)))
    /\ rna_path fcu' = rna_path fcu
    /\ array_index fcu' = array_index fcu
    /\ length (bezt fcu') = S (length (bezt fcu)).
Proof.
  intros Hfind Hcycle Hkey (fcu' & Hins & Hpath & Hidx & Hlen).
  destruct (update_autoflags_keeps fcu prop) as (Hb & _ & Hp & Hi & Hk).
  exists fcu'. rewrite Hpath, Hidx, Hlen, Hb, Hp, Hi.
  split; [|repeat split]. unfold insert_keyframe_fcurve_value.
  assert (Hptr : (if key_insertion_may_create_fcurve flag
                  then action_fcurve_ensure act group ptr rna_path_ i
                  else (act, action_fcurve_find act rna_path_ i))
                 = (act, Some (pos, fcu))).
  { unfold action_fcurve_ensure. rewrite Hfind.
    destruct (key_insertion_may_create_fcurve flag); reflexivity. }
  rewrite Hptr, Hcycle. cbn [andb].
  rewrite insert_keyframe_value_plain; [|exact Hcycle|now rewrite Hk].
  now rewrite Hins.
Qed.

(** A write to a channel without a curve under a policy that forbids
    creation. *)
Lemma fcurve_value_missing (ptr : PointerRNA) (prop : PropertyRNA)
    (act : bAction) (group : option string) (rna_path_ : string) (i : Z)
    (frame v : float) (keytype flag : Z) :
  action_fcurve_find act rna_path_ i = None ->
  Z.land flag (Z.lor INSERTKEY_REPLACE INSERTKEY_AVAILABLE) <> 0 ->
  insert_keyframe_fcurve_value ptr prop act group rna_path_ i frame v
    keytype flag
  = (CANNOT_CREATE_FCURVE, act).
Proof.
  intros Hfind Hpolicy. unfold insert_keyframe_fcurve_value,
    key_insertion_may_create_fcurve.
  destruct (Z.eqb_spec (Z.land flag (Z.lor INSERTKEY_REPLACE INSERTKEY_AVAILABLE)) 0);
    [contradiction|].
  now rewrite Hfind.
Qed.

(** A write to a channel without a curve when creation is allowed, without
    cycle awareness: the new curve is appended and receives the point. *)
Lemma fcurve_value_created (ptr : PointerRNA) (prop : PropertyRNA)
    (act : bAction) (group : option string) (rna_path_ : string) (i : Z)
    (frame v : float) (keytype flag : Z) :
  action_fcurve_find act rna_path_ i = None ->
  key_insertion_may_create_fcurve flag = true ->
  flag_test flag INSERTKEY_CYCLE_AWARE = false ->
  inserts_one_point
    (update_autoflags_fcurve_direct (mkFCurve [] [] 0 [] rna_path_ i group) prop)
    (frame, v) (point_settings flag keytype) flag ->
  exists fcu' act',
    insert_keyframe_fcurve_value ptr prop act group rna_path_ i frame v
      keytype flag
    = (SUCCESS, act')
    /\ curves act' = curves act ++ [fcu']
    /\ act_name act' = act_name act
    /\ rna_path fcu' = rna_path_
    /\ array_index fcu' = i
    /\ length (bezt fcu') = 1%nat.
Proof.
  intros Hfind Hcreate Hcycle (fcu' & Hins & Hpath & Hidx & Hlen).
  set (fcu := mkFCurve [] [] 0 [] rna_path_ i group) in *.
  destruct (update_autoflags_keeps fcu prop) as (Hb & _ & Hp & Hi & Hk).
  rewrite Hb in Hlen. rewrite Hp in Hpath. rewrite Hi in Hidx.
  unfold insert_keyframe_fcurve_value. rewrite Hcreate.
  unfold action_fcurve_ensure. rewrite Hfind. fold fcu.
  set (act_g := match group with
                | Some g => if bool_decide (g ∈ groups act) then act
                            else set_groups act (groups act ++ [g])
                | None => act
                end).
  assert (Hg : curves act_g = curves act /\ act_name act_g = act_name act).
  { unfold act_g. destruct group as [g|]; [|split; reflexivity].
    case_bool_decide; split; reflexivity. }
  destruct Hg as [Hgc Hgn]. rewrite Hgc.
  rewrite Hcycle. cbn [andb].
  rewrite insert_keyframe_value_plain; [|exact Hcycle|now rewrite Hk].
  rewrite Hins.
  exists fcu', (set_curves (set_curves act_g (curves act ++ [fcu]))
                  (<[length (curves act) := fcu']>
                     (curves (set_curves act_g (curves act ++ [fcu]))))).
  split; [reflexivity|]. cbn [set_curves curves act_name].
  rewrite insert_app_r_alt by lia. rewrite Nat.sub_diag. cbn [list_insert].
  repeat split; assumption.
Qed.

Lemma key_channel_result (a : KeyArgs) (flag : Z) (act : bAction)
    (res : CombinedKeyingResult) (count : Z) (attempts : list Attempt)
    (i : nat) (r : SingleKeyingResult) (act' : bAction) :
  insert_keyframe_fcurve_value (ka_ptr a) (ka_prop a) act (ka_group a)
    (ka_rna_path a) (Z.of_nat i) (ka_frame a) (float_get (ka_values a) i)
    (ka_keytype a) flag
  = (r, act') ->
  key_channel a flag (mkKeyState act res count attempts) i
  = (r, mkKeyState act' (add1 res r)
          (if bool_decide (r = SUCCESS) then count + 1 else count)
          (attempts ++ [mkAttempt i flag r])).
Proof. intros H. unfold key_channel. cbn [ks_act]. now rewrite H. Qed.

(** *** Three channels, one existing curve *)

Lemma force_all_three_channels (a : KeyArgs) (ai flag : Z) (act : bAction)
    (fcu1 : FCurve) (v0 v1 v2 : float) :
  let relaxed := flag_clear flag (Z.lor INSERTKEY_REPLACE INSERTKEY_AVAILABLE) in
  Z.land flag (Z.lor INSERTKEY_REPLACE INSERTKEY_AVAILABLE) <> 0 ->
  flag_test flag INSERTKEY_CYCLE_AWARE = false ->
  ka_values a = [v0; v1; v2] ->
  curves act = [fcu1] ->
  rna_path fcu1 = ka_rna_path a ->
  array_index fcu1 = 1 ->
  BKE_fcurve_is_keyframable fcu1 = true ->
  inserts_one_point (update_autoflags_fcurve_direct fcu1 (ka_prop a))
    (ka_frame a, v1) (point_settings flag (ka_keytype a)) flag ->
  (forall i v,
      inserts_one_point
        (update_autoflags_fcurve_direct
           (mkFCurve [] [] 0 [] (ka_rna_path a) i (ka_group a)) (ka_prop a))
        (ka_frame a, v) (point_settings relaxed (ka_keytype a)) relaxed) ->
  let st :=
    key_channels a ai flag true [true; true; true]
      (mkKeyState act CombinedKeyingResult_new 0 []) in
  ks_attempts st
  = [mkAttempt 0 flag CANNOT_CREATE_FCURVE; mkAttempt 1 flag SUCCESS;
     mkAttempt 0 relaxed SUCCESS; mkAttempt 2 relaxed SUCCESS]
  /\ ks_key_count st = 3
  /\ ks_result st = tally (ks_attempts st)
  /\ act_name (ks_act st) = act_name act
  /\ exists c1 c0 c2,
       curves (ks_act st) = [c1; c0; c2]
       /\ (rna_path c1 = ka_rna_path a /\ array_index c1 = 1
           /\ length (bezt c1) = S (length (bezt fcu1)))
       /\ (rna_path c0 = ka_rna_path a /\ array_index c0 = 0
           /\ length (bezt c0) = 1%nat)
       /\ (rna_path c2 = ka_rna_path a /\ array_index c2 = 2
           /\ length (bezt c2) = 1%nat).
Proof.
  intros relaxed Hpolicy Hcycle Hvalues Hcurves Hpath Hidx Hkey Hins1 Hnew.
  assert (Hrelaxed : flag_test relaxed INSERTKEY_CYCLE_AWARE = false).
  { unfold relaxed. now rewrite relaxed_cycle_aware. }
  (* channel 0 under the policy: no curve, none may be created *)
  assert (HA : insert_keyframe_fcurve_value (ka_ptr a) (ka_prop a) act
                 (ka_group a) (ka_rna_path a) (Z.of_nat 0) (ka_frame a)
                 (float_get (ka_values a) 0) (ka_keytype a) flag
               = (CANNOT_CREATE_FCURVE, act)).
  { apply fcurve_value_missing; [|exact Hpolicy].
    apply action_fcurve_find_none. rewrite Hcurves.
    constructor; [|constructor]. intros [_ Hi]. rewrite Hidx in Hi. discriminate. }
  (* channel 1 under the policy: the existing curve *)
  assert (Hfind1 : action_fcurve_find act (ka_rna_path a) (Z.of_nat 1)
                   = Some (0%nat, fcu1)).
  { unfold action_fcurve_find. rewrite Hcurves. cbn [list_find].
    rewrite decide_True by (split; [exact Hpath | exact Hidx]). reflexivity. }
  destruct (fcurve_value_found (ka_ptr a) (ka_prop a) act (ka_group a)
              (ka_rna_path a) (Z.of_nat 1) (ka_frame a) v1 (ka_keytype a) flag
              0 fcu1 Hfind1 Hcycle Hkey Hins1)
    as (c1 & HB & Hc1p & Hc1i & Hc1l).
  rewrite Hcurves in HB. cbn [list_insert insert] in HB.
  set (act1 := set_curves act [c1]) in *.
  (* channel 0 relaxed: a new curve *)
  assert (Hfind0 : action_fcurve_find act1 (ka_rna_path a) (Z.of_nat 0) = None).
  { apply action_fcurve_find_none. cbn [act1 set_curves curves].
    constructor; [|constructor]. intros [_ Hi]. rewrite Hc1i, Hidx in Hi.
    discriminate. }
  destruct (fcurve_value_created (ka_ptr a) (ka_prop a) act1 (ka_group a)
              (ka_rna_path a) (Z.of_nat 0) (ka_frame a) v0 (ka_keytype a)
              relaxed Hfind0 (relaxed_may_create flag) Hrelaxed (Hnew _ _))
    as (c0 & act2 & HC & Hcurves2 & Hname2 & Hc0p & Hc0i & Hc0l).
  cbn [act1 set_curves curves app] in Hcurves2.
  (* channel 2 relaxed: a new curve *)
  assert (Hfind2 : action_fcurve_find act2 (ka_rna_path a) (Z.of_nat 2) = None).
  { apply action_fcurve_find_none. rewrite Hcurves2.
    constructor; [|constructor; [|constructor]]; intros [_ Hi].
    - rewrite Hc1i, Hidx in Hi. discriminate.
    - rewrite Hc0i in Hi. discriminate. }
  destruct (fcurve_value_created (ka_ptr a) (ka_prop a) act2 (ka_group a)
              (ka_rna_path a) (Z.of_nat 2) (ka_frame a) v2 (ka_keytype a)
              relaxed Hfind2 (relaxed_may_create flag) Hrelaxed (Hnew _ _))
    as (c2 & act3 & HD & Hcurves3 & Hname3 & Hc2p & Hc2i & Hc2l).
  rewrite Hcurves2 in Hcurves3. cbn [app] in Hcurves3.
  (* the run *)
  assert (Hv0 : float_get (ka_values a) 0 = v0) by now rewrite Hvalues.
  assert (Hv1 : float_get (ka_values a) 1 = v1) by now rewrite Hvalues.
  assert (Hv2 : float_get (ka_values a) 2 = v2) by now rewrite Hvalues.
  rewrite <- Hv1 in HB. rewrite <- Hv0 in HC. rewrite <- Hv2 in HD.
  cbv zeta. unfold key_channels. rewrite orb_true_r.
  destruct (Z.eqb_spec (Z.land flag (Z.lor INSERTKEY_REPLACE INSERTKEY_AVAILABLE)) 0)
    as [?|_]; [contradiction|].
  cbn [andb negb]. rewrite Hvalues.
  cbn [length seq force_first_loop bit_get lookup list_lookup negb
       from_option id].
  rewrite (key_channel_result a flag _ _ _ _ 0 _ _ HA).
  rewrite (bool_decide_eq_false_2 _) by discriminate.
  rewrite (key_channel_result a flag _ _ _ _ 1 _ _ HB).
  rewrite (bool_decide_eq_true_2 _) by reflexivity.
  change (negb (Z.of_nat 1 =? -1)) with true. cbv iota. fold relaxed.
  cbn [force_rest_loop bit_get lookup list_lookup negb from_option id].
  rewrite (bool_decide_eq_true_2 (Z.of_nat 0 <> Z.of_nat 1)) by discriminate.
  rewrite (bool_decide_eq_false_2 (Z.of_nat 1 <> Z.of_nat 1)) by (intros H; now apply H).
  rewrite (bool_decide_eq_true_2 (Z.of_nat 2 <> Z.of_nat 1)) by discriminate.
  cbn [ks_act ks_result ks_key_count ks_attempts] in *.
  rewrite (key_channel_result a relaxed _ _ _ _ 0 _ _ HC). cbn [snd].
  rewrite (key_channel_result a relaxed _ _ _ _ 2 _ _ HD). cbn [snd].
  cbn [ks_act ks_result ks_key_count ks_attempts app].
  rewrite ?(bool_decide_eq_false_2 (CANNOT_CREATE_FCURVE = SUCCESS)) by discriminate.
  rewrite ?(bool_decide_eq_true_2 (SUCCESS = SUCCESS)) by reflexivity.
  split; [reflexivity|]. split; [reflexivity|]. split; [reflexivity|].
  split; [rewrite Hname3, Hname2; reflexivity|].
  exists c1, c0, c2. split; [exact Hcurves3|].
  rewrite Hc1p, Hc1i, Hc1l, Hpath, Hidx. repeat split; assumption.
Qed.

(** After [id_action_ensure] the data-block carries animation data whose
    Action is the returned one. *)
Lemma id_action_ensure_adt (id id' : ID) (act : bAction) :
  id_action_ensure id = (Some act, id') ->
  BKE_animdata_from_id id' ≫= action = Some act
  /\ forall act', adt (id_write_action id' act') ≫= action = Some act'.
Proof.
  unfold id_action_ensure, BKE_animdata_ensure_id, BKE_animdata_from_id,
    id_write_action.
  destruct (id_can_have_animdata id) eqn:Hcan; [|discriminate].
  destruct (adt id) as [a|] eqn:Hadt.
  - destruct (action a) as [act0|] eqn:Hact0; intros [= <- <-].
    + rewrite Hcan, Hadt. cbn. rewrite Hact0. split; [reflexivity|].
      intros act'. reflexivity.
    + cbn. rewrite Hcan. split; reflexivity.
  - cbn. intros [= <- <-]. cbn. rewrite Hcan. split; reflexivity.
Qed.

(** C1. In [insert_keyframe], when the NLA remap sets the force-all flag
    and the flags contain the replace-only or the available-only policy:
    the remapped channels are attempted in ascending order under the given
    flags until the first success; if there is one, at channel k, every
    other remapped channel is then attempted, in ascending order, with the
    replace and available bits dropped; the aggregate records exactly
    these attempts. In particular, with 3 remapped channels of which only
    channel 1 has a curve, when the point insertion adds a point to that
    curve and to new curves: channel 0 is refused, channel 1 succeeds,
    channels 0 and 2 are then written, and the Action ends with one curve
    per channel, each with exactly one new point. *)
Theorem C1_force_all_drops_policy_after_first_success :
  (forall (id id' : ID) (group : option string) (rna_path_ : string) (ai : Z)
          (ctx : AnimationEvalContext) (keytype flag : Z) (ptr : PointerRNA)
          (prop : PropertyRNA) (act : bAction),
      BKE_id_is_editable id = true ->
      RNA_path_resolve_property (RNA_id_pointer_create id) rna_path_
      = Some (ptr, prop) ->
      id_action_ensure id = (Some act, id') ->
      r_force_all (keyframe_nla id' act ptr prop ai ctx flag) = true ->
      Z.land flag (Z.lor INSERTKEY_REPLACE INSERTKEY_AVAILABLE) <> 0 ->
      let n := length (keyframe_values id' act ptr prop ai ctx flag) in
      let remaps := keyframe_remaps id' act ptr prop ai ctx flag in
      let relaxed :=
        flag_clear flag (Z.lor INSERTKEY_REPLACE INSERTKEY_AVAILABLE) in
      let run := insert_keyframe id group rna_path_ ai ctx keytype flag in
      run_result run = tally (run_attempts run)
      /\ ((Forall (fun t => attempt_flag t = flag
                            /\ attempt_result t <> SUCCESS) (run_attempts run)
           /\ map attempt_index (run_attempts run)
              = filter (fun i => bit_get remaps i = true) (seq 0 n))
          \/ (exists k T1 T2,
                run_attempts run = T1 ++ [mkAttempt k flag SUCCESS] ++ T2
                /\ (k < n)%nat /\ bit_get remaps k = true
                /\ map attempt_index T1
                   = filter (fun i => bit_get remaps i = true) (seq 0 k)
                /\ Forall (fun t => attempt_flag t = flag
                                    /\ attempt_result t <> SUCCESS) T1
                /\ map attempt_index T2
                   = filter (fun i => bit_get remaps i = true /\ i <> k)
                       (seq 0 n)
                /\ Forall (fun t => attempt_flag t = relaxed) T2)))
  /\ (forall (id id' : ID) (group : option string) (rna_path_ : string)
             (ai : Z) (ctx : AnimationEvalContext) (keytype flag : Z)
             (ptr : PointerRNA) (prop : PropertyRNA) (act : bAction)
             (fcu1 : FCurve) (v0 v1 v2 : float),
        let relaxed :=
          flag_clear flag (Z.lor INSERTKEY_REPLACE INSERTKEY_AVAILABLE) in
        let frame := keyframe_frame id' act ctx in
        BKE_id_is_editable id = true ->
        RNA_path_resolve_property (RNA_id_pointer_create id) rna_path_
        = Some (ptr, prop) ->
        id_action_ensure id = (Some act, id') ->
        r_force_all (keyframe_nla id' act ptr prop ai ctx flag) = true ->
        Z.land flag (Z.lor INSERTKEY_REPLACE INSERTKEY_AVAILABLE) <> 0 ->
        flag_test flag INSERTKEY_CYCLE_AWARE = false ->
        keyframe_values id' act ptr prop ai ctx flag = [v0; v1; v2] ->
        keyframe_remaps id' act ptr prop ai ctx flag = [true; true; true] ->
        curves act = [fcu1] ->
        rna_path fcu1 = rna_path_ ->
        array_index fcu1 = 1 ->
        BKE_fcurve_is_keyframable fcu1 = true ->
        inserts_one_point (update_autoflags_fcurve_direct fcu1 prop)
          (frame, v1) (point_settings flag keytype) flag ->
        (forall i v,
            inserts_one_point
              (update_autoflags_fcurve_direct
                 (mkFCurve [] [] 0 [] rna_path_ i group) prop)
              (frame, v) (point_settings relaxed keytype) relaxed) ->
        let run := insert_keyframe id group rna_path_ ai ctx keytype flag in
        run_attempts run
        = [mkAttempt 0 flag CANNOT_CREATE_FCURVE; mkAttempt 1 flag SUCCESS;
           mkAttempt 0 relaxed SUCCESS; mkAttempt 2 relaxed SUCCESS]
        /\ get_count (run_result run) SUCCESS = 3
        /\ run_events run
           = [EvDegTag (act_name act) ID_RECALC_ANIMATION_NO_FLUSH]
        /\ exists act' c1 c0 c2,
             adt (run_id run) ≫= action = Some act'
             /\ curves act' = [c1; c0; c2]
             /\ (rna_path c1 = rna_path_ /\ array_index c1 = 1
                 /\ length (bezt c1) = S (length (bezt fcu1)))
             /\ (rna_path c0 = rna_path_ /\ array_index c0 = 0
                 /\ length (bezt c0) = 1%nat)
             /\ (rna_path c2 = rna_path_ /\ array_index c2 = 2
                 /\ length (bezt c2) = 1%nat)).
Proof.
  split.
  - intros id id' group rna_path_ ai ctx keytype flag ptr prop act Hed Hres Hact
      Hforce Hpolicy n remaps relaxed run.
    destruct (insert_keyframe_keyed id id' group rna_path_ ai ctx keytype flag
                ptr prop act Hed Hres Hact) as (Hr & Ha & _ & _).
    fold run in Hr, Ha. rewrite Hforce in Hr, Ha.
    set (a := mkKeyArgs ptr prop group rna_path_ (keyframe_frame id' act ctx)
                (keyframe_values id' act ptr prop ai ctx flag) keytype) in *.
    destruct (force_all_attempts a ai flag remaps
                (mkKeyState act CombinedKeyingResult_new 0 []) Hpolicy)
      as (T & (HaT & HrT & _) & Hcases).
    cbn [ks_attempts ks_result app] in HaT, HrT. fold remaps in Hr, Ha.
    rewrite Ha, Hr, HaT, HrT. split; [reflexivity|]. exact Hcases.
  - intros id id' group rna_path_ ai ctx keytype flag ptr prop act fcu1
      v0 v1 v2 relaxed frame Hed Hres Hact Hforce Hpolicy Hcycle Hvalues Hremaps
      Hcurves Hpath Hidx Hkey Hins1 Hnew run.
    destruct (insert_keyframe_keyed id id' group rna_path_ ai ctx keytype flag
                ptr prop act Hed Hres Hact) as (Hr & Ha & Hid & Hev).
    fold run in Hr, Ha, Hid, Hev.
    rewrite Hforce, Hremaps in Hr, Ha, Hid, Hev.
    set (a := mkKeyArgs ptr prop group rna_path_ (keyframe_frame id' act ctx)
                (keyframe_values id' act ptr prop ai ctx flag) keytype) in *.
    destruct (force_all_three_channels a ai flag act fcu1 v0 v1 v2 Hpolicy
                Hcycle Hvalues Hcurves Hpath Hidx Hkey Hins1 Hnew)
      as (HT & Hcount & Htally & Hname & c1 & c0 & c2 & Hc & H1 & H0 & H2).
    fold relaxed in HT.
    destruct (id_action_ensure_adt id id' act Hact) as [Hadt Hwrite].
    split; [rewrite Ha; exact HT|].
    split; [rewrite Hr, Htally, HT; reflexivity|].
    split.
    + rewrite Hev, Hcount, Hadt. cbn [Z.ltb Z.compare].
      rewrite (bool_decide_eq_false_2 _); [reflexivity|].
      intros Hne. now apply Hne.
    + exists (ks_act (key_channels a ai flag true [true; true; true]
                       (mkKeyState act CombinedKeyingResult_new 0 []))),
        c1, c0, c2.
      split; [rewrite Hid; apply Hwrite|]. split; [exact Hc|].
      split; [exact H1|]. split; [exact H0 | exact H2].
Qed.

End LegacyProperties.

(** The spec's example for C1, run on the concrete collaborators with the
    remapper that forces all channels: the object "Cube", "location" with
    values 1, 2, 3, only channel 1 with a curve, replace-only policy. *)
Lemma C1_force_all_drops_policy_after_first_success_witness :
  let flag := INSERTKEY_REPLACE in
  let relaxed := flag_clear flag (Z.lor INSERTKEY_REPLACE INSERTKEY_AVAILABLE) in
  let run :=
    insert_keyframe (E := simple_externals true) example_id None "location"
      (-1) example_context 0 flag in
  run_attempts run
  = [mkAttempt 0 flag CANNOT_CREATE_FCURVE; mkAttempt 1 flag SUCCESS;
     mkAttempt 0 relaxed SUCCESS; mkAttempt 2 relaxed SUCCESS]
  /\ get_count (run_result run) SUCCESS = 3
  /\ run_events run = [EvDegTag "CubeAction" ID_RECALC_ANIMATION_NO_FLUSH]
  /\ exists act' c1 c0 c2,
       adt (run_id run) ≫= action = Some act'
       /\ curves act' = [c1; c0; c2]
       /\ (rna_path c1 = "location" /\ array_index c1 = 1
           /\ length (bezt c1) = 2%nat)
       /\ (rna_path c0 = "location" /\ array_index c0 = 0
           /\ length (bezt c0) = 1%nat)
       /\ (rna_path c2 = "location" /\ array_index c2 = 2
           /\ length (bezt c2) = 1%nat).
Proof.
  apply (proj2 (@C1_force_all_drops_policy_after_first_success
                  (simple_externals true))
           example_id example_id None "location" (-1) example_context 0
           INSERTKEY_REPLACE example_pointer
           (mkPropertyRNA "location" "location" PROP_FLOAT) example_action
           example_location_1 (float_of_Z 1) (float_of_Z 2) (float_of_Z 3));
    try reflexivity.
  - discriminate.
  - eexists. repeat split; reflexivity.
  - intros i v. eexists. repeat split; reflexivity.
Defined.

Example force_all_replace_run :
  map (fun fcu => (array_index fcu, map bezt_time (bezt fcu)))
    (default []
       (curves <$>
          (adt (run_id (insert_keyframe (E := simple_externals true) example_id
                          None "location" (-1) example_context 0
                          INSERTKEY_REPLACE))
           ≫= action)))
  = [(1, [float_of_Z 1; float_of_Z 5]); (0, [float_of_Z 1]); (2,
      [float_of_Z 1])].
Proof. reflexivity. Qed.

(** The legacy orchestrator skips an index outside the values and a
    rejected channel without an outcome; the batch path records the
    rejected channels. *)
Lemma C9_masked_channels_silent_or_recorded_witness :
  run_result
    (insert_keyframe (E := simple_externals false) example_id None "location"
       7 example_context 0 0)
  = CombinedKeyingResult_new
  /\ insert_key_legacy_action (E := simple_externals false) example_action
       example_pointer (mkPropertyRNA "location" "location" PROP_FLOAT)
       "location" (float_of_Z 1) [float_of_Z 1; float_of_Z 2; float_of_Z 3] 0 0
           [false; false; false]
     = Some (add CombinedKeyingResult_new UNABLE_TO_INSERT_TO_NLA_STACK 3,
             example_action).
Proof.
  split.
  - apply (proj1 (@C9_masked_channels_silent_or_recorded (simple_externals false))
             example_id example_id None "location" 7 example_context 0 0
             example_pointer (mkPropertyRNA "location" "location" PROP_FLOAT)
             example_action);
      try reflexivity.
    + discriminate.
    + right; left. vm_compute. discriminate.
  - destruct (proj2 (@C9_masked_channels_silent_or_recorded
                       (simple_externals false))
                example_action example_pointer
                (mkPropertyRNA "location" "location" PROP_FLOAT) "location"
                    (float_of_Z 1)
                [float_of_Z 1; float_of_Z 2; float_of_Z 3] 0 0 [false; false;
                    false] eq_refl)
      as (out & outcomes & Hout & _ & _ & _ & _ & _ & Hall).
    rewrite Hout. f_equal. apply Hall.
    intros i Hi. destruct i as [|[|[|i]]]; reflexivity.
Defined.

(** ** The direct insertion *)

Section DirectProperties.
Context `{E : Externals}.

Lemma create_reports_defined (reports : ReportList) (ptr : PointerRNA)
    (prop : PropertyRNA) (index_ : Z) (count : nat) (force_all : bool)
    (remaps : list bool) (owner : string) :
  owner_id ptr = Some owner ->
  is_Some (get_keyframe_values_create_reports reports ptr prop index_ count
             force_all remaps).
Proof.
  intros Howner. unfold get_keyframe_values_create_reports.
  destruct (failed_remaps_loop _ _ _ _ _ _) as [total_failed str].
  destruct (total_failed =? 0); [eexists; reflexivity|].
  rewrite Howner. eexists; reflexivity.
Qed.

(** C8 fails on the code: [insert_keyframe_direct] reads
    [successful_remaps[index]] without the range check that guards
    [values[index]] two lines above. For a curve whose array index is
    outside the extracted values the bit vector, which has as many bits as
    there are values, is read outside its bounds, and the call has no
    defined result. *)
Theorem C8_remap_bit_read_not_guarded (reports : ReportList)
    (ptr : PointerRNA) (prop : PropertyRNA) (fcu : FCurve)
    (ctx : AnimationEvalContext) (keytype : Z)
    (nla_context : option NlaKeyframingContext) (flag : Z) (owner : string) :
  owner_id ptr = Some owner ->
  let values := get_keyframe_values ptr prop (flag_test flag INSERTKEY_MATRIX) in
  array_index fcu < 0 \/ Z.of_nat (length values) <= array_index fcu ->
  (exists remaps values' reports',
      nla_map_keyframe_values_and_generate_reports values (array_index fcu)
        ptr prop nla_context ctx reports false
      = Some (remaps, values', reports')
      /\ length remaps = length values
      /\ bit_read remaps (array_index fcu) = None)
  /\ insert_keyframe_direct reports ptr (Some prop) (Some fcu) ctx keytype
       nla_context flag
     = None.
Proof.
  intros Howner values Hout.
  assert (Hidx : array_index (update_autoflags_fcurve_direct fcu prop)
                 = array_index fcu)
    by apply update_autoflags_keeps.
  unfold insert_keyframe_direct. rewrite Howner.
  rewrite (bool_decide_eq_false_2 (Some owner = None)) by discriminate.
  cbn [andb]. rewrite Hidx. fold values.
  unfold nla_map_keyframe_values_and_generate_reports.
  set (remap := BKE_animsys_nla_remap_keyframe_values nla_context ptr prop
                  values (array_index fcu) ctx false).
  set (remaps := span_write (replicate (length values) false)
                   (r_successful_remaps remap)).
  destruct (create_reports_defined reports ptr prop (array_index fcu)
              (length (span_write values (remapped_values remap))) false
              remaps owner Howner) as [reports' Hrep].
  rewrite Hrep. cbn [mbind option_bind].
  assert (Hlen : length remaps = length values).
  { unfold remaps. now rewrite span_write_length, length_replicate. }
  assert (Hread : bit_read remaps (array_index fcu) = None).
  { unfold bit_read. rewrite Hlen.
    destruct (Z.leb_spec 0 (array_index fcu));
      destruct (Z.ltb_spec (array_index fcu) (Z.of_nat (length values)));
      try reflexivity. lia. }
  split.
  - exists remaps, (span_write values (remapped_values remap)), reports'.
    repeat split; assumption.
  - now rewrite Hread.
Qed.

End DirectProperties.

(** The failing input: the curve "location[3]" of an object whose
    "location" has 3 values. The same call on "location[1]" returns. *)
Lemma C8_remap_bit_read_not_guarded_witness :
  insert_keyframe_direct (E := simple_externals false) [] example_pointer
    (Some (mkPropertyRNA "location" "location" PROP_FLOAT))
    (Some example_location_3) example_context 0 None 0
  = None.
Proof.
  apply (proj2 (@C8_remap_bit_read_not_guarded (simple_externals false) []
                  example_pointer
                  (mkPropertyRNA "location" "location" PROP_FLOAT)
                  example_location_3 example_context 0 None 0 "Cube"
                  eq_refl
                  ltac:(right; vm_compute; discriminate))).
Defined.

Example insert_keyframe_direct_in_range :
  direct_return <$>
    insert_keyframe_direct (E := simple_externals false) [] example_pointer
      (Some (mkPropertyRNA "location" "location" PROP_FLOAT))
      (Some example_location_1) example_context 0 None 0
  = Some true.
Proof. reflexivity. Qed.

(** ** The batch paths *)

Lemma add1_comm (c : CombinedKeyingResult) (r r' : SingleKeyingResult) :
  add1 (add1 c r) r' = add1 (add1 c r') r.
Proof.
  apply combined_eq; intros k. rewrite !get_count_add1.
  destruct (decide (r = k)), (decide (r' = k)); lia.
Qed.

Lemma merge_add1_l (c d : CombinedKeyingResult) (r : SingleKeyingResult) :
  merge (add1 c r) d = add1 (merge c d) r.
Proof.
  apply combined_eq; intros k.
  rewrite get_count_merge, !get_count_add1, get_count_merge.
  destruct (decide (r = k)); lia.
Qed.

Section BatchProperties.
Context `{E : Externals}.

(** *** The layered path *)

(** Starting the element loop from an aggregate with one more outcome
    gives the same Action and one more outcome. *)
Lemma layered_elements_shift (layer : nat) (binding : Binding)
    (rna_path_ : RNAPath) (id_to_prop : string) (rna_values : list float)
    (scene_frame : float) (key_settings : KeyframeSettings) (flags : Z)
    (X : SingleKeyingResult) (indices : list nat) :
  forall (action_ : bAction) (cr : CombinedKeyingResult),
    insert_key_layered_elements layer binding rna_path_ id_to_prop rna_values
      scene_frame key_settings flags indices action_ (add1 cr X)
    = (fun out => (fst out, add1 (snd out) X)) <$>
        insert_key_layered_elements layer binding rna_path_ id_to_prop
          rna_values scene_frame key_settings flags indices action_ cr.
Proof.
  induction indices as [|i rest IH]; intros action_ cr;
    cbn [insert_key_layered_elements].
  - reflexivity.
  - destruct (bool_decide (is_Some (index rna_path_))
              && bool_decide (index rna_path_ <> Some (Z.of_nat i))).
    + apply IH.
    + destruct (layer_array action_ !! layer) as [the_layer|]; [|reflexivity].
      cbn [mbind option_bind].
      destruct (insert_key_layer the_layer binding id_to_prop
                  (scene_frame, float_get rna_values i) (Z.of_nat i)
                  key_settings flags) as [[result the_layer']|];
        [|reflexivity].
      cbn [mbind option_bind]. rewrite add1_comm. apply IH.
Qed.

Lemma layered_paths_shift (layer : nat) (binding : Binding)
    (rna_pointer : PointerRNA) (scene_frame : float)
    (key_settings : KeyframeSettings) (flags : Z) (X : SingleKeyingResult)
    (rna_paths : list RNAPath) :
  forall s s' : LayeredState,
    shifted X s s' ->
    option_Forall2 (shifted X)
      (insert_key_layered_paths layer binding rna_pointer scene_frame
         key_settings flags rna_paths s)
      (insert_key_layered_paths layer binding rna_pointer scene_frame
         key_settings flags rna_paths s').
Proof.
  induction rna_paths as [|p rest IH]; intros s s' [Hact Hres];
    cbn [insert_key_layered_paths].
  - constructor. split; assumption.
  - destruct (RNA_path_resolve_property rna_pointer (path p)) as [[ptr prop]|].
    + destruct (RNA_path_from_ID_to_property ptr prop) as [id_to_prop|];
        [|constructor].
      cbn [mbind option_bind]. rewrite Hact, Hres, layered_elements_shift.
      destruct (insert_key_layered_elements layer binding p id_to_prop _ _ _ _ _
                  (ls_action s) (ls_result s)) as [[action1 cr1]|];
        [|constructor].
      cbn [fmap option_fmap option_map mbind option_bind fst snd].
      apply IH. split; reflexivity.
    + apply IH. split; cbn [ls_action ls_result]; [exact Hact|].
      rewrite Hres. apply add1_comm.
Qed.

Lemma layered_paths_app (layer : nat) (binding : Binding)
    (rna_pointer : PointerRNA) (scene_frame : float)
    (key_settings : KeyframeSettings) (flags : Z) (l1 l2 : list RNAPath) :
  forall s : LayeredState,
    insert_key_layered_paths layer binding rna_pointer scene_frame
      key_settings flags (l1 ++ l2) s
    = insert_key_layered_paths layer binding rna_pointer scene_frame
        key_settings flags l1 s
      ≫= insert_key_layered_paths layer binding rna_pointer scene_frame
            key_settings flags l2.
Proof.
  induction l1 as [|p l1 IH]; intros s; cbn [app insert_key_layered_paths].
  - reflexivity.
  - destruct (RNA_path_resolve_property rna_pointer (path p)) as [[ptr prop]|].
    + destruct (RNA_path_from_ID_to_property ptr prop) as [id_to_prop|];
        [|reflexivity].
      cbn [mbind option_bind].
      destruct (insert_key_layered_elements _ _ _ _ _ _ _ _ _ _ _)
        as [[action1 cr1]|]; [|reflexivity].
      cbn [mbind option_bind]. apply IH.
    + apply IH.
Qed.

(** A path that does not resolve, anywhere in the batch. *)
Lemma layered_paths_unresolved (layer : nat) (binding : Binding)
    (rna_pointer : PointerRNA) (scene_frame : float)
    (key_settings : KeyframeSettings) (flags : Z) (l1 l2 : list RNAPath)
    (p : RNAPath) (s : LayeredState) :
  RNA_path_resolve_property rna_pointer (path p) = None ->
  option_Forall2 (shifted CANNOT_RESOLVE_PATH)
    (insert_key_layered_paths layer binding rna_pointer scene_frame
       key_settings flags (l1 ++ l2) s)
    (insert_key_layered_paths layer binding rna_pointer scene_frame
       key_settings flags (l1 ++ p :: l2) s).
Proof.
  intros Hfail. rewrite !layered_paths_app.
  destruct (insert_key_layered_paths layer binding rna_pointer scene_frame
              key_settings flags l1 s) as [s1|]; [|constructor].
  cbn [mbind option_bind insert_key_layered_paths]. rewrite Hfail.
  apply layered_paths_shift. split; reflexivity.
Qed.

(** The path loop only adds lines on the standard error stream. *)
Lemma layered_paths_events (layer : nat) (binding : Binding)
    (rna_pointer : PointerRNA) (scene_frame : float)
    (key_settings : KeyframeSettings) (flags : Z) (rna_paths : list RNAPath) :
  forall s s' : LayeredState,
    insert_key_layered_paths layer binding rna_pointer scene_frame
      key_settings flags rna_paths s = Some s' ->
    exists lines, ls_events s' = ls_events s ++ map EvStderr lines.
Proof.
  induction rna_paths as [|p rest IH]; intros s s';
    cbn [insert_key_layered_paths].
  - intros [= <-]. exists []. now rewrite app_nil_r.
  - destruct (RNA_path_resolve_property rna_pointer (path p)) as [[ptr prop]|].
    + destruct (RNA_path_from_ID_to_property ptr prop) as [id_to_prop|];
        [|discriminate].
      cbn [mbind option_bind].
      destruct (insert_key_layered_elements _ _ _ _ _ _ _ _ _ _ _)
        as [[action1 cr1]|]; [|discriminate].
      cbn [mbind option_bind]. intros Hrun.
      apply IH in Hrun as [lines Hlines]. exists lines. exact Hlines.
    + intros Hrun. apply IH in Hrun as [lines Hlines].
      cbn [ls_events] in Hlines. rewrite <- app_assoc in Hlines.
      eexists (_ :: lines). exact Hlines.
Qed.

(** Inside the precondition of [insert_key_layer] the element loop
    completes and stays inside it. *)
Lemma layered_elements_complete (layer : nat) (binding : Binding)
    (rna_path_ : RNAPath) (id_to_prop : string) (rna_values : list float)
    (scene_frame : float) (key_settings : KeyframeSettings) (flags : Z)
    (indices : list nat) :
  keyframe_insert_keeps_range ->
  forall (action_ : bAction) (cr : CombinedKeyingResult),
    keyframing_layer_ready action_ layer ->
    exists action' cr',
      insert_key_layered_elements layer binding rna_path_ id_to_prop
        rna_values scene_frame key_settings flags indices action_ cr
      = Some (action', cr')
      /\ keyframing_layer_ready action' layer.
Proof.
  intros Hkeep. induction indices as [|i rest IH]; intros action_ cr Hready;
    cbn [insert_key_layered_elements].
  - exists action_, cr. split; [reflexivity | exact Hready].
  - destruct (bool_decide (is_Some (index rna_path_))
              && bool_decide (index rna_path_ <> Some (Z.of_nat i))).
    + apply IH, Hready.
    + destruct Hready as (the_layer & strip & Hlookup & Hstrips & Hinf & Hoff).
      rewrite Hlookup. cbn [mbind option_bind].
      unfold insert_key_layer. rewrite Hstrips, Hinf, Hoff. cbn [andb].
      specialize (Hkeep strip binding id_to_prop (Z.of_nat i)
                    (scene_frame, float_get rna_values i) key_settings flags).
      cbv zeta in Hkeep.
      destruct (keyframe_insert strip binding id_to_prop (Z.of_nat i)
                  (scene_frame, float_get rna_values i) key_settings flags)
        as [result strip'].
      cbn [snd] in Hkeep. destruct Hkeep as (Hs & He & Ho).
      cbn [mbind option_bind]. apply IH.
      exists (mkLayer (layer_name the_layer) [strip']), strip'.
      cbn [set_layer_array layer_array strips].
      split.
      { apply list_lookup_insert_eq. apply lookup_lt_Some in Hlookup.
        exact Hlookup. }
      split; [reflexivity|].
      unfold strip_is_infinite in *. rewrite Hs, He, Ho.
      split; assumption.
Qed.

(** Inside the precondition the path loop completes. *)
Lemma layered_paths_complete (layer : nat) (binding : Binding)
    (rna_pointer : PointerRNA) (scene_frame : float)
    (key_settings : KeyframeSettings) (flags : Z) (rna_paths : list RNAPath) :
  keyframe_insert_keeps_range ->
  resolved_have_paths rna_pointer rna_paths ->
  forall s : LayeredState,
    keyframing_layer_ready (ls_action s) layer ->
    is_Some (insert_key_layered_paths layer binding rna_pointer scene_frame
               key_settings flags rna_paths s).
Proof.
  intros Hkeep. induction rna_paths as [|p rest IH]; intros Hpaths s Hready;
    cbn [insert_key_layered_paths].
  - eexists; reflexivity.
  - assert (Hrest : resolved_have_paths rna_pointer rest).
    { intros q ptr prop Hq. apply Hpaths. right; exact Hq. }
    destruct (RNA_path_resolve_property rna_pointer (path p))
      as [[ptr prop]|] eqn:Hres.
    + destruct (Hpaths p ptr prop ltac:(left) Hres) as [id_to_prop Hid].
      rewrite Hid. cbn [mbind option_bind].
      destruct (layered_elements_complete layer binding p id_to_prop
                  (get_keyframe_values ptr prop
                     (flag_test flags INSERTKEY_MATRIX))
                  scene_frame key_settings flags
                  (seq 0 (length (get_keyframe_values ptr prop
                                    (flag_test flags INSERTKEY_MATRIX))))
                  Hkeep (ls_action s) (ls_result s) Hready)
        as (action' & cr' & Hrun & Hready').
      rewrite Hrun. cbn [mbind option_bind]. apply IH; assumption.
    + apply IH; assumption.
Qed.

(** C4 as amended. Every call of [insert_key_layered_action] that
    completes notifies the dependency system exactly once, as its last
    effect, on the Action it keyed, whether or not a key was written:
    its events are the lines printed for unresolved paths followed by the
    one tag. The call completes whenever the assertions of the code hold:
    the Action is layered, the Binding exists or is assigned, the
    keyframing layer exists with its one infinite strip without offset,
    and the collaborators keep the strip's range and know the path of
    every resolved property. *)
Theorem C4_layered_always_notifies_once (action_ : bAction)
    (binding_handle_ : Z) (rna_pointer : PointerRNA) (id : ID)
    (rna_paths : list RNAPath) (scene_frame : float)
    (key_settings : KeyframeSettings) (insert_key_flags : Z) :
  (forall run,
      insert_key_layered_action action_ binding_handle_ rna_pointer id
        rna_paths scene_frame key_settings insert_key_flags
      = Some run ->
      exists lines,
        layered_events run
        = map EvStderr lines
          ++ [EvDegTag (act_name (layered_action run))
                ID_RECALC_ANIMATION_NO_FLUSH])
  /\ (forall action1 id1 binding layer,
        keyframe_insert_keeps_range ->
        resolved_have_paths rna_pointer rna_paths ->
        is_action_layered action_ = true ->
        layered_binding_ensure action_ binding_handle_ id
        = Some (action1, id1, binding) ->
        get_layer_for_keyframing (layer_ensure_at_least_one action1)
        = Some layer ->
        keyframing_layer_ready (layer_ensure_at_least_one action1) layer ->
        is_Some (insert_key_layered_action action_ binding_handle_ rna_pointer
                   id rna_paths scene_frame key_settings insert_key_flags)).
Proof.
  split.
  - intros run. unfold insert_key_layered_action.
    destruct (is_action_layered action_); [|discriminate]. cbn [negb].
    destruct (layered_binding_ensure action_ binding_handle_ id)
      as [[[action1 id1] binding]|]; [|discriminate].
    cbn [mbind option_bind].
    destruct (get_layer_for_keyframing (layer_ensure_at_least_one action1))
      as [layer|]; [|discriminate].
    cbn [mbind option_bind].
    destruct (insert_key_layered_paths layer binding rna_pointer scene_frame
                key_settings insert_key_flags rna_paths _) as [st|] eqn:Hrun;
      [|discriminate].
    cbn [mbind option_bind].
    apply layered_paths_events in Hrun as [lines Hlines].
    intros [= <-]. exists lines. cbn [layered_events layered_action].
    unfold DEG_id_tag_update. now rewrite Hlines.
  - intros action1 id1 binding layer Hkeep Hpaths Hlayered Hbinding Hlayer
      Hready.
    unfold insert_key_layered_action. rewrite Hlayered, Hbinding. cbn [negb].
    cbn [mbind option_bind]. rewrite Hlayer. cbn [mbind option_bind].
    destruct (layered_paths_complete layer binding rna_pointer scene_frame
                key_settings insert_key_flags rna_paths Hkeep Hpaths
                (mkLayeredState (layer_ensure_at_least_one action1)
                   CombinedKeyingResult_new []) Hready) as [st Hst].
    rewrite Hst. cbn [mbind option_bind]. eexists; reflexivity.
Qed.

(** *** The legacy path *)

Lemma legacy_paths_shift (rna_pointer : PointerRNA)
    (nla_context : option NlaKeyframingContext) (nla_frame : float)
    (visual : bool) (flags key_type : Z) (ctx : AnimationEvalContext)
    (X : SingleKeyingResult) (rna_paths : list RNAPath) :
  forall (action_ : bAction) (cr : CombinedKeyingResult),
    insert_key_rna_legacy_paths rna_pointer nla_context nla_frame visual flags
      key_type ctx rna_paths action_ (add1 cr X)
    = (fun out => (fst out, add1 (snd out) X)) <$>
        insert_key_rna_legacy_paths rna_pointer nla_context nla_frame visual
          flags key_type ctx rna_paths action_ cr.
Proof.
  induction rna_paths as [|p rest IH]; intros action_ cr;
    cbn [insert_key_rna_legacy_paths].
  - reflexivity.
  - destruct (RNA_path_resolve_property rna_pointer (path p)) as [[ptr prop]|].
    + destruct (RNA_path_from_ID_to_property ptr prop) as [id_to_prop|];
        [|reflexivity].
      cbn [mbind option_bind].
      destruct (insert_key_legacy_action _ _ _ _ _ _ _ _ _)
        as [[result action1]|]; [|reflexivity].
      cbn [mbind option_bind]. rewrite merge_add1_l. apply IH.
    + rewrite add1_comm. apply IH.
Qed.

Lemma legacy_paths_app (rna_pointer : PointerRNA)
    (nla_context : option NlaKeyframingContext) (nla_frame : float)
    (visual : bool) (flags key_type : Z) (ctx : AnimationEvalContext)
    (l1 l2 : list RNAPath) :
  forall (action_ : bAction) (cr : CombinedKeyingResult),
    insert_key_rna_legacy_paths rna_pointer nla_context nla_frame visual flags
      key_type ctx (l1 ++ l2) action_ cr
    = insert_key_rna_legacy_paths rna_pointer nla_context nla_frame visual
        flags key_type ctx l1 action_ cr
      ≫= (fun out =>
             insert_key_rna_legacy_paths rna_pointer nla_context nla_frame
               visual flags key_type ctx l2 (fst out) (snd out)).
Proof.
  induction l1 as [|p l1 IH]; intros action_ cr;
    cbn [app insert_key_rna_legacy_paths].
  - reflexivity.
  - destruct (RNA_path_resolve_property rna_pointer (path p)) as [[ptr prop]|].
    + destruct (RNA_path_from_ID_to_property ptr prop) as [id_to_prop|];
        [|reflexivity].
      cbn [mbind option_bind].
      destruct (insert_key_legacy_action _ _ _ _ _ _ _ _ _)
        as [[result action1]|]; [|reflexivity].
      cbn [mbind option_bind]. apply IH.
    + apply IH.
Qed.

Lemma legacy_paths_unresolved (rna_pointer : PointerRNA)
    (nla_context : option NlaKeyframingContext) (nla_frame : float)
    (visual : bool) (flags key_type : Z) (ctx : AnimationEvalContext)
    (l1 l2 : list RNAPath) (p : RNAPath) (action_ : bAction)
    (cr : CombinedKeyingResult) :
  RNA_path_resolve_property rna_pointer (path p) = None ->
  insert_key_rna_legacy_paths rna_pointer nla_context nla_frame visual flags
    key_type ctx (l1 ++ p :: l2) action_ cr
  = (fun out => (fst out, add1 (snd out) CANNOT_RESOLVE_PATH)) <$>
      insert_key_rna_legacy_paths rna_pointer nla_context nla_frame visual
        flags key_type ctx (l1 ++ l2) action_ cr.
Proof.
  intros Hfail. rewrite !legacy_paths_app.
  destruct (insert_key_rna_legacy_paths rna_pointer nla_context nla_frame
              visual flags key_type ctx l1 action_ cr) as [[action1 cr1]|];
    [|reflexivity].
  cbn [mbind option_bind fst snd insert_key_rna_legacy_paths].
  rewrite Hfail. apply legacy_paths_shift.
Qed.

(** C5. In a batch, a path whose property resolution fails contributes
    exactly one [CANNOT_RESOLVE_PATH] outcome and the processing goes on:
    compared with the same batch without that path, the returned
    aggregate has one more [CANNOT_RESOLVE_PATH] and is otherwise the
    same, and the animation data ends the same. This holds for
    [insert_key_layered_action] and, for a data-block that can be
    animated, for both branches of [insert_key_rna] (with a data-block
    that cannot be animated the batch is not processed at all). *)
Theorem C5_unresolved_path_is_not_fatal :
  (forall (action_ : bAction) (binding_handle_ : Z) (rna_pointer : PointerRNA)
          (id : ID) (l1 l2 : list RNAPath) (p : RNAPath) (scene_frame : float)
          (key_settings : KeyframeSettings) (insert_key_flags : Z),
      RNA_path_resolve_property rna_pointer (path p) = None ->
      option_Forall2 one_more_unresolved_layered
        (insert_key_layered_action action_ binding_handle_ rna_pointer id
           (l1 ++ l2) scene_frame key_settings insert_key_flags)
        (insert_key_layered_action action_ binding_handle_ rna_pointer id
           (l1 ++ p :: l2) scene_frame key_settings insert_key_flags))
  /\ (forall (rna_pointer : PointerRNA) (id : ID) (l1 l2 : list RNAPath)
             (p : RNAPath) (scene_frame : float) (insert_key_flags key_type : Z)
             (ctx : AnimationEvalContext),
        id_can_have_animdata id = true ->
        RNA_path_resolve_property rna_pointer (path p) = None ->
        option_Forall2 one_more_unresolved
          (insert_key_rna rna_pointer id (l1 ++ l2) scene_frame
             insert_key_flags key_type ctx)
          (insert_key_rna rna_pointer id (l1 ++ p :: l2) scene_frame
             insert_key_flags key_type ctx)).
Proof.
  assert (Hlayered :
            forall action_ binding_handle_ rna_pointer id l1 l2 p scene_frame
                   key_settings insert_key_flags,
              RNA_path_resolve_property rna_pointer (path p) = None ->
              option_Forall2 one_more_unresolved_layered
                (insert_key_layered_action action_ binding_handle_ rna_pointer
                   id (l1 ++ l2) scene_frame key_settings insert_key_flags)
                (insert_key_layered_action action_ binding_handle_ rna_pointer
                   id (l1 ++ p :: l2) scene_frame key_settings insert_key_flags)).
  { intros action_ binding_handle_ rna_pointer id l1 l2 p scene_frame
      key_settings insert_key_flags Hfail.
    unfold insert_key_layered_action.
    destruct (is_action_layered action_); [|constructor]. cbn [negb].
    destruct (layered_binding_ensure action_ binding_handle_ id)
      as [[[action1 id1] binding]|]; [|constructor].
    cbn [mbind option_bind].
    destruct (get_layer_for_keyframing (layer_ensure_at_least_one action1))
      as [layer|]; [|constructor].
    cbn [mbind option_bind].
    pose proof (layered_paths_unresolved layer binding rna_pointer scene_frame
                  key_settings insert_key_flags l1 l2 p
                  (mkLayeredState (layer_ensure_at_least_one action1)
                     CombinedKeyingResult_new []) Hfail) as Hrel.
    destruct Hrel as [s s' [Hact Hres]|]; [|constructor].
    cbn [mbind option_bind]. constructor.
    unfold one_more_unresolved_layered.
    cbn [layered_result layered_action layered_id]. repeat split; assumption. }
  split; [exact Hlayered|].
  intros rna_pointer id l1 l2 p scene_frame insert_key_flags key_type ctx
    Hcan Hfail.
  unfold insert_key_rna.
  destruct (BKE_animdata_ensure_id id) as [[a|] id1] eqn:Hensure.
  - destruct (id_action_ensure id1) as [[action_|] id2]; [|constructor].
    cbn [mbind option_bind].
    destruct (BKE_animdata_from_id id2) as [adt_|]; [|constructor].
    cbn [mbind option_bind].
    destruct (use_animation_baklava && is_action_layered action_).
    + pose proof (Hlayered action_ (binding_handle adt_) rna_pointer id2 l1 l2
                    p scene_frame
                    (mkKeyframeSettings key_type HD_AUTO_ANIM BEZT_IPO_BEZ)
                    insert_key_flags Hfail) as Hrel.
      destruct Hrel as [r r' (Hres & Hact & Hid)|]; [|constructor].
      cbn [mbind option_bind]. constructor. unfold one_more_unresolved.
      cbn [batch_result batch_id]. rewrite Hres, Hact, Hid.
      split; reflexivity.
    + rewrite legacy_paths_unresolved by exact Hfail.
      destruct (insert_key_rna_legacy_paths _ _ _ _ _ _ _ (l1 ++ l2) _ _)
        as [[action1 cr1]|]; [|constructor].
      cbn [fmap option_fmap option_map mbind option_bind fst snd].
      constructor. split; reflexivity.
  - exfalso. unfold BKE_animdata_ensure_id in Hensure. rewrite Hcan in Hensure.
    destruct (adt id); discriminate.
Qed.

End BatchProperties.

(** A layered batch on the empty Action of "Cube": "location" and "scale"
    resolve, "no_such_property" does not. *)
Lemma C4_layered_always_notifies_once_witness :
  exists run,
    insert_key_layered_action (E := simple_externals false)
      example_empty_action 0 example_pointer example_layered_id
      [mkRNAPath "location" None; mkRNAPath "no_such_property" None]
      (float_of_Z 1) example_settings 0
    = Some run
    /\ get_count (layered_result run) SUCCESS = 3
    /\ exists lines,
         layered_events run
         = map EvStderr lines
           ++ [EvDegTag (act_name (layered_action run))
                 ID_RECALC_ANIMATION_NO_FLUSH].
Proof.
  assert (Hkeep : keyframe_insert_keeps_range (E := simple_externals false)).
  { intros strip binding rna_path_ array_index_ position settings flags.
    cbn [keyframe_insert simple_externals]. unfold simple_keyframe_insert.
    destruct (list_find _ (channelbags strip)) as [[bag_pos bag]|];
      destruct (list_find _ (fcurves _)) as [[fcu_pos fcu]|];
      cbn; repeat split. }
  assert (Hpaths : resolved_have_paths (E := simple_externals false)
                     example_pointer
                     [mkRNAPath "location" None;
                      mkRNAPath "no_such_property" None]).
  { intros p ptr prop _ _. eexists; reflexivity. }
  edestruct (proj2 (@C4_layered_always_notifies_once (simple_externals false)
                      example_empty_action 0 example_pointer example_layered_id
                      [mkRNAPath "location" None;
                       mkRNAPath "no_such_property" None]
                      (float_of_Z 1) example_settings 0)) as [run Hrun].
  - exact Hkeep.
  - exact Hpaths.
  - reflexivity.
  - vm_compute. reflexivity.
  - vm_compute. reflexivity.
  - eexists _, _. repeat split; reflexivity.
  - exists run. split; [exact Hrun|]. split.
    + vm_compute in Hrun. injection Hrun as <-. reflexivity.
    + exact (proj1 (@C4_layered_always_notifies_once (simple_externals false)
                      _ _ _ _ _ _ _ _) run Hrun).
Defined.

(** C4 as claimed fails: a batch whose only path does not resolve writes
    no key (no success is recorded and the Action holds no point), and the
    dependency system is notified all the same. *)
Lemma C4_notified_without_key_written :
  exists run,
    insert_key_layered_action (E := simple_externals false)
      example_empty_action 0 example_pointer example_layered_id
      [mkRNAPath "no_such_property" None] (float_of_Z 1) example_settings 0
    = Some run
    /\ get_count (layered_result run) SUCCESS = 0
    /\ action_points (layered_action run) = 0%nat
    /\ notified (layered_events run)
    /\ ~ notified_only_if_key_written run.
Proof.
  eexists. split; [vm_compute; reflexivity|].
  assert (Hn : notified
                 [EvStderr ("Failed to insert key on binding OBCube due to unresolved RNA path: no_such_property" +:+ newline);
                  EvDegTag "CubeAction" ID_RECALC_ANIMATION_NO_FLUSH]).
  { exists "CubeAction", ID_RECALC_ANIMATION_NO_FLUSH. right; left. }
  split; [reflexivity|]. split; [reflexivity|]. split; [exact Hn|].
  intros Hclaim. specialize (Hclaim Hn). vm_compute in Hclaim. discriminate.
Qed.

(** The batches "location", "scale" and "location", "no_such_property",
    "scale" on the layered and on the legacy Action of "Cube". *)
Lemma C5_unresolved_path_is_not_fatal_witness :
  (exists r r',
      insert_key_layered_action (E := simple_externals false)
        example_empty_action 0 example_pointer example_layered_id
        ([mkRNAPath "location" None] ++ [mkRNAPath "scale" (Some 1)])
        (float_of_Z 1) example_settings 0
      = Some r
      /\ insert_key_layered_action (E := simple_externals false)
           example_empty_action 0 example_pointer example_layered_id
           ([mkRNAPath "location" None]
            ++ mkRNAPath "no_such_property" None :: [mkRNAPath "scale" (Some 1)])
           (float_of_Z 1) example_settings 0
         = Some r'
      /\ one_more_unresolved_layered r r'
      /\ get_count (layered_result r') SUCCESS = 4
      /\ get_count (layered_result r') CANNOT_RESOLVE_PATH = 1)
  /\ (exists r r',
        insert_key_rna (E := simple_externals false) example_pointer example_id
          ([mkRNAPath "location" None] ++ [mkRNAPath "scale" (Some 1)])
          (float_of_Z 1) 0 0 example_context
        = Some r
        /\ insert_key_rna (E := simple_externals false) example_pointer
             example_id
             ([mkRNAPath "location" None]
              ++ mkRNAPath "no_such_property" None :: [mkRNAPath "scale" (Some 1)])
             (float_of_Z 1) 0 0 example_context
           = Some r'
        /\ one_more_unresolved r r'
        /\ get_count (batch_result r') SUCCESS = 4
        /\ get_count (batch_result r') UNABLE_TO_INSERT_TO_NLA_STACK = 2
        /\ get_count (batch_result r') CANNOT_RESOLVE_PATH = 1).
Proof.
  split.
  - destruct (insert_key_layered_action (E := simple_externals false)
                example_empty_action 0 example_pointer example_layered_id
                ([mkRNAPath "location" None] ++ [mkRNAPath "scale" (Some 1)])
                (float_of_Z 1) example_settings 0) as [r|] eqn:Hr;
      [|vm_compute in Hr; discriminate].
    destruct (insert_key_layered_action (E := simple_externals false)
                example_empty_action 0 example_pointer example_layered_id
                ([mkRNAPath "location" None]
                 ++ mkRNAPath "no_such_property" None
                    :: [mkRNAPath "scale" (Some 1)])
                (float_of_Z 1) example_settings 0) as [r'|] eqn:Hr';
      [|vm_compute in Hr'; discriminate].
    pose proof (proj1 (@C5_unresolved_path_is_not_fatal (simple_externals false))
                  example_empty_action 0 example_pointer example_layered_id
                  [mkRNAPath "location" None] [mkRNAPath "scale" (Some 1)]
                  (mkRNAPath "no_such_property" None) (float_of_Z 1)
                      example_settings 0
                  eq_refl) as Hrel.
    rewrite Hr, Hr' in Hrel. inversion Hrel as [? ? HR|]; subst.
    exists r, r'. split; [reflexivity|]. split; [reflexivity|].
    split; [exact HR|].
    vm_compute in Hr'. injection Hr' as <-. split; reflexivity.
  - destruct (insert_key_rna (E := simple_externals false) example_pointer
                example_id
                ([mkRNAPath "location" None] ++ [mkRNAPath "scale" (Some 1)])
                (float_of_Z 1) 0 0 example_context) as [r|] eqn:Hr;
      [|vm_compute in Hr; discriminate].
    destruct (insert_key_rna (E := simple_externals false) example_pointer
                example_id
                ([mkRNAPath "location" None]
                 ++ mkRNAPath "no_such_property" None
                    :: [mkRNAPath "scale" (Some 1)])
                (float_of_Z 1) 0 0 example_context) as [r'|] eqn:Hr';
      [|vm_compute in Hr'; discriminate].
    pose proof (proj2 (@C5_unresolved_path_is_not_fatal (simple_externals false))
                  example_pointer example_id
                  [mkRNAPath "location" None] [mkRNAPath "scale" (Some 1)]
                  (mkRNAPath "no_such_property" None) (float_of_Z 1) 0 0
                      example_context
                  eq_refl eq_refl) as Hrel.
    rewrite Hr, Hr' in Hrel. inversion Hrel as [? ? HR|]; subst.
    exists r, r'. split; [reflexivity|]. split; [reflexivity|].
    split; [exact HR|].
    vm_compute in Hr'. injection Hr' as <-. repeat split; reflexivity.
Defined.

(** * Further properties of the keyframing code *)

(** ** The aggregator *)

(** X1. [has_errors] is true exactly when some outcome kind other than
    [SUCCESS] has a positive count: it is false for the empty aggregate and
    for an aggregate that only received successes. *)
Theorem X1_has_errors_iff_positive_error_count (a : CombinedKeyingResult) :
  (has_errors a = true <-> exists r, r <> SUCCESS /\ 0 < get_count a r)
  /\ has_errors CombinedKeyingResult_new = false
  /\ (forall c, has_errors (add CombinedKeyingResult_new SUCCESS c) = false).
Proof.
  split; [|split].
  - rewrite has_errors_true. split; intros (r & Hr & Hc); exists r;
      (split; [|exact Hc]); now apply error_kinds_not_success.
  - reflexivity.
  - intros c. destruct (has_errors _) eqn:Herr; [|reflexivity].
    apply has_errors_true in Herr as (r & Hr & Hc).
    apply error_kinds_not_success in Hr.
    rewrite get_count_add, get_count_new in Hc.
    destruct (decide (SUCCESS = r)); [congruence | lia].
Qed.

Lemma has_errors_false (a : CombinedKeyingResult) :
  has_errors a = false <-> forall r, r <> SUCCESS -> get_count a r <= 0.
Proof.
  split.
  - intros Hfalse r Hr. destruct (Z.lt_ge_cases 0 (get_count a r)) as [Hc|Hc];
      [|lia].
    assert (has_errors a = true); [|congruence].
    apply has_errors_true. exists r. split; [|exact Hc].
    now apply error_kinds_not_success.
  - intros Hall. destruct (has_errors a) eqn:Herr; [|reflexivity].
    apply has_errors_true in Herr as (r & Hr & Hc).
    apply error_kinds_not_success in Hr. specialize (Hall r Hr). lia.
Qed.

(** X2. For two aggregates without negative counts whose counts of each
    kind add up to at most [INT_MAX], the merged aggregate has errors
    exactly when one of the two has. *)
Theorem X2_has_errors_merge (a b : CombinedKeyingResult) :
  (forall r, 0 <= get_count a r) ->
  (forall r, 0 <= get_count b r) ->
  (forall r, get_count a r + get_count b r <= INT_MAX) ->
  has_errors (Int32.merge a b) = has_errors a || has_errors b.
Proof.
  intros Ha Hb Hab.
  assert (Hsum : forall r,
             get_count (Int32.merge a b) r = get_count a r + get_count b r).
  { intros r. rewrite get_count_int_merge. apply int_add_exact.
    specialize (Ha r). specialize (Hb r). specialize (Hab r).
    unfold is_int, INT_MIN, INT_MAX in *. lia. }
  destruct (has_errors a) eqn:Hea; [|destruct (has_errors b) eqn:Heb]; cbn [orb].
  - apply has_errors_true in Hea as (r & Hr & Hc). apply has_errors_true.
    exists r. split; [exact Hr|]. rewrite Hsum.
    specialize (Hb r). lia.
  - apply has_errors_true in Heb as (r & Hr & Hc). apply has_errors_true.
    exists r. split; [exact Hr|]. rewrite Hsum.
    specialize (Ha r). lia.
  - apply has_errors_false. intros r Hr. rewrite Hsum.
    pose proof (proj1 (has_errors_false a) Hea r Hr).
    pose proof (proj1 (has_errors_false b) Heb r Hr). lia.
Qed.

(** One success merged with one [NO_KEY_NEEDED]. *)
Lemma X2_has_errors_merge_witness :
  has_errors (Int32.merge (add1 CombinedKeyingResult_new SUCCESS)
                (add1 CombinedKeyingResult_new NO_KEY_NEEDED))
  = has_errors (add1 CombinedKeyingResult_new SUCCESS)
    || has_errors (add1 CombinedKeyingResult_new NO_KEY_NEEDED).
Proof.
  apply X2_has_errors_merge; intros r; destruct r; vm_compute; discriminate.
Defined.

(** Beyond [INT_MAX] the merged counter is negative and the errors are no
    longer seen. *)
Example has_errors_lost_by_overflow :
  let a := Int32.add CombinedKeyingResult_new UNKNOWN_FAILURE INT_MAX in
  let b := Int32.add CombinedKeyingResult_new UNKNOWN_FAILURE 1 in
  has_errors a = true /\ has_errors b = true
  /\ has_errors (Int32.merge a b) = false.
Proof. cbv zeta. repeat split. Qed.

(** X3. Whatever the counts, [generate_reports] adds exactly one report
    after the reports already there: an error when the aggregate has
    errors, a warning otherwise. *)
Theorem X3_generate_reports_adds_one_report (a : CombinedKeyingResult)
    (reports : ReportList) :
  exists r,
    generate_reports a reports = reports ++ [r]
    /\ report_type r = (if has_errors a then RPT_ERROR else RPT_WARNING).
Proof.
  pose proof (generate_reports_by_errors a reports) as Hgen. cbv zeta in Hgen.
  destruct (has_errors a) eqn:Herr.
  - apply has_errors_true in Herr as (r & Hr & Hc).
    assert (Hin : r ∈ filter (fun r => 0 < get_count a r) error_kinds).
    { apply list_elem_of_filter. split; assumption. }
    destruct (filter (fun r => 0 < get_count a r) error_kinds)
      as [|r1 [|r2 kinds]]; [inversion Hin| |];
      cbn [map] in Hgen; eexists; (split; [exact Hgen | reflexivity]).
  - assert (Hnil : filter (fun r => 0 < get_count a r) error_kinds = []).
    { apply filter_none. intros r Hr Hc.
      apply error_kinds_not_success in Hr.
      pose proof (proj1 (has_errors_false a) Herr r Hr). lia. }
    rewrite Hnil in Hgen. cbn [map] in Hgen.
    destruct (get_count a SUCCESS =? 0);
      eexists; (split; [exact Hgen | reflexivity]).
Qed.

Lemma total_count_add (a : CombinedKeyingResult) (r : SingleKeyingResult)
    (c : Z) :
  total_count (add a r c) = total_count a + c.
Proof.
  unfold total_count, error_kinds. cbn [map foldr]. rewrite !get_count_add.
  destruct r; repeat (destruct (decide _) as [?|?]; try congruence); lia.
Qed.

Lemma total_count_merge (a b : CombinedKeyingResult) :
  total_count (merge a b) = total_count a + total_count b.
Proof.
  unfold total_count, error_kinds. cbn [map foldr]. rewrite !get_count_merge.
  lia.
Qed.

(** X4. [add(R, c)] changes the counter of R only, to the sum that the
    [int] addition computes. While the sums fit an [int] the operations on
    ints are [add] and [merge], and the number of outcomes an aggregate
    holds is additive: it grows by c under [add] and [merge] adds the two
    numbers. *)
Theorem X4_add_touches_one_counter (a b : CombinedKeyingResult)
    (R R' : SingleKeyingResult) (c : Z) :
  (R' <> R -> get_count (Int32.add a R c) R' = get_count a R')
  /\ get_count (Int32.add a R c) R = int_add (get_count a R) c
  /\ (is_int (get_count a R + c) ->
      Int32.add a R c = add a R c
      /\ get_count (Int32.add a R c) R = get_count a R + c
      /\ total_count (Int32.add a R c) = total_count a + c)
  /\ ((forall r, is_int (get_count a r + get_count b r)) ->
      Int32.merge a b = merge a b
      /\ total_count (Int32.merge a b) = total_count a + total_count b).
Proof.
  split; [|split; [|split]].
  - intros Hne. rewrite get_count_int_add.
    destruct (decide (R = R')); congruence.
  - rewrite get_count_int_add. destruct (decide (R = R)); congruence.
  - intros Hc. rewrite (int_add_is_add a R c Hc). split; [reflexivity|].
    split; [|apply total_count_add].
    rewrite get_count_add. destruct (decide (R = R)); congruence.
  - intros Hc. rewrite (int_merge_is_merge a b Hc).
    split; [reflexivity | apply total_count_merge].
Qed.

(** ** Curve flags and new cyclic curves *)

Lemma autoflags_bits (fcu : FCurve) (prop : PropertyRNA) (n : Z) :
  0 <= n ->
  Z.testbit (flag (update_autoflags_fcurve_direct fcu prop)) n
  = if n =? 11 then negb (bool_decide (prop_type prop = PROP_FLOAT))
    else if n =? 12
    then negb (bool_decide (prop_type prop = PROP_FLOAT))
         && negb (bool_decide (prop_type prop = PROP_INT))
    else Z.testbit (flag fcu) n.
Proof.
  intros Hn. unfold update_autoflags_fcurve_direct.
  assert (Hclear :
            Z.testbit (flag_clear (flag fcu)
                         (Z.lor FCURVE_INT_VALUES FCURVE_DISCRETE_VALUES)) n
            = Z.testbit (flag fcu) n && negb ((n =? 11) || (n =? 12))).
  { rewrite flag_clear_bit by exact Hn. unfold FCURVE_INT_VALUES,
      FCURVE_DISCRETE_VALUES. rewrite Z.lor_spec, !Z.shiftl_1_l.
    rewrite !Z.pow2_bits_eqb by lia. now rewrite !(Z.eqb_sym n). }
  assert (Hint : Z.testbit FCURVE_INT_VALUES n = (n =? 11)).
  { unfold FCURVE_INT_VALUES. rewrite Z.shiftl_1_l, Z.pow2_bits_eqb by lia.
    apply Z.eqb_sym. }
  assert (Hdis : Z.testbit FCURVE_DISCRETE_VALUES n = (n =? 12)).
  { unfold FCURVE_DISCRETE_VALUES. rewrite Z.shiftl_1_l, Z.pow2_bits_eqb by lia.
    apply Z.eqb_sym. }
  destruct (prop_type prop); cbn [set_flag flag];
    rewrite ?Z.lor_spec, Hclear, ?Hint, ?Hdis;
    repeat case_bool_decide; try congruence;
    destruct (Z.eqb_spec n 11) as [->|?]; cbn;
    try (destruct (Z.eqb_spec n 12) as [->|?]; cbn);
    rewrite ?andb_true_r, ?andb_false_r, ?orb_true_r, ?orb_false_r;
    reflexivity.
Qed.

(** X5. [update_autoflags_fcurve_direct] decides the two value-kind bits of
    the curve from the property type alone (integer values for every type
    but float, discrete values for every type but float and int), leaves
    every other flag bit as it was, and so overrides any earlier call: the
    last property type wins, and the call is idempotent. *)
Theorem X5_update_autoflags_by_property_type (fcu : FCurve)
    (prop prop' : PropertyRNA) :
  flag_test (flag (update_autoflags_fcurve_direct fcu prop)) FCURVE_INT_VALUES
  = negb (bool_decide (prop_type prop = PROP_FLOAT))
  /\ flag_test (flag (update_autoflags_fcurve_direct fcu prop))
       FCURVE_DISCRETE_VALUES
     = negb (bool_decide (prop_type prop = PROP_FLOAT))
       && negb (bool_decide (prop_type prop = PROP_INT))
  /\ (forall k, 0 <= k -> k <> 11 -> k <> 12 ->
        flag_test (flag (update_autoflags_fcurve_direct fcu prop)) (Z.shiftl 1 k)
        = flag_test (flag fcu) (Z.shiftl 1 k))
  /\ update_autoflags_fcurve_direct (update_autoflags_fcurve_direct fcu prop')
       prop
     = update_autoflags_fcurve_direct fcu prop.
Proof.
  repeat split.
  - unfold FCURVE_INT_VALUES. rewrite flag_test_bit, autoflags_bits by lia.
    reflexivity.
  - unfold FCURVE_DISCRETE_VALUES. rewrite flag_test_bit, autoflags_bits by lia.
    reflexivity.
  - intros k Hk H11 H12. rewrite !flag_test_bit, autoflags_bits by exact Hk.
    destruct (Z.eqb_spec k 11); [contradiction|].
    destruct (Z.eqb_spec k 12); [contradiction|]. reflexivity.
  - assert (Hflag :
              flag (update_autoflags_fcurve_direct
                      (update_autoflags_fcurve_direct fcu prop') prop)
              = flag (update_autoflags_fcurve_direct fcu prop)).
    { apply Z.bits_inj'. intros n Hn. rewrite !autoflags_bits by exact Hn.
      destruct (n =? 11), (n =? 12); reflexivity. }
    revert Hflag. unfold update_autoflags_fcurve_direct.
    destruct (prop_type prop), (prop_type prop');
      cbn [set_flag flag bezt fpt modifiers rna_path array_index grp];
      intros ->; reflexivity.
Qed.

Section NewCurveProperties.
Context `{E : Externals}.


(** X7. [make_new_fcurve_cyclic] leaves alone every curve that has not
    exactly one keyframe point, and every curve when the length of the
    Action range as the code computes it (end - start, rounded to binary32)
    is below 0.1f; applied twice it does what it does once. *)
Theorem X7_make_new_fcurve_cyclic_idempotent (fcu : FCurve)
    (action_range : float2) :
  (length (bezt fcu) <> 1%nat
   \/ float_lt (float_sub (snd action_range) (fst action_range)) float_0_1
      = true ->
   make_new_fcurve_cyclic fcu action_range = fcu)
  /\ make_new_fcurve_cyclic (make_new_fcurve_cyclic fcu action_range)
       action_range
     = make_new_fcurve_cyclic fcu action_range.
Proof.
  assert (Hmany : forall f : FCurve,
             (2 <= length (bezt f))%nat ->
             make_new_fcurve_cyclic f action_range = f).
  { intros f Hlen. unfold make_new_fcurve_cyclic, totvert.
    destruct (bezt f) as [|b0 [|b1 l]];
      [simpl in Hlen; lia | simpl in Hlen; lia|].
    cbn [is_null length]. destruct (Z.eqb_spec (Z.of_nat (S (S (length l)))) 1);
      [lia | reflexivity]. }
  assert (Hfirst :
            length (bezt fcu) <> 1%nat
            \/ float_lt (float_sub (snd action_range) (fst action_range))
                 float_0_1 = true ->
            make_new_fcurve_cyclic fcu action_range = fcu).
  { intros [Hlen|Hshort].
    - destruct (bezt fcu) as [|b0 [|b1 l]] eqn:Hb.
      + unfold make_new_fcurve_cyclic. rewrite Hb. cbn [is_null].
        now rewrite orb_true_r.
      + simpl in Hlen. congruence.
      + apply Hmany. rewrite Hb. simpl. lia.
    - unfold make_new_fcurve_cyclic. rewrite Hshort.
      destruct (negb (totvert fcu =? 1) || is_null (bezt fcu)); reflexivity. }
  split; [exact Hfirst|].
  destruct (decide (length (bezt fcu) = 1%nat)) as [Hone|Hne];
    [|rewrite !Hfirst by (left; exact Hne); reflexivity].
  destruct (float_lt (float_sub (snd action_range) (fst action_range))
              float_0_1) eqn:Hp.
  { rewrite !Hfirst by (right; reflexivity). reflexivity. }
  clear Hfirst. apply Hmany. unfold make_new_fcurve_cyclic, totvert.
  destruct (bezt fcu) as [|b0 [|b1 l]]; try discriminate Hone.
  cbn [is_null length Z.of_nat Z.eqb Pos.eqb Pos.of_succ_nat negb orb].
  rewrite Hp.
  destruct (is_null (modifiers (set_bezt fcu _))); simpl; lia.
Qed.

(** X8. The time that [remap_cyclic_keyframe_location] returns need not lie
    in the cycle, and remapping need not be idempotent, because every
    operation of the fold is rounded to binary32: on the cycle from the
    binary32 number nearest to -0.4 to frame 3, the time nearest to 6.4 is
    folded by two periods to -13421776 * 2^-25, which is below the first
    key (-13421773 * 2^-25), and remapping that time again gives frame 3. *)
Theorem X8_remap_rounding_leaves_the_cycle :
  let fcu := example_fraction_cycle in
  let r :=
    remap_cyclic_keyframe_location (E := simple_externals false) fcu
      float_6_4 (float_of_Z 1) in
  r = (FCU_CYCLE_PERFECT, float_of_bits (-13421776) (-25), float_of_Z 1)
  /\ float_lt (remap_time r) float_minus_0_4 = true
  /\ remap_cyclic_keyframe_location (E := simple_externals false) fcu
       (remap_time r) (remap_value r)
     = (FCU_CYCLE_PERFECT, float_of_Z 3, float_of_Z 1).
Proof.
  cbv zeta. repeat split; vm_compute; reflexivity.
Qed.

(** X10. With the cycle-aware flag, on a curve that can be keyed and whose
    cycle is not a perfect cycle, [insert_keyframe_value] is the plain
    insertion, without the cycle-aware flag, at the location returned by
    the remapper: the remapped time and value are still used, only the
    cycle-aware handling of the point insertion is dropped. *)
Theorem X10_cycle_aware_fallback (fcu : FCurve) (cfra curval : float)
    (keytype flag : Z) :
  BKE_fcurve_is_keyframable fcu = true ->
  flag_test flag INSERTKEY_CYCLE_AWARE = true ->
  remap_type (remap_cyclic_keyframe_location fcu cfra curval)
  <> FCU_CYCLE_PERFECT ->
  let r := remap_cyclic_keyframe_location fcu cfra curval in
  insert_keyframe_value fcu cfra curval keytype flag
  = insert_vert_fcurve fcu (remap_time r, remap_value r)
      (set_keyframe_type
         (get_keyframe_settings (negb (flag_test flag INSERTKEY_NO_USERPREF)))
         keytype)
      (flag_clear flag INSERTKEY_CYCLE_AWARE)
  /\ flag_test (flag_clear flag INSERTKEY_CYCLE_AWARE) INSERTKEY_CYCLE_AWARE
     = false
  /\ insert_keyframe_value fcu cfra curval keytype flag
     = insert_keyframe_value fcu (remap_time r) (remap_value r) keytype
         (flag_clear flag INSERTKEY_CYCLE_AWARE).
Proof.
  intros Hkey Hcycle Htype r.
  assert (Hcleared :
            flag_test (flag_clear flag INSERTKEY_CYCLE_AWARE)
              INSERTKEY_CYCLE_AWARE = false).
  { unfold INSERTKEY_CYCLE_AWARE. rewrite flag_test_bit, flag_clear_bit by lia.
    rewrite Z.shiftl_1_l, Z.pow2_bits_eqb by lia. cbn.
    apply andb_false_r. }
  assert (Huser :
            (Z.land (flag_clear flag INSERTKEY_CYCLE_AWARE) INSERTKEY_NO_USERPREF
             =? 0)
            = negb (flag_test flag INSERTKEY_NO_USERPREF)).
  { transitivity (negb (flag_test (flag_clear flag INSERTKEY_CYCLE_AWARE)
                          INSERTKEY_NO_USERPREF)).
    - unfold flag_test. now rewrite negb_involutive.
    - f_equal. unfold INSERTKEY_NO_USERPREF, INSERTKEY_CYCLE_AWARE.
      rewrite !flag_test_bit, flag_clear_bit by lia.
      rewrite Z.shiftl_1_l, Z.pow2_bits_eqb by lia. cbn. apply andb_true_r. }
  assert (Hfirst :
            insert_keyframe_value fcu cfra curval keytype flag
            = insert_vert_fcurve fcu (remap_time r, remap_value r)
                (set_keyframe_type
                   (get_keyframe_settings
                      (negb (flag_test flag INSERTKEY_NO_USERPREF))) keytype)
                (flag_clear flag INSERTKEY_CYCLE_AWARE)).
  { unfold insert_keyframe_value. rewrite Hkey, Hcycle. cbn [negb].
    subst r. unfold remap_type, remap_time, remap_value in *.
    destruct (remap_cyclic_keyframe_location fcu cfra curval) as [[ty x] y].
    cbn [fst snd] in *. case_bool_decide; [|contradiction].
    now rewrite Huser. }
  split; [exact Hfirst|]. split; [exact Hcleared|].
  rewrite Hfirst. unfold insert_keyframe_value at 1.
  rewrite Hkey, Hcleared. cbn [negb]. now rewrite Huser.
Qed.

End NewCurveProperties.

(** ** Reports of the value remapping and of the direct insertion *)

Lemma failed_remaps_loop_count (index_ : Z) (force_all : bool)
    (remaps : list bool) (indices : list nat) :
  forall (total : Z) (ds : string),
    fst (failed_remaps_loop index_ force_all remaps indices total ds)
    = total
      + Z.of_nat
          (length
             (filter (fun i => (index_ = Z.of_nat i \/ index_ = -1
                                \/ force_all = true)
                               /\ bit_get remaps i = false) indices)).
Proof.
  induction indices as [|i rest IH]; intros total ds;
    cbn [failed_remaps_loop].
  - rewrite filter_nil. cbn [length Z.of_nat fst]. lia.
  - destruct ((index_ =? Z.of_nat i) || (index_ =? -1) || force_all)
      eqn:Heval; cbn [negb].
    + assert (Hev : index_ = Z.of_nat i \/ index_ = -1 \/ force_all = true).
      { apply orb_true_iff in Heval as [Heval|Heval]; [|tauto].
        apply orb_true_iff in Heval as [Heval|Heval];
          apply Z.eqb_eq in Heval; tauto. }
      destruct (bit_get remaps i) eqn:Hbit.
      * rewrite filter_cons_False by (intros [_ Hc]; congruence). apply IH.
      * rewrite filter_cons_True by (split; assumption).
        rewrite IH. cbn [length]. lia.
    + rewrite filter_cons_False; [apply IH|].
      intros [Hev _]. apply orb_false_iff in Heval as [Heval Hforce].
      apply orb_false_iff in Heval as [He1 He2].
      apply Z.eqb_neq in He1, He2. destruct Hev as [?|[?|?]]; congruence.
Qed.

Lemma create_reports_by_failed (reports : ReportList) (ptr : PointerRNA)
    (prop : PropertyRNA) (index_ : Z) (count : nat) (force_all : bool)
    (remaps : list bool) :
  (failed_indices index_ force_all remaps count = [] ->
   get_keyframe_values_create_reports reports ptr prop index_ count force_all
     remaps
   = Some reports)
  /\ (failed_indices index_ force_all remaps count <> [] ->
      match owner_id ptr with
      | Some _ =>
          exists text,
            get_keyframe_values_create_reports reports ptr prop index_ count
              force_all remaps
            = Some (reports ++ [mkReport RPT_WARNING text])
      | None =>
          get_keyframe_values_create_reports reports ptr prop index_ count
            force_all remaps
          = None
      end).
Proof.
  unfold get_keyframe_values_create_reports, failed_indices.
  pose proof (failed_remaps_loop_count index_ force_all remaps (seq 0 count)
                0 EmptyString) as Hcount.
  destruct (failed_remaps_loop index_ force_all remaps (seq 0 count) 0
              EmptyString) as [total_failed str]. cbn [fst] in Hcount.
  split.
  - intros Hnil. rewrite Hnil in Hcount. cbn [length] in Hcount.
    now rewrite Hcount.
  - intros Hsome.
    destruct (Z.eqb_spec total_failed 0) as [H0|_].
    + exfalso. apply Hsome.
      destruct (filter _ _); [reflexivity | cbn [length] in Hcount; lia].
    + destruct (owner_id ptr); [|reflexivity].
      cbn [mbind option_bind]. eexists. reflexivity.
Qed.

(** X11. [get_keyframe_values_create_reports] adds no report when every
    index it evaluates (the requested index, or every index for index -1
    or with the force-all flag) was remapped, and otherwise exactly one
    warning, whatever the number of failed indices; with a failed index
    and a pointer without owner there is no result. *)
Theorem X11_create_reports_at_most_one_warning (reports : ReportList)
    (ptr : PointerRNA) (prop : PropertyRNA) (index_ : Z) (count : nat)
    (force_all : bool) (remaps : list bool) :
  (failed_indices index_ force_all remaps count = [] ->
   get_keyframe_values_create_reports reports ptr prop index_ count force_all
     remaps
   = Some reports)
  /\ (failed_indices index_ force_all remaps count <> [] ->
      match owner_id ptr with
      | Some _ =>
          exists text,
            get_keyframe_values_create_reports reports ptr prop index_ count
              force_all remaps
            = Some (reports ++ [mkReport RPT_WARNING text])
      | None =>
          get_keyframe_values_create_reports reports ptr prop index_ count
            force_all remaps
          = None
      end).
Proof. apply create_reports_by_failed. Qed.


Section DirectReports.
Context `{E : Externals}.


End DirectReports.

(** ** What a channel write leaves alone *)

Section FrameProperties.
Context `{E : Externals}.

Lemma fcurve_value_frame (ptr : PointerRNA) (prop : PropertyRNA)
    (act : bAction) (group : option string) (rna_path_ : string) (i : Z)
    (frame v : float) (keytype flag : Z) :
  let act' :=
    snd (insert_keyframe_fcurve_value ptr prop act group rna_path_ i frame v
           keytype flag) in
  (length (curves act) <= length (curves act') <= S (length (curves act)))%nat
  /\ (key_insertion_may_create_fcurve flag = false
      \/ is_Some (action_fcurve_find act rna_path_ i) ->
      length (curves act') = length (curves act))
  /\ (forall j fcu,
        curves act !! j = Some fcu ->
        ~ (rna_path fcu = rna_path_ /\ array_index fcu = i) ->
        curves act' !! j = Some fcu)
  /\ action_header act' = action_header act.
Proof.
  cbv zeta. unfold insert_keyframe_fcurve_value.
  destruct (action_fcurve_find act rna_path_ i) as [[pos fcu]|] eqn:Hfind.
  - assert (Hptr : (if key_insertion_may_create_fcurve flag
                    then action_fcurve_ensure act group ptr rna_path_ i
                    else (act, Some (pos, fcu)))
                   = (act, Some (pos, fcu))).
    { unfold action_fcurve_ensure. rewrite Hfind.
      destruct (key_insertion_may_create_fcurve flag); reflexivity. }
    rewrite Hptr.
    destruct (insert_keyframe_value _ _ _ _ _) as [result fcu'].
    cbn [snd set_curves curves]. rewrite length_insert.
    split; [lia|]. split; [reflexivity|]. split; [|reflexivity].
    intros j fcu0 Hj Hother.
    apply list_find_Some in Hfind as (Hpos & Hmatch & _).
    destruct (decide (pos = j)) as [->|Hne].
    + rewrite Hj in Hpos. injection Hpos as ->. contradiction.
    + now rewrite list_lookup_insert_ne by exact Hne.
  - destruct (key_insertion_may_create_fcurve flag) eqn:Hcreate.
    + unfold action_fcurve_ensure. rewrite Hfind.
      set (act_g := match group with
                    | Some g => if bool_decide (g ∈ groups act) then act
                                else set_groups act (groups act ++ [g])
                    | None => act
                    end).
      assert (Hg : curves act_g = curves act
                   /\ action_header act_g = action_header act).
      { unfold act_g. destruct group as [g|]; [|split; reflexivity].
        case_bool_decide; split; reflexivity. }
      destruct Hg as [Hgc Hgh]. rewrite Hgc.
      destruct (insert_keyframe_value _ _ _ _ _) as [result fcu'].
      cbn [snd set_curves curves]. rewrite length_insert, length_app.
      cbn [length]. split; [lia|]. split; [|split].
      * intros [Hc|[x Hx]]; discriminate.
      * intros j fcu0 Hj _.
        assert (Hlt : (j < length (curves act))%nat)
          by (apply lookup_lt_is_Some; now exists fcu0).
        rewrite list_lookup_insert_ne by lia.
        now rewrite lookup_app_l by exact Hlt.
      * exact Hgh.
    + cbn [snd]. split; [lia|]. split; [reflexivity|].
      split; [tauto | reflexivity].
Qed.

(** X13. One call of [insert_keyframe_fcurve_value] touches the curve of
    its channel only: every curve of another path or array index is still
    a curve of the Action, unchanged; the number of curves grows by at most
    one and does not grow when a curve for the channel exists or the flags
    hold the replace-only or available-only policy, and the Action's name,
    frame range, flag, layers and bindings are untouched. *)
Theorem X13_channel_write_keeps_other_curves (ptr : PointerRNA)
    (prop : PropertyRNA) (act : bAction) (group : option string)
    (rna_path_ : string) (i : Z) (frame v : float) (keytype flag : Z) :
  let act' :=
    snd (insert_keyframe_fcurve_value ptr prop act group rna_path_ i frame v
           keytype flag) in
  (length (curves act) <= length (curves act') <= S (length (curves act)))%nat
  /\ (key_insertion_may_create_fcurve flag = false
      \/ is_Some (action_fcurve_find act rna_path_ i) ->
      length (curves act') = length (curves act))
  /\ (forall fcu,
        fcu ∈ curves act ->
        ~ (rna_path fcu = rna_path_ /\ array_index fcu = i) ->
        fcu ∈ curves act')
  /\ action_header act' = action_header act.
Proof.
  destruct (fcurve_value_frame ptr prop act group rna_path_ i frame v keytype
              flag) as (Hlen & Hfix & Hkeep & Hhead).
  cbv zeta. split; [exact Hlen|]. split; [exact Hfix|]. split; [|exact Hhead].
  intros fcu Hin Hother. apply list_elem_of_lookup in Hin as [j Hj].
  apply list_elem_of_lookup. exists j. now apply Hkeep.
Qed.

Lemma path_frame_refl (rna_path_ : string) (act : bAction) :
  path_frame rna_path_ act act.
Proof. split; [intros fcu Hin _; exact Hin | split; [lia | reflexivity]]. Qed.

Lemma path_frame_trans (rna_path_ : string) (x y z : bAction) :
  path_frame rna_path_ x y -> path_frame rna_path_ y z ->
  path_frame rna_path_ x z.
Proof.
  intros (Hk1 & Hl1 & Hh1) (Hk2 & Hl2 & Hh2). split; [|split].
  - intros fcu Hin Hne. apply Hk2; [|exact Hne]. now apply Hk1.
  - lia.
  - now rewrite Hh2.
Qed.

Lemma path_frame_fixed_refl (rna_path_ : string) (act : bAction) :
  path_frame_fixed rna_path_ act act.
Proof. split; [apply path_frame_refl | reflexivity]. Qed.

Lemma path_frame_fixed_trans (rna_path_ : string) (x y z : bAction) :
  path_frame_fixed rna_path_ x y -> path_frame_fixed rna_path_ y z ->
  path_frame_fixed rna_path_ x z.
Proof.
  intros [Hf1 Hl1] [Hf2 Hl2].
  split; [exact (path_frame_trans _ _ _ _ Hf1 Hf2) | lia].
Qed.

Lemma fcurve_value_path_frame (ptr : PointerRNA) (prop : PropertyRNA)
    (act : bAction) (group : option string) (rna_path_ : string) (i : Z)
    (frame v : float) (keytype flag : Z) :
  path_frame rna_path_ act
    (snd (insert_keyframe_fcurve_value ptr prop act group rna_path_ i frame v
            keytype flag)).
Proof.
  destruct (fcurve_value_frame ptr prop act group rna_path_ i frame v keytype
              flag) as (Hlen & _ & Hkeep & Hhead).
  split; [|split; [lia | exact Hhead]].
  intros fcu Hin Hne. apply list_elem_of_lookup in Hin as [j Hj].
  apply list_elem_of_lookup. exists j. apply Hkeep; [exact Hj | tauto].
Qed.

Lemma fcurve_value_path_frame_fixed (ptr : PointerRNA) (prop : PropertyRNA)
    (act : bAction) (group : option string) (rna_path_ : string) (i : Z)
    (frame v : float) (keytype flag : Z) :
  key_insertion_may_create_fcurve flag = false ->
  path_frame_fixed rna_path_ act
    (snd (insert_keyframe_fcurve_value ptr prop act group rna_path_ i frame v
            keytype flag)).
Proof.
  intros Hpolicy. split; [apply fcurve_value_path_frame|].
  apply fcurve_value_frame. now left.
Qed.

Lemma key_channel_act (a : KeyArgs) (flag : Z) (st : KeyState) (i : nat) :
  ks_act (snd (key_channel a flag st i))
  = snd (insert_keyframe_fcurve_value (ka_ptr a) (ka_prop a) (ks_act st)
           (ka_group a) (ka_rna_path a) (Z.of_nat i) (ka_frame a)
           (float_get (ka_values a) i) (ka_keytype a) flag).
Proof.
  unfold key_channel.
  now destruct (insert_keyframe_fcurve_value _ _ _ _ _ _ _ _ _ _).
Qed.

Lemma key_channel_attempts (a : KeyArgs) (flag : Z) (st : KeyState) (i : nat) :
  length (ks_attempts (snd (key_channel a flag st i)))
  = S (length (ks_attempts st)).
Proof.
  unfold key_channel.
  destruct (insert_keyframe_fcurve_value _ _ _ _ _ _ _ _ _ _).
  cbn [snd ks_attempts]. rewrite length_app. cbn [length]. lia.
Qed.

(** A relation on the loop state that every channel write under the given
    flags keeps is kept by each of the loops of [insert_keyframe]. *)
Lemma all_channels_loop_keeps (R : KeyState -> KeyState -> Prop) (a : KeyArgs)
    (flag : Z) (remaps : list bool) :
  (forall x, R x x) -> (forall x y z, R x y -> R y z -> R x z) ->
  (forall st i, R st (snd (key_channel a flag st i))) ->
  forall indices st, R st (all_channels_loop a flag remaps indices st).
Proof.
  intros Hrefl Htrans Hstep. induction indices as [|i rest IH]; intros st;
    cbn [all_channels_loop]; [apply Hrefl|].
  destruct (negb (bit_get remaps i)); [apply IH|].
  eapply Htrans; [apply Hstep | apply IH].
Qed.

Lemma force_first_loop_keeps (R : KeyState -> KeyState -> Prop) (a : KeyArgs)
    (flag : Z) (remaps : list bool) :
  (forall x, R x x) -> (forall x y z, R x y -> R y z -> R x z) ->
  (forall st i, R st (snd (key_channel a flag st i))) ->
  forall indices st, R st (snd (force_first_loop a flag remaps indices st)).
Proof.
  intros Hrefl Htrans Hstep. induction indices as [|i rest IH]; intros st;
    cbn [force_first_loop]; [apply Hrefl|].
  destruct (negb (bit_get remaps i)); [apply IH|].
  pose proof (Hstep st i) as Hi.
  destruct (key_channel a flag st i) as [result st1]. cbn [snd] in Hi.
  case_bool_decide; [exact Hi|].
  eapply Htrans; [exact Hi | apply IH].
Qed.

Lemma force_rest_loop_keeps (R : KeyState -> KeyState -> Prop) (a : KeyArgs)
    (flag : Z) (remaps : list bool) (exclude : Z) :
  (forall x, R x x) -> (forall x y z, R x y -> R y z -> R x z) ->
  (forall st i, R st (snd (key_channel a flag st i))) ->
  forall indices st, R st (force_rest_loop a flag remaps exclude indices st).
Proof.
  intros Hrefl Htrans Hstep. induction indices as [|i rest IH]; intros st;
    cbn [force_rest_loop]; [apply Hrefl|].
  destruct (negb (bit_get remaps i)); [apply IH|].
  case_bool_decide; [|apply IH].
  eapply Htrans; [apply Hstep | apply IH].
Qed.

Lemma key_channels_keeps (R : KeyState -> KeyState -> Prop) (a : KeyArgs) :
  (forall x, R x x) -> (forall x y z, R x y -> R y z -> R x z) ->
  (forall flag st i, R st (snd (key_channel a flag st i))) ->
  forall ai flag force_all remaps st,
    R st (key_channels a ai flag force_all remaps st).
Proof.
  intros Hrefl Htrans Hstep ai flag force_all remaps st. unfold key_channels.
  destruct ((ai =? -1) || force_all).
  - destruct (force_all && negb (Z.land flag (Z.lor INSERTKEY_REPLACE INSERTKEY_AVAILABLE) =? 0)).
    + pose proof (force_first_loop_keeps R a flag remaps Hrefl Htrans
                    (Hstep flag) (seq 0 (length (ka_values a))) st) as Hfirst.
      destruct (force_first_loop a flag remaps (seq 0 (length (ka_values a))) st)
        as [exclude st1]. cbn [snd] in Hfirst.
      destruct (negb (exclude =? -1)); [|exact Hfirst].
      eapply Htrans; [exact Hfirst|].
      apply force_rest_loop_keeps; [exact Hrefl | exact Htrans | apply Hstep].
    + apply all_channels_loop_keeps; [exact Hrefl | exact Htrans | apply Hstep].
  - destruct ((0 <=? ai) && (ai <? Z.of_nat (length (ka_values a)))
              && bit_get remaps (Z.to_nat ai)); [apply Hstep | apply Hrefl].
Qed.

(** A relation kept by the writes under the given flags is kept by
    [key_channels] as long as no write succeeds, and always when the NLA
    does not force all channels: only then are all writes made under the
    given flags. *)
Lemma key_channels_keeps_policy (R : KeyState -> KeyState -> Prop)
    (a : KeyArgs) (flag : Z) :
  (forall x, R x x) -> (forall x y z, R x y -> R y z -> R x z) ->
  (forall st i, R st (snd (key_channel a flag st i))) ->
  forall ai force_all remaps st,
    force_all = false
    \/ ks_key_count (key_channels a ai flag force_all remaps st)
       = ks_key_count st ->
    R st (key_channels a ai flag force_all remaps st).
Proof.
  intros Hrefl Htrans Hstep ai force_all remaps st Hcase. unfold key_channels in *.
  destruct ((ai =? -1) || force_all).
  - destruct (force_all && negb (Z.land flag (Z.lor INSERTKEY_REPLACE INSERTKEY_AVAILABLE) =? 0))
      eqn:Hforce.
    + apply andb_true_iff in Hforce as [-> _].
      destruct Hcase as [Hc|Hcount]; [discriminate|].
      pose proof (force_first_loop_keeps R a flag remaps Hrefl Htrans Hstep
                    (seq 0 (length (ka_values a))) st) as Hfirst.
      destruct (force_first_loop_spec a flag remaps
                  (seq 0 (length (ka_values a))) st)
        as (T1 & Hext1 & _ & Hcases).
      destruct (force_first_loop a flag remaps (seq 0 (length (ka_values a))) st)
        as [exclude st1]. cbn [fst snd] in Hfirst, Hext1, Hcases.
      destruct Hcases as [(-> & _)
                         |(k & pre & post & T1' & -> & _ & _ & -> & _ & _)].
      * exact Hfirst.
      * exfalso. destruct (Z.eqb_spec (Z.of_nat k) (-1)) as [?|_]; [lia|].
        cbn [negb] in Hcount.
        destruct (force_rest_loop_spec a
                    (flag_clear flag (Z.lor INSERTKEY_REPLACE INSERTKEY_AVAILABLE))
                    remaps (Z.of_nat k) (seq 0 (length (ka_values a))) st1)
          as (T2 & Hext2 & _).
        destruct Hext1 as (_ & _ & Hk1). destruct Hext2 as (_ & _ & Hk2).
        rewrite successes_app in Hk1.
        assert (Hone : successes [mkAttempt k flag SUCCESS] = 1) by reflexivity.
        assert (H1 : 0 <= successes T1') by (unfold successes; lia).
        assert (H2 : 0 <= successes T2) by (unfold successes; lia).
        lia.
    + apply all_channels_loop_keeps; [exact Hrefl | exact Htrans | exact Hstep].
  - destruct ((0 <=? ai) && (ai <? Z.of_nat (length (ka_values a)))
              && bit_get remaps (Z.to_nat ai)); [apply Hstep | apply Hrefl].
Qed.

Lemma get_count_tally_success (c : CombinedKeyingResult) (T : list Attempt) :
  get_count (tally_from c T) SUCCESS = get_count c SUCCESS + successes T.
Proof.
  revert c. induction T as [|t T IH]; intros c.
  - unfold successes. cbn. lia.
  - cbn [tally_from foldl]. fold (tally_from (add1 c (attempt_result t)) T).
    rewrite IH, get_count_add1.
    change (t :: T) with ([t] ++ T). rewrite successes_app.
    assert (Hone : successes [t]
                   = if decide (attempt_result t = SUCCESS) then 1 else 0).
    { unfold successes. rewrite filter_cons, filter_nil.
      destruct (decide (attempt_result t = SUCCESS)); reflexivity. }
    rewrite Hone. destruct (decide (attempt_result t = SUCCESS)); lia.
Qed.

Lemma key_channels_counts (a : KeyArgs) (ai flag : Z) (force_all : bool)
    (remaps : list bool) (act : bAction) :
  let st :=
    key_channels a ai flag force_all remaps
      (mkKeyState act CombinedKeyingResult_new 0 []) in
  ks_key_count st = get_count (ks_result st) SUCCESS
  /\ 0 <= ks_key_count st
  /\ ks_key_count st = successes (ks_attempts st)
  /\ total_count (ks_result st) = Z.of_nat (length (ks_attempts st)).
Proof.
  cbv zeta.
  destruct (key_channels_spec a ai flag force_all remaps
              (mkKeyState act CombinedKeyingResult_new 0 []))
    as (T & (Hatt & Hres & Hcount) & _).
  cbn [ks_attempts ks_result ks_key_count] in Hatt, Hres, Hcount.
  rewrite Hres, Hcount, Hatt, get_count_tally_success, get_count_new.
  cbn [app]. rewrite tally_from_total, total_count_new.
  repeat split; try lia. unfold successes. lia.
Qed.


(** The writes of [key_channels] keep the curves of other paths and the
    header, and add at most one curve per attempt. *)
Lemma key_channels_path_frame (a : KeyArgs) (ai flag : Z) (force_all : bool)
    (remaps : list bool) (st : KeyState) :
  let st' := key_channels a ai flag force_all remaps st in
  path_frame (ka_rna_path a) (ks_act st) (ks_act st')
  /\ (length (curves (ks_act st')) + length (ks_attempts st)
      <= length (curves (ks_act st)) + length (ks_attempts st'))%nat.
Proof.
  cbv zeta.
  apply (key_channels_keeps
           (fun x y =>
              path_frame (ka_rna_path a) (ks_act x) (ks_act y)
              /\ (length (curves (ks_act y)) + length (ks_attempts x)
                  <= length (curves (ks_act x)) + length (ks_attempts y))%nat)).
  - intros x. split; [apply path_frame_refl | lia].
  - intros x y z [Hf1 Hl1] [Hf2 Hl2].
    split; [exact (path_frame_trans _ _ _ _ Hf1 Hf2) | lia].
  - intros f x i. rewrite key_channel_act, key_channel_attempts.
    split; [apply fcurve_value_path_frame|].
    pose proof (fcurve_value_frame (ka_ptr a) (ka_prop a) (ks_act x)
                  (ka_group a) (ka_rna_path a) (Z.of_nat i) (ka_frame a)
                  (float_get (ka_values a) i) (ka_keytype a) f) as (Hlen & _).
    lia.
Qed.

Lemma key_channels_policy_fixed (a : KeyArgs) (ai flag : Z) (force_all : bool)
    (remaps : list bool) (st : KeyState) :
  key_insertion_may_create_fcurve flag = false ->
  force_all = false
  \/ ks_key_count (key_channels a ai flag force_all remaps st)
     = ks_key_count st ->
  length (curves (ks_act (key_channels a ai flag force_all remaps st)))
  = length (curves (ks_act st)).
Proof.
  intros Hpolicy Hcase.
  apply (key_channels_keeps_policy
           (fun x y => length (curves (ks_act y)) = length (curves (ks_act x)))
           a flag); [reflexivity | intros x y z; lia | | exact Hcase].
  intros x i. rewrite key_channel_act. apply fcurve_value_frame. now left.
Qed.

(** X14. [insert_keyframe] notifies the dependency graph exactly when a
    key was written: the number of [SUCCESS] outcomes it returns is the
    number of successful channel writes; when it is 0 (in particular on
    each of the three early returns) there is no event at all; otherwise
    there is exactly one event, the animation tag without flush on the
    Action that the data-block then uses. *)
Theorem X14_insert_keyframe_notifies_iff_key_written (id : ID)
    (group : option string) (rna_path_ : string) (ai : Z)
    (ctx : AnimationEvalContext) (keytype flag : Z) :
  let run := insert_keyframe id group rna_path_ ai ctx keytype flag in
  let keyed := get_count (run_result run) SUCCESS in
  0 <= keyed
  /\ keyed = successes (run_attempts run)
  /\ (keyed = 0 -> run_events run = [])
  /\ (0 < keyed ->
      exists act',
        adt (run_id run) ≫= action = Some act'
        /\ run_events run
           = [EvDegTag (act_name act') ID_RECALC_ANIMATION_NO_FLUSH]).
Proof.
  cbv zeta.
  destruct (BKE_id_is_editable id) eqn:Hed;
    [|unfold insert_keyframe; rewrite Hed; cbn; repeat split; lia].
  destruct (RNA_path_resolve_property (RNA_id_pointer_create id) rna_path_)
    as [[ptr prop]|] eqn:Hres;
    [|unfold insert_keyframe; rewrite Hed, Hres; cbn; repeat split; lia].
  destruct (id_action_ensure id) as [[act|] id'] eqn:Hact;
    [|unfold insert_keyframe; rewrite Hed, Hres, Hact; cbn; repeat split; lia].
  destruct (insert_keyframe_keyed id id' group rna_path_ ai ctx keytype flag
              ptr prop act Hed Hres Hact) as (Hr & Ha & Hi & He).
  rewrite Hr, Ha, Hi, He.
  set (a := mkKeyArgs ptr prop group rna_path_ (keyframe_frame id' act ctx)
              (keyframe_values id' act ptr prop ai ctx flag) keytype).
  set (force := r_force_all (keyframe_nla id' act ptr prop ai ctx flag)).
  set (remaps := keyframe_remaps id' act ptr prop ai ctx flag).
  destruct (key_channels_counts a ai flag force remaps act)
    as (Hcount & Hpos & Hsucc & Htotal). cbv zeta in Hcount, Hpos, Hsucc, Htotal.
  destruct (key_channels_path_frame a ai flag force remaps
              (mkKeyState act CombinedKeyingResult_new 0 []))
    as ((_ & _ & Hhead) & _). cbn [ks_act] in Hhead.
  destruct (id_action_ensure_adt id id' act Hact) as [Hadt Hwrite].
  set (st := key_channels a ai flag force remaps
               (mkKeyState act CombinedKeyingResult_new 0 [])) in *.
  rewrite <- Hcount. split; [exact Hpos|]. split; [exact Hsucc|]. split.
  - intros H0. rewrite H0. reflexivity.
  - intros Hkeyed. exists (ks_act st). split; [apply Hwrite|].
    destruct (Z.ltb_spec 0 (ks_key_count st)) as [_|?]; [|lia].
    rewrite Hadt. rewrite bool_decide_eq_false_2 by (intros Hc; now apply Hc).
    assert (Hname : act_name (ks_act st) = act_name act)
      by (unfold action_header in Hhead; congruence).
    now rewrite Hname.
Qed.

(** X15. When the data-block has an Action, [insert_keyframe] on a path
    leaves every curve of another path a curve of the Action, unchanged,
    keeps the Action's name, frame range, layers and bindings, does not
    lower the number of curves and adds at most one curve per attempted
    channel write. Under the
    replace-only or available-only policy it adds no curve at all, unless
    the NLA forces all channels and one of them was keyed. *)
Theorem X15_insert_keyframe_keeps_other_paths (id : ID)
    (group : option string) (rna_path_ : string) (ai : Z)
    (ctx : AnimationEvalContext) (keytype flag : Z) (act : bAction) :
  adt id ≫= action = Some act ->
  let run := insert_keyframe id group rna_path_ ai ctx keytype flag in
  exists act',
    adt (run_id run) ≫= action = Some act'
    /\ path_frame rna_path_ act act'
    /\ (length (curves act')
        <= length (curves act) + length (run_attempts run))%nat
    /\ (key_insertion_may_create_fcurve flag = false ->
        get_count (run_result run) SUCCESS = 0
        \/ (forall ptr prop,
              RNA_path_resolve_property (RNA_id_pointer_create id) rna_path_
              = Some (ptr, prop) ->
              r_force_all (keyframe_nla id act ptr prop ai ctx flag) = false) ->
        length (curves act') = length (curves act)).
Proof.
  intros Hhas. cbv zeta.
  assert (Hsame : forall X,
             exists act',
               adt (run_id (mkInsertRun X id [] [])) ≫= action = Some act'
               /\ path_frame rna_path_ act act'
               /\ (length (curves act')
                   <= length (curves act)
                      + length (run_attempts (mkInsertRun X id [] [])))%nat
               /\ (key_insertion_may_create_fcurve flag = false ->
                   get_count X SUCCESS = 0
                   \/ (forall ptr prop,
                         RNA_path_resolve_property (RNA_id_pointer_create id)
                           rna_path_ = Some (ptr, prop) ->
                         r_force_all (keyframe_nla id act ptr prop ai ctx flag)
                         = false) ->
                   length (curves act') = length (curves act))).
  { intros X. exists act. cbn [run_id run_attempts length].
    split; [exact Hhas|]. split; [apply path_frame_refl|].
    split; [lia | reflexivity]. }
  destruct (BKE_id_is_editable id) eqn:Hed;
    [|unfold insert_keyframe; rewrite Hed; apply Hsame].
  destruct (RNA_path_resolve_property (RNA_id_pointer_create id) rna_path_)
    as [[ptr prop]|] eqn:Hres;
    [|unfold insert_keyframe; rewrite Hed, Hres; apply Hsame].
  destruct (id_can_have_animdata id) eqn:Hcan.
  - assert (Hact : id_action_ensure id = (Some act, id)).
    { unfold id_action_ensure, BKE_animdata_ensure_id. rewrite Hcan.
      destruct (adt id) as [a0|]; [|discriminate]. cbn in Hhas.
      now rewrite Hhas. }
    destruct (insert_keyframe_keyed id id group rna_path_ ai ctx keytype flag
                ptr prop act Hed Hres Hact) as (Hr & Ha & Hi & _).
    rewrite Hr, Ha, Hi.
    set (a := mkKeyArgs ptr prop group rna_path_ (keyframe_frame id act ctx)
                (keyframe_values id act ptr prop ai ctx flag) keytype).
    set (force := r_force_all (keyframe_nla id act ptr prop ai ctx flag)).
    set (remaps := keyframe_remaps id act ptr prop ai ctx flag).
    destruct (key_channels_counts a ai flag force remaps act)
      as (Hcount & _). cbv zeta in Hcount.
    destruct (key_channels_path_frame a ai flag force remaps
                (mkKeyState act CombinedKeyingResult_new 0 []))
      as (Hframe & Hgrow). cbn [ks_act ks_attempts length] in Hframe, Hgrow.
    destruct (id_action_ensure_adt id id act Hact) as [_ Hwrite].
    eexists. split; [apply Hwrite|]. split; [exact Hframe|]. split; [lia|].
    intros Hpolicy Hcase.
    apply (key_channels_policy_fixed a ai flag force remaps
             (mkKeyState act CombinedKeyingResult_new 0 []) Hpolicy).
    destruct Hcase as [H0|Hforce].
    + right. cbn [ks_key_count]. rewrite Hcount. exact H0.
    + left. exact (Hforce ptr prop eq_refl).
  - assert (Hact : id_action_ensure id = (None, id)).
    { unfold id_action_ensure, BKE_animdata_ensure_id. now rewrite Hcan. }
    unfold insert_keyframe. rewrite Hed, Hres, Hact. apply Hsame.
Qed.

Lemma legacy_loop_keeps (R : bAction -> bAction -> Prop) (ptr : PointerRNA)
    (prop : PropertyRNA) (group : option string) (rna_path_ : string)
    (frame : float) (flag key_type : Z) (mask : list bool) :
  (forall x, R x x) -> (forall x y z, R x y -> R y z -> R x z) ->
  (forall act i v,
     R act (snd (insert_keyframe_fcurve_value ptr prop act group rna_path_ i
                   frame v key_type flag))) ->
  forall values idx action_ cr,
    R action_
      (snd (insert_key_legacy_loop ptr prop group rna_path_ frame flag
              key_type mask values idx action_ cr)).
Proof.
  intros Hrefl Htrans Hstep.
  induction values as [|v rest IH]; intros idx action_ cr;
    cbn [insert_key_legacy_loop]; [apply Hrefl|].
  destruct (negb (bit_get mask idx)); [apply IH|].
  pose proof (Hstep action_ (Z.of_nat idx) v) as Hs.
  destruct (insert_keyframe_fcurve_value ptr prop action_ group rna_path_
              (Z.of_nat idx) frame v key_type flag) as [result action1].
  cbn [snd] in Hs. eapply Htrans; [exact Hs | apply IH].
Qed.

Lemma legacy_loop_growth (ptr : PointerRNA) (prop : PropertyRNA)
    (group : option string) (rna_path_ : string) (frame : float)
    (flag key_type : Z) (mask : list bool) :
  forall values idx action_ cr,
    (length (curves (snd (insert_key_legacy_loop ptr prop group rna_path_
                            frame flag key_type mask values idx action_ cr)))
     <= length (curves action_)
        + length (filter (fun i => bit_get mask i = true)
                    (seq idx (length values))))%nat.
Proof.
  induction values as [|v rest IH]; intros idx action_ cr;
    cbn [insert_key_legacy_loop length seq]; [cbn [snd]; lia|].
  destruct (bit_get mask idx) eqn:Hbit; cbn [negb].
  - rewrite filter_cons_True by exact Hbit. cbn [length].
    pose proof (fcurve_value_frame ptr prop action_ group rna_path_
                  (Z.of_nat idx) frame v key_type flag) as (Hlen & _).
    destruct (insert_keyframe_fcurve_value ptr prop action_ group rna_path_
                (Z.of_nat idx) frame v key_type flag) as [result action1].
    cbn [snd] in Hlen.
    specialize (IH (S idx) action1 (add1 cr result)). lia.
  - rewrite filter_cons_False by congruence. apply IH.
Qed.

(** X16. [insert_key_legacy_action], where it returns, leaves every curve
    of another path a curve of the Action, unchanged, and the Action a
    legacy Action with its name and frame range; it does not lower the
    number of curves, adds at most one curve per channel that the keying
    mask accepts, and none under the replace-only or available-only
    policy. *)
Theorem X16_insert_key_legacy_action_frame (action_ : bAction)
    (ptr : PointerRNA) (prop : PropertyRNA) (rna_path_ : string)
    (frame : float) (values : list float) (flag key_type : Z)
    (mask : list bool) (result : CombinedKeyingResult) (act' : bAction) :
  insert_key_legacy_action action_ ptr prop rna_path_ frame values flag
    key_type mask
  = Some (result, act') ->
  path_frame rna_path_ action_ act'
  /\ is_action_legacy act' = true
  /\ (length (curves act')
      <= length (curves action_)
         + length (filter (fun i => bit_get mask i = true)
                     (seq 0 (length values))))%nat
  /\ (key_insertion_may_create_fcurve flag = false ->
      length (curves act') = length (curves action_)).
Proof.
  unfold insert_key_legacy_action.
  destruct (is_action_legacy action_) eqn:Hlegacy; [|discriminate].
  cbn [negb]. intros [= Hout].
  assert (Hact : act'
                 = snd (insert_key_legacy_loop ptr prop
                          (default_channel_group_for_path ptr rna_path_)
                          rna_path_ frame flag key_type mask values 0 action_
                          CombinedKeyingResult_new))
    by now rewrite Hout.
  assert (Hframe : path_frame rna_path_ action_ act').
  { rewrite Hact. apply (legacy_loop_keeps (path_frame rna_path_)).
    - apply path_frame_refl.
    - apply path_frame_trans.
    - intros act i v. apply fcurve_value_path_frame. }
  split; [exact Hframe|]. split; [|split].
  - destruct Hframe as (_ & _ & Hhead). unfold is_action_legacy in *.
    unfold action_header in Hhead.
    assert (layer_array act' = layer_array action_) as -> by congruence.
    assert (binding_array act' = binding_array action_) as -> by congruence.
    exact Hlegacy.
  - rewrite Hact. apply legacy_loop_growth.
  - intros Hpolicy. rewrite Hact.
    apply (legacy_loop_keeps
             (fun x y => length (curves y) = length (curves x)));
      [reflexivity | intros x y z; lia|].
    intros act i v. apply fcurve_value_frame. now left.
Qed.

End FrameProperties.

(** ** The number of outcomes of a batch *)

Lemma filter_seq_single (P : nat -> Prop) `{forall j, Decision (P j)}
    (k n : nat) :
  (forall j, P j <-> j = k) ->
  filter P (seq 0 n) = if decide (k < n)%nat then [k] else [].
Proof.
  intros HP. destruct (decide (k < n)%nat) as [Hlt|Hge].
  - assert (Hsplit : seq 0 n = seq 0 k ++ k :: seq (S k) (n - S k)).
    { replace n with (k + S (n - S k))%nat at 1 by lia.
      rewrite seq_app. reflexivity. }
    rewrite Hsplit, filter_app, filter_cons.
    rewrite decide_True by now apply HP.
    rewrite !filter_none; [reflexivity| |];
      intros j Hj Hp; apply HP in Hp; apply elem_of_seq in Hj; lia.
  - apply filter_none. intros j Hj Hp. apply HP in Hp.
    apply elem_of_seq in Hj. lia.
Qed.

Lemma filter_all {A : Type} (P : A -> Prop) `{forall x, Decision (P x)}
    (l : list A) :
  (forall x, P x) -> filter P l = l.
Proof.
  intros HP. induction l as [|x l IH]; [reflexivity|].
  rewrite filter_cons_True by apply HP. now rewrite IH.
Qed.

Section BatchOutcomes.
Context `{E : Externals}.

Lemma legacy_action_total (action_ : bAction) (ptr : PointerRNA)
    (prop : PropertyRNA) (rna_path_ : string) (frame : float)
    (values : list float) (flag key_type : Z) (mask : list bool)
    (result : CombinedKeyingResult) (act' : bAction) :
  insert_key_legacy_action action_ ptr prop rna_path_ frame values flag
    key_type mask
  = Some (result, act') ->
  total_count result = Z.of_nat (length values).
Proof.
  unfold insert_key_legacy_action.
  destruct (negb (is_action_legacy action_)); [discriminate|].
  intros [= Hout].
  pose proof (insert_key_legacy_loop_spec ptr prop
                (default_channel_group_for_path ptr rna_path_) rna_path_
                frame flag key_type mask values 0 action_
                CombinedKeyingResult_new) as Hspec.
  cbv zeta in Hspec. destruct Hspec as (Htotal & _).
  rewrite Hout in Htotal. cbn [fst] in Htotal.
  now rewrite Htotal, total_count_new.
Qed.

Lemma legacy_paths_total (rna_pointer : PointerRNA)
    (nla_context : option NlaKeyframingContext) (nla_frame : float)
    (flags key_type : Z) (ctx : AnimationEvalContext)
    (rna_paths : list RNAPath) :
  forall (action_ act' : bAction) (cr cr' : CombinedKeyingResult),
    insert_key_rna_legacy_paths rna_pointer nla_context nla_frame
      (flag_test flags INSERTKEY_MATRIX) flags key_type ctx rna_paths action_
      cr
    = Some (act', cr') ->
    total_count cr'
    = total_count cr
      + sum_list (map (legacy_path_outcomes rna_pointer flags) rna_paths).
Proof.
  induction rna_paths as [|p rest IH]; intros action_ act' cr cr';
    cbn [insert_key_rna_legacy_paths map].
  - intros [= <- <-]. unfold sum_list. cbn [foldr]. lia.
  - change (p :: rest) with ([p] ++ rest).
    unfold sum_list. cbn [foldr]. fold (sum_list
      (map (legacy_path_outcomes rna_pointer flags) rest)).
    unfold legacy_path_outcomes at 1, path_values.
    destruct (RNA_path_resolve_property rna_pointer (path p))
      as [[ptr prop]|]; cbn [mbind option_bind].
    + destruct (RNA_path_from_ID_to_property ptr prop) as [id_to_prop|];
        [|discriminate]. cbn [mbind option_bind].
      destruct (insert_key_legacy_action _ _ _ _ _ _ _ _ _)
        as [[result action1]|] eqn:Hact; [|discriminate].
      cbn [mbind option_bind]. intros Hrest.
      apply IH in Hrest. rewrite Hrest, total_count_merge.
      apply legacy_action_total in Hact.
      rewrite Hact, span_write_length. lia.
    + intros Hrest. apply IH in Hrest. rewrite Hrest, total_count_add1. lia.
Qed.

(** X17. In its legacy branch (the layered Actions are not enabled, or
    the Action of the data-block is not a layered one), where
    [insert_key_rna] returns, the aggregate holds one outcome per value of
    every resolved path, also for a path that names one array index, and
    one outcome per unresolved path. *)
Theorem X17_insert_key_rna_legacy_outcomes (rna_pointer : PointerRNA)
    (id : ID) (rna_paths : list RNAPath) (scene_frame : float)
    (flags key_type : Z) (ctx : AnimationEvalContext) (run : BatchRun) :
  id_can_have_animdata id = true ->
  use_animation_baklava = false
  \/ (exists act,
        adt id ≫= action = Some act /\ is_action_layered act = false) ->
  insert_key_rna rna_pointer id rna_paths scene_frame flags key_type ctx
  = Some run ->
  total_count (batch_result run)
  = sum_list (map (legacy_path_outcomes rna_pointer flags) rna_paths).
Proof.
  intros Hcan Hlegacy. unfold insert_key_rna.
  destruct (BKE_animdata_ensure_id id) as [[a|] id1] eqn:Hensure.
  2:{ unfold BKE_animdata_ensure_id in Hensure. rewrite Hcan in Hensure.
      destruct (adt id); discriminate. }
  destruct (id_action_ensure id1) as [[action_|] id2] eqn:Hact;
    [|discriminate]. cbn [mbind option_bind].
  destruct (BKE_animdata_from_id id2) as [adt_|]; [|discriminate].
  cbn [mbind option_bind].
  assert (Hbranch : use_animation_baklava && is_action_layered action_ = false).
  { destruct Hlegacy as [->|(act & Hhas & Hnot)]; [reflexivity|].
    apply andb_false_iff. right.
    unfold BKE_animdata_ensure_id in Hensure. rewrite Hcan in Hensure.
    destruct (adt id) as [a0|] eqn:Hadt; [|discriminate].
    injection Hensure as <- <-. cbn in Hhas.
    unfold id_action_ensure, BKE_animdata_ensure_id in Hact.
    rewrite Hcan, Hadt, Hhas in Hact. injection Hact as <- <-. exact Hnot. }
  rewrite Hbranch.
  destruct (insert_key_rna_legacy_paths _ _ _ _ _ _ _ _ _ _)
    as [[act' cr']|] eqn:Hpaths; [|discriminate].
  cbn [mbind option_bind]. intros [= <-]. cbn [batch_result].
  apply legacy_paths_total in Hpaths. now rewrite Hpaths, total_count_new.
Qed.

Lemma layered_elements_total (layer : nat) (binding : Binding)
    (p : RNAPath) (id_to_prop : string) (rna_values : list float)
    (scene_frame : float) (key_settings : KeyframeSettings) (flags : Z)
    (indices : list nat) :
  forall (action_ act' : bAction) (cr cr' : CombinedKeyingResult),
    insert_key_layered_elements layer binding p id_to_prop rna_values
      scene_frame key_settings flags indices action_ cr
    = Some (act', cr') ->
    total_count cr'
    = total_count cr
      + Z.of_nat
          (length
             (filter (fun j => index p = None \/ index p = Some (Z.of_nat j))
                indices)).
Proof.
  induction indices as [|j rest IH]; intros action_ act' cr cr';
    cbn [insert_key_layered_elements].
  - intros [= <- <-]. rewrite filter_nil. cbn [length Z.of_nat]. lia.
  - destruct (bool_decide (is_Some (index p))
              && bool_decide (index p <> Some (Z.of_nat j))) eqn:Hskip.
    + apply andb_true_iff in Hskip as [Hsome Hne].
      apply bool_decide_eq_true in Hsome, Hne.
      rewrite filter_cons_False; [apply IH|].
      intros [Hnone|Heq]; [|contradiction].
      rewrite Hnone in Hsome. now destruct Hsome.
    + assert (Hkeep : index p = None \/ index p = Some (Z.of_nat j)).
      { apply andb_false_iff in Hskip as [Hs|Hs];
          apply bool_decide_eq_false in Hs.
        - left. destruct (index p); [exfalso; apply Hs; eauto | reflexivity].
        - right. destruct (decide (index p = Some (Z.of_nat j))); tauto. }
      rewrite filter_cons_True by exact Hkeep.
      destruct (layer_array action_ !! layer) as [the_layer|]; [|discriminate].
      cbn [mbind option_bind].
      destruct (insert_key_layer _ _ _ _ _ _ _) as [[result layer']|];
        [|discriminate]. cbn [mbind option_bind].
      intros Hrest. apply IH in Hrest. rewrite Hrest, total_count_add1.
      cbn [length]. lia.
Qed.

Lemma layered_paths_total (layer : nat) (binding : Binding)
    (rna_pointer : PointerRNA) (scene_frame : float)
    (key_settings : KeyframeSettings) (flags : Z) (rna_paths : list RNAPath) :
  forall st st',
    insert_key_layered_paths layer binding rna_pointer scene_frame
      key_settings flags rna_paths st
    = Some st' ->
    total_count (ls_result st')
    = total_count (ls_result st)
      + sum_list (map (layered_path_outcomes rna_pointer flags) rna_paths).
Proof.
  induction rna_paths as [|p rest IH]; intros st st';
    cbn [insert_key_layered_paths map].
  - intros [= <-]. unfold sum_list. cbn [foldr]. lia.
  - unfold sum_list. cbn [foldr]. fold (sum_list
      (map (layered_path_outcomes rna_pointer flags) rest)).
    unfold layered_path_outcomes at 1, path_values.
    destruct (RNA_path_resolve_property rna_pointer (path p))
      as [[ptr prop]|]; cbn [mbind option_bind].
    + destruct (RNA_path_from_ID_to_property ptr prop) as [id_to_prop|];
        [|discriminate]. cbn [mbind option_bind].
      destruct (insert_key_layered_elements _ _ _ _ _ _ _ _ _ _ _)
        as [[action1 cr1]|] eqn:Helem; [|discriminate].
      cbn [mbind option_bind]. intros Hrest.
      apply IH in Hrest. cbn [ls_result] in Hrest. rewrite Hrest.
      apply layered_elements_total in Helem. rewrite Helem.
      set (n := length (get_keyframe_values ptr prop
                          (flag_test flags INSERTKEY_MATRIX))).
      destruct (index p) as [i|].
      * destruct (Z.leb_spec 0 i) as [H0|H0];
          [destruct (Z.ltb_spec i (Z.of_nat n)) as [Hn|Hn]|]; cbn [andb].
        -- rewrite (filter_seq_single _ (Z.to_nat i) n)
             by (intros j; split; [intros [?|[= ->]]; [discriminate|lia]
                                  | intros ->; right; f_equal; lia]).
           rewrite decide_True by lia. cbn [length]. lia.
        -- rewrite filter_none; [cbn [length]; lia|].
           intros j Hj [?|[= ->]]; [discriminate|].
           apply elem_of_seq in Hj. lia.
        -- rewrite filter_none; [cbn [length]; lia|].
           intros j Hj [?|[= ->]]; [discriminate|]. lia.
      * rewrite filter_all by (intros; now left).
        rewrite length_seq. lia.
    + intros Hrest. apply IH in Hrest. cbn [ls_result] in Hrest.
      rewrite Hrest, total_count_add1. lia.
Qed.

(** X18. Where [insert_key_layered_action] returns, the aggregate holds
    one outcome per value of every resolved path without index, exactly
    one outcome for a path whose index is inside the values, no outcome at
    all for a path whose index is outside them, and one outcome per
    unresolved path. *)
Theorem X18_insert_key_layered_action_outcomes (action_ : bAction)
    (binding_handle_ : Z) (rna_pointer : PointerRNA) (id : ID)
    (rna_paths : list RNAPath) (scene_frame : float)
    (key_settings : KeyframeSettings) (flags : Z) (run : LayeredRun) :
  insert_key_layered_action action_ binding_handle_ rna_pointer id rna_paths
    scene_frame key_settings flags
  = Some run ->
  total_count (layered_result run)
  = sum_list (map (layered_path_outcomes rna_pointer flags) rna_paths).
Proof.
  unfold insert_key_layered_action.
  destruct (negb (is_action_layered action_)); [discriminate|].
  destruct (layered_binding_ensure action_ binding_handle_ id)
    as [[[action1 id1] binding]|]; [|discriminate]. cbn [mbind option_bind].
  destruct (get_layer_for_keyframing (layer_ensure_at_least_one action1))
    as [layer|]; [|discriminate]. cbn [mbind option_bind].
  destruct (insert_key_layered_paths _ _ _ _ _ _ _ _) as [st|] eqn:Hpaths;
    [|discriminate]. cbn [mbind option_bind].
  intros [= <-]. cbn [layered_result].
  apply layered_paths_total in Hpaths. cbn [ls_result] in Hpaths.
  now rewrite Hpaths, total_count_new.
Qed.

End BatchOutcomes.

(** ** Keying flags and channel groups *)

(** X19. The flags that [get_keyframing_flags] builds hold the matrix, the
    cycle-aware and the needed bit exactly when the corresponding keying
    flag is on in the scene's tool settings or in the user preferences
    (without a scene: in the user preferences), and no other policy bit:
    never replace-only or available-only, so insertion under these flags
    may always create curves, and never the bit that turns the user
    preferences off. *)
Theorem X19_get_keyframing_flags_bits (VISUALKEY CYCLEAWARE INSERTNEEDED : Z)
    (U_keying_flag : Z) (scene : option Scene) :
  let flags :=
    get_keyframing_flags VISUALKEY CYCLEAWARE INSERTNEEDED U_keying_flag scene in
  flag_test flags INSERTKEY_MATRIX = is_keying_flag U_keying_flag scene VISUALKEY
  /\ flag_test flags INSERTKEY_CYCLE_AWARE
     = is_keying_flag U_keying_flag scene CYCLEAWARE
  /\ flag_test flags INSERTKEY_NEEDED
     = is_keying_flag U_keying_flag scene INSERTNEEDED
  /\ flag_test flags INSERTKEY_REPLACE = false
  /\ flag_test flags INSERTKEY_AVAILABLE = false
  /\ flag_test flags INSERTKEY_NO_USERPREF = false
  /\ key_insertion_may_create_fcurve flags = true
  /\ (forall flag,
        flag_test U_keying_flag flag = true ->
        is_keying_flag U_keying_flag scene flag = true).
Proof.
  cbv zeta. unfold get_keyframing_flags.
  destruct (is_keying_flag U_keying_flag scene VISUALKEY),
    (is_keying_flag U_keying_flag scene CYCLEAWARE),
    (is_keying_flag U_keying_flag scene INSERTNEEDED);
    (repeat split; try reflexivity);
    intros flag Hflag; unfold is_keying_flag; destruct scene;
    rewrite Hflag; now rewrite ?orb_true_r.
Qed.

Lemma prefix_app (w post : string) : String.prefix w (w +:+ post) = true.
Proof.
  induction w as [|c w IH].
  - change (EmptyString +:+ post) with post. destruct post; reflexivity.
  - change (String c w +:+ post) with (String c (w +:+ post)).
    cbn [String.prefix]. destruct (ascii_dec c c); [exact IH | congruence].
Qed.

Lemma prefix_split (w s : string) :
  String.prefix w s = true -> exists post, s = w +:+ post.
Proof.
  revert s. induction w as [|c w IH]; intros s Hp.
  - exists s. reflexivity.
  - destruct s as [|b s]; [discriminate|]. cbn [String.prefix] in Hp.
    destruct (ascii_dec c b) as [->|]; [|discriminate].
    destruct (IH s Hp) as [post ->]. exists post. reflexivity.
Qed.

(** [StringRef::find] succeeds exactly on the strings that contain the
    word. *)
Lemma index_occurs (w s : string) :
  is_Some (String.index 0 w s) <-> exists pre post, s = pre +:+ w +:+ post.
Proof.
  split.
  - revert w. induction s as [|c s IH]; intros w [n Hn].
    + destruct w; [|discriminate]. exists EmptyString, EmptyString.
      reflexivity.
    + cbn [String.index] in Hn.
      destruct (String.prefix w (String c s)) eqn:Hp.
      * destruct (prefix_split _ _ Hp) as [post ->].
        exists EmptyString, post. reflexivity.
      * destruct (String.index 0 w s) as [k|] eqn:Hk; [|discriminate].
        destruct (IH w ltac:(eauto)) as (pre & post & ->).
        exists (String c pre), post. reflexivity.
  - intros (pre & post & ->). induction pre as [|c pre IH].
    + change (EmptyString +:+ w +:+ post) with (w +:+ post).
      pose proof (prefix_app w post) as Hp.
      destruct (w +:+ post) as [|b s2] eqn:Hs.
      * destruct w; [eexists; reflexivity | discriminate].
      * cbn [String.index]. rewrite Hp. eexists; reflexivity.
    + change (String c pre +:+ w +:+ post)
        with (String c (pre +:+ w +:+ post)).
      cbn [String.index].
      destruct (String.prefix w (String c (pre +:+ w +:+ post)));
        [eexists; reflexivity|].
      destruct IH as [n Hn]. rewrite Hn. eexists; reflexivity.
Qed.

(** X20. [default_channel_group_for_path] gives a pose bone the name of
    its pose channel whatever the path; an object gets the group "Object
    Transforms" exactly when the path contains "location", "rotation" or
    "scale" anywhere (so also for "delta_location" or
    "rotation_quaternion") and no group otherwise; every other struct
    gets no group. *)
Theorem X20_default_channel_group_for_path (ptr : PointerRNA)
    (prop_rna_path : string) :
  (ptr_type ptr = RNA_PoseBone ->
   default_channel_group_for_path ptr prop_rna_path = ptr_data ptr)
  /\ (ptr_type ptr = RNA_Object ->
      (default_channel_group_for_path ptr prop_rna_path
       = Some "Object Transforms"
       <-> exists word pre post,
             word ∈ ["location"; "rotation"; "scale"]
             /\ prop_rna_path = pre +:+ word +:+ post)
      /\ (default_channel_group_for_path ptr prop_rna_path
          = Some "Object Transforms"
          \/ default_channel_group_for_path ptr prop_rna_path = None))
  /\ (ptr_type ptr = RNA_OtherStruct ->
      default_channel_group_for_path ptr prop_rna_path = None).
Proof.
  unfold default_channel_group_for_path. split; [|split].
  - intros ->. reflexivity.
  - intros ->. cbn [bool_decide decide_rel andb].
    rewrite bool_decide_eq_false_2 by discriminate.
    rewrite bool_decide_eq_true_2 by reflexivity. cbn [andb].
    split.
    + split.
      * intros Hsome.
        destruct (bool_decide (is_Some (String.index 0 "location" prop_rna_path)))
          eqn:Hl;
          [|destruct (bool_decide (is_Some (String.index 0 "rotation" prop_rna_path)))
              eqn:Hr;
            [|destruct (bool_decide (is_Some (String.index 0 "scale" prop_rna_path)))
                eqn:Hs; [|discriminate]]].
        -- apply bool_decide_eq_true, index_occurs in Hl as (pre & post & ->).
           exists "location", pre, post. split; [repeat constructor | reflexivity].
        -- apply bool_decide_eq_true, index_occurs in Hr as (pre & post & ->).
           exists "rotation", pre, post. split; [repeat constructor | reflexivity].
        -- apply bool_decide_eq_true, index_occurs in Hs as (pre & post & ->).
           exists "scale", pre, post. split; [repeat constructor | reflexivity].
      * intros (word & pre & post & Hword & ->).
        assert (Hocc : is_Some (String.index 0 word (pre +:+ word +:+ post)))
          by (apply index_occurs; eauto).
        apply (bool_decide_eq_true_2 _) in Hocc.
        repeat (apply elem_of_cons in Hword as [->|Hword]);
          [| | |inversion Hword]; rewrite Hocc;
          now rewrite ?orb_true_r.
    + destruct (_ || _); [left | right]; reflexivity.
  - intros ->. reflexivity.
Qed.

(** ** Keyframe deletion *)


Lemma set_adt_same (id : ID) (adt_ : AnimData) :
  BKE_animdata_from_id id = Some adt_ -> set_adt id (Some adt_) = id.
Proof.
  unfold BKE_animdata_from_id, set_adt. destruct id as [n s c a]. cbn.
  destruct c; [|discriminate]. now intros ->.
Qed.

Section DeletionProperties.
Context `{E : Externals} `{D : DeletionExternals}.


Lemma clear_loop_account (id : ID) (rna_path_ : string) (indices : list Z) :
  forall (reports : ReportList) (adt_ : AnimData) (act : bAction) (kc : Z),
    let out := clear_keyframe_loop id rna_path_ indices reports adt_ act kc in
    exists ws,
      fst (fst (fst out)) = reports ++ ws
      /\ Forall (fun r => report_type r = RPT_WARNING) ws
      /\ kc <= snd out
      /\ snd out - kc + Z.of_nat (length ws) <= Z.of_nat (length indices)
      /\ (snd out = kc -> snd (fst (fst out)) = adt_ /\ snd (fst out) = act).
Proof.
  induction indices as [|i rest IH]; intros reports adt_ act kc;
    cbn [clear_keyframe_loop].
  - exists []. cbn. rewrite app_nil_r.
    repeat split; [constructor | lia | lia].
  - destruct (action_fcurve_find act rna_path_ i) as [[pos fcu]|].
    + destruct (BKE_fcurve_is_protected fcu).
      * destruct (IH (BKE_report reports RPT_WARNING
                        ("Not clearing all keyframes from locked F-Curve '" +:+
                         rna_path fcu +:+ "' for " +:+
                         BKE_idtype_idcode_to_name id +:+ " '" +:+
                         string_skip 2 (id_name id) +:+ "'")) adt_ act kc)
          as (ws & Hrep & Hwarn & Hle & Hlen & Hsame).
        eexists (_ :: ws). cbv zeta. rewrite Hrep. unfold BKE_report in *.
        rewrite <- app_assoc. split; [reflexivity|].
        split; [constructor; [reflexivity | exact Hwarn]|].
        split; [exact Hle|]. split; [cbn [length]; lia | exact Hsame].
      * destruct (animdata_fcurve_delete adt_ act pos) as [adt1 act1].
        destruct (IH reports adt1 act1 (kc + 1))
          as (ws & Hrep & Hwarn & Hle & Hlen & _).
        exists ws. cbv zeta. split; [exact Hrep|]. split; [exact Hwarn|].
        split; [lia|]. split; [cbn [length]; lia|]. intros Heq. lia.
    + destruct (IH reports adt_ act kc)
        as (ws & Hrep & Hwarn & Hle & Hlen & Hsame).
      exists ws. cbv zeta. split; [exact Hrep|]. split; [exact Hwarn|].
      split; [exact Hle|]. split; [cbn [length]; lia | exact Hsame].
Qed.





(** X21. [delete_keyframe] and [clear_keyframe] return 0, add exactly one
    error report, make no call to the dependency graph and leave the
    data-block and the Action alone in each of their three failure modes:
    no data-block or no animation data, a path that does not resolve, and
    no Action given while none is assigned. *)
Theorem X21_delete_and_clear_failures (reports : ReportList)
    (id : option ID) (act : option bAction) (rna_path_ : string) (ai : Z)
    (cfra : float) :
  id ≫= BKE_animdata_from_id = None
  \/ (exists id_,
        id = Some id_
        /\ RNA_path_resolve_property (RNA_id_pointer_create id_) rna_path_
           = None)
  \/ (act = None /\ (id ≫= BKE_animdata_from_id) ≫= action = None) ->
  Forall (fun run =>
            delete_return run = 0
            /\ (exists text,
                  delete_reports run = reports ++ [mkReport RPT_ERROR text])
            /\ delete_calls run = []
            /\ delete_id run = id
            /\ delete_act run = act)
    [delete_keyframe reports id act rna_path_ ai cfra;
     clear_keyframe reports id act rna_path_ ai].
Proof.
  intros Hfail.
  assert (Herror : forall text,
             let run :=
               mkDeleteRun 0 (BKE_report reports RPT_ERROR text) [] id act in
             delete_return run = 0
             /\ (exists text',
                   delete_reports run = reports ++ [mkReport RPT_ERROR text'])
             /\ delete_calls run = []
             /\ delete_id run = id
             /\ delete_act run = act).
  { intros text. cbn. repeat split. eexists. reflexivity. }
  constructor; [|constructor; [|constructor]].
  - unfold delete_keyframe.
    destruct id as [id_|]; [|apply Herror]. cbn [mbind option_bind] in *.
    destruct (BKE_animdata_from_id id_) as [adt_|] eqn:Hadt; [|apply Herror].
    destruct (RNA_path_resolve_property (RNA_id_pointer_create id_) rna_path_)
      as [[ptr prop]|] eqn:Hres; [|apply Herror].
    destruct Hfail as [Hc|[(id' & [= <-] & Hc)|[-> Hc]]];
      [discriminate | congruence |].
    cbn [mbind option_bind] in Hc. rewrite Hc. apply Herror.
  - unfold clear_keyframe.
    destruct id as [id_|]; [|apply Herror]. cbn [mbind option_bind] in *.
    destruct (BKE_animdata_from_id id_) as [adt_|] eqn:Hadt; [|apply Herror].
    destruct (RNA_path_resolve_property (RNA_id_pointer_create id_) rna_path_)
      as [[ptr prop]|] eqn:Hres; [|apply Herror].
    destruct Hfail as [Hc|[(id' & [= <-] & Hc)|[-> Hc]]];
      [discriminate | congruence |].
    cbn [mbind option_bind] in Hc. rewrite Hc. apply Herror.
Qed.


Lemma delete_loop_locked (id : ID) (rna_path_ : string) (cfra : float)
    (indices : list Z) (adt_ : AnimData) (act : bAction) (kc : Z) :
  Forall (fun fcu => rna_path fcu = rna_path_ ->
                     BKE_fcurve_is_protected fcu = true) (curves act) ->
  forall reports,
    exists ws,
      delete_keyframe_loop id rna_path_ cfra indices reports adt_ act kc
      = (reports ++ ws, adt_, act, kc)
      /\ Forall (fun r => report_type r = RPT_WARNING) ws
      /\ length ws
         = length (filter (fun i => is_Some (action_fcurve_find act rna_path_ i))
                     indices).
Proof.
  intros Hlocked. induction indices as [|i rest IH]; intros reports;
    cbn [delete_keyframe_loop].
  - exists []. rewrite app_nil_r. repeat split. constructor.
  - destruct (action_fcurve_find act rna_path_ i) as [[pos fcu]|] eqn:Hfind.
    + rewrite filter_cons_True by eauto.
      apply list_find_Some in Hfind as (Hpos & [Hpath _] & _).
      rewrite Forall_forall in Hlocked.
      rewrite (Hlocked fcu (list_elem_of_lookup_2 _ _ _ Hpos) Hpath).
      destruct (IH (BKE_report reports RPT_WARNING
                      ("Not deleting keyframe for locked F-Curve '" +:+
                       rna_path fcu +:+ "' for " +:+
                       BKE_idtype_idcode_to_name id +:+ " '" +:+
                       string_skip 2 (id_name id) +:+ "'")))
        as (ws & Hloop & Hwarn & Hlen).
      eexists (_ :: ws). rewrite Hloop. unfold BKE_report.
      rewrite <- app_assoc. split; [reflexivity|].
      split; [constructor; [reflexivity | exact Hwarn]|].
      cbn [length]. now rewrite Hlen.
    + rewrite filter_cons_False by (intros [x Hx]; congruence). apply IH.
Qed.

Lemma clear_loop_locked (id : ID) (rna_path_ : string) (indices : list Z)
    (adt_ : AnimData) (act : bAction) (kc : Z) :
  Forall (fun fcu => rna_path fcu = rna_path_ ->
                     BKE_fcurve_is_protected fcu = true) (curves act) ->
  forall reports,
    exists ws,
      clear_keyframe_loop id rna_path_ indices reports adt_ act kc
      = (reports ++ ws, adt_, act, kc)
      /\ Forall (fun r => report_type r = RPT_WARNING) ws
      /\ length ws
         = length (filter (fun i => is_Some (action_fcurve_find act rna_path_ i))
                     indices).
Proof.
  intros Hlocked. induction indices as [|i rest IH]; intros reports;
    cbn [clear_keyframe_loop].
  - exists []. rewrite app_nil_r. repeat split. constructor.
  - destruct (action_fcurve_find act rna_path_ i) as [[pos fcu]|] eqn:Hfind.
    + rewrite filter_cons_True by eauto.
      apply list_find_Some in Hfind as (Hpos & [Hpath _] & _).
      rewrite Forall_forall in Hlocked.
      rewrite (Hlocked fcu (list_elem_of_lookup_2 _ _ _ Hpos) Hpath).
      destruct (IH (BKE_report reports RPT_WARNING
                      ("Not clearing all keyframes from locked F-Curve '" +:+
                       rna_path fcu +:+ "' for " +:+
                       BKE_idtype_idcode_to_name id +:+ " '" +:+
                       string_skip 2 (id_name id) +:+ "'")))
        as (ws & Hloop & Hwarn & Hlen).
      eexists (_ :: ws). rewrite Hloop. unfold BKE_report.
      rewrite <- app_assoc. split; [reflexivity|].
      split; [constructor; [reflexivity | exact Hwarn]|].
      cbn [length]. now rewrite Hlen.
    + rewrite filter_cons_False by (intros [x Hx]; congruence). apply IH.
Qed.

(** X23. When every curve of the path in the Action is locked,
    [delete_keyframe] and [clear_keyframe] delete nothing: they return 0,
    make no call to the dependency graph, leave the data-block and the
    Action as they were, and add one warning for each array index of the
    range that has a curve. *)
Theorem X23_locked_curves_are_not_deleted (reports : ReportList) (id_ : ID)
    (adt_ : AnimData) (act : option bAction) (a : bAction)
    (rna_path_ : string) (ai : Z) (cfra : float) (ptr : PointerRNA)
    (prop : PropertyRNA) :
  BKE_animdata_from_id id_ = Some adt_ ->
  RNA_path_resolve_property (RNA_id_pointer_create id_) rna_path_
  = Some (ptr, prop) ->
  act = Some a \/ (act = None /\ action adt_ = Some a) ->
  Forall (fun fcu => rna_path fcu = rna_path_ ->
                     BKE_fcurve_is_protected fcu = true) (curves a) ->
  Forall (fun run =>
            delete_return run = 0
            /\ delete_calls run = []
            /\ delete_id run = Some id_
            /\ delete_act run = Some a
            /\ exists ws,
                 delete_reports run = reports ++ ws
                 /\ Forall (fun r => report_type r = RPT_WARNING) ws
                 /\ length ws
                    = length
                        (filter
                           (fun i => is_Some (action_fcurve_find a rna_path_ i))
                           (index_range
                              (fst (delete_index_bounds ptr prop ai))
                              (snd (delete_index_bounds ptr prop ai)))))
    [delete_keyframe reports (Some id_) act rna_path_ ai cfra;
     clear_keyframe reports (Some id_) act rna_path_ ai].
Proof.
  intros Hadt Hres Hact Hlocked.
  constructor; [|constructor; [|constructor]].
  - unfold delete_keyframe. cbn [mbind option_bind]. rewrite Hadt, Hres.
    assert (Hresolved :
              exists cfra',
                match act with
                | Some act0 => Some (act0, cfra)
                | None =>
                    match action adt_ with
                    | Some adt_action =>
                        Some (adt_action, BKE_nla_tweakedit_remap adt_ cfra)
                    | None => None
                    end
                end = Some (a, cfra')).
    { destruct Hact as [->|[-> ->]]; eexists; reflexivity. }
    destruct Hresolved as [cfra' ->].
    destruct (delete_index_bounds ptr prop ai) as [lo hi]. cbn [fst snd].
    destruct (delete_loop_locked id_ rna_path_ cfra' (index_range lo hi) adt_
                a 0 Hlocked reports) as (ws & -> & Hwarn & Hlen).
    cbn. rewrite (set_adt_same id_ adt_ Hadt). repeat split.
    exists ws. repeat split; assumption.
  - unfold clear_keyframe. cbn [mbind option_bind]. rewrite Hadt, Hres.
    assert (Hresolved :
              match act with
              | Some act0 => Some act0
              | None => action adt_
              end = Some a).
    { destruct Hact as [->|[-> ->]]; reflexivity. }
    rewrite Hresolved.
    destruct (delete_index_bounds ptr prop ai) as [lo hi]. cbn [fst snd].
    destruct (clear_loop_locked id_ rna_path_ (index_range lo hi) adt_
                a 0 Hlocked reports) as (ws & -> & Hwarn & Hlen).
    cbn. rewrite (set_adt_same id_ adt_ Hadt). repeat split.
    exists ws. repeat split; assumption.
Qed.

(** X24. For a property that is a single value (array length 0) or an
    array of one element, the array index -1 ("all elements") makes
    [delete_keyframe] and [clear_keyframe] visit index 0 exactly: the run
    is the run for index 0. *)
Theorem X24_all_elements_of_a_single_value (reports : ReportList)
    (id : option ID) (act : option bAction) (rna_path_ : string)
    (cfra : float) :
  (forall id_ ptr prop,
     id = Some id_ ->
     RNA_path_resolve_property (RNA_id_pointer_create id_) rna_path_
     = Some (ptr, prop) ->
     RNA_property_array_length ptr prop = 0
     \/ RNA_property_array_length ptr prop = 1) ->
  delete_keyframe reports id act rna_path_ (-1) cfra
  = delete_keyframe reports id act rna_path_ 0 cfra
  /\ clear_keyframe reports id act rna_path_ (-1)
     = clear_keyframe reports id act rna_path_ 0.
Proof.
  intros Hsingle.
  assert (Hbounds : forall id_ ptr prop,
             id = Some id_ ->
             RNA_path_resolve_property (RNA_id_pointer_create id_) rna_path_
             = Some (ptr, prop) ->
             delete_index_bounds ptr prop (-1) = delete_index_bounds ptr prop 0).
  { intros id_ ptr prop Hid Hres. unfold delete_index_bounds. cbn.
    destruct (Hsingle id_ ptr prop Hid Hres) as [->| ->]; reflexivity. }
  unfold delete_keyframe, clear_keyframe.
  destruct id as [id_|]; [|split; reflexivity]. cbn [mbind option_bind].
  destruct (BKE_animdata_from_id id_) as [adt_|]; [|split; reflexivity].
  destruct (RNA_path_resolve_property (RNA_id_pointer_create id_) rna_path_)
    as [[ptr prop]|] eqn:Hres; [|split; reflexivity].
  rewrite (Hbounds id_ ptr prop eq_refl Hres). split; reflexivity.
Qed.

(** X25. A run of [clear_keyframe] that returns 0 has changed nothing: the
    data-block is as it was, and the Action behind [act] (the given one,
    or the assigned one when none is given) is as it was. *)
Theorem X25_clear_keyframe_zero_changes_nothing (reports : ReportList)
    (id : option ID) (act : option bAction) (rna_path_ : string) (ai : Z) :
  delete_return (clear_keyframe reports id act rna_path_ ai) = 0 ->
  delete_id (clear_keyframe reports id act rna_path_ ai) = id
  /\ delete_calls (clear_keyframe reports id act rna_path_ ai) = []
  /\ (delete_act (clear_keyframe reports id act rna_path_ ai) = act
      \/ (act = None
          /\ delete_act (clear_keyframe reports id act rna_path_ ai)
             = (id ≫= BKE_animdata_from_id) ≫= action)).
Proof.
  unfold clear_keyframe.
  destruct id as [id_|]; [|intros _; cbn; tauto]. cbn [mbind option_bind].
  destruct (BKE_animdata_from_id id_) as [adt_|] eqn:Hadt;
    [|intros _; cbn; tauto].
  destruct (RNA_path_resolve_property (RNA_id_pointer_create id_) rna_path_)
    as [[ptr prop]|]; [|intros _; cbn; tauto].
  destruct (match act with
            | Some act0 => Some act0
            | None => action adt_
            end) as [act_|] eqn:Hresolved; [|intros _; cbn; tauto].
  destruct (delete_index_bounds ptr prop ai) as [lo hi].
  destruct (clear_loop_account id_ rna_path_ (index_range lo hi) reports adt_
              act_ 0) as (ws & _ & _ & _ & _ & Hsame).
  destruct (clear_keyframe_loop id_ rna_path_ (index_range lo hi) reports adt_
              act_ 0) as [[[reports' adt'] act'] kc].
  cbn [fst snd] in Hsame. cbn [delete_return delete_id delete_calls delete_act].
  intros ->. destruct (Hsame eq_refl) as [-> ->].
  rewrite (set_adt_same id_ adt_ Hadt). cbn [Z.eqb negb].
  split; [reflexivity|]. split; [reflexivity|].
  destruct act as [a0|]; [left; congruence|]. right. split; [reflexivity|].
  symmetry. exact Hresolved.
Qed.

End DeletionProperties.

(** ** Failure modes of the orchestrators *)

Section FailureModes.
Context `{E : Externals}.

(** X26. The three early returns of [insert_keyframe] come in a fixed
    order and each returns exactly one outcome, without attempt or event
    and with the data-block untouched: a data-block that is not editable
    gives [ID_NOT_EDITABLE] whatever the path; an editable one with a path
    that does not resolve gives [CANNOT_RESOLVE_PATH] and gets no
    animation data; one that cannot carry animation data gives
    [ID_NOT_ANIMATABLE]. Past them the data-block always ends with an
    Action assigned, also when not a single key was written. *)
Theorem X26_insert_keyframe_failure_modes (id : ID) (group : option string)
    (rna_path_ : string) (ai : Z) (ctx : AnimationEvalContext)
    (keytype flag : Z) :
  let run := insert_keyframe id group rna_path_ ai ctx keytype flag in
  let single X := mkInsertRun (add1 CombinedKeyingResult_new X) id [] [] in
  let resolved :=
    RNA_path_resolve_property (RNA_id_pointer_create id) rna_path_ in
  (BKE_id_is_editable id = false -> run = single ID_NOT_EDITABLE)
  /\ (BKE_id_is_editable id = true -> resolved = None ->
      run = single CANNOT_RESOLVE_PATH)
  /\ (BKE_id_is_editable id = true -> is_Some resolved ->
      id_can_have_animdata id = false ->
      run = single ID_NOT_ANIMATABLE)
  /\ (BKE_id_is_editable id = true -> is_Some resolved ->
      id_can_have_animdata id = true ->
      exists act', adt (run_id run) ≫= action = Some act').
Proof.
  cbv zeta. split; [|split; [|split]].
  - intros Hed. unfold insert_keyframe. now rewrite Hed.
  - intros Hed Hres. unfold insert_keyframe. now rewrite Hed, Hres.
  - intros Hed [[ptr prop] Hres] Hcan. unfold insert_keyframe.
    rewrite Hed, Hres. cbn [negb].
    unfold id_action_ensure, BKE_animdata_ensure_id. now rewrite Hcan.
  - intros Hed [[ptr prop] Hres] Hcan.
    destruct (id_action_ensure id) as [[act|] id'] eqn:Hact.
    + destruct (insert_keyframe_keyed id id' group rna_path_ ai ctx keytype
                  flag ptr prop act Hed Hres Hact) as (_ & _ & Hi & _).
      rewrite Hi. eexists. apply (id_action_ensure_adt id id' act Hact).
    + exfalso. unfold id_action_ensure, BKE_animdata_ensure_id in Hact.
      rewrite Hcan in Hact.
      destruct (adt id) as [a|]; [destruct (action a)|]; discriminate.
Qed.

(** X27. For a data-block that cannot carry animation data [insert_key_rna]
    returns exactly one [ID_NOT_ANIMATABLE] outcome, whatever the number of
    paths, emits no event and leaves the data-block untouched. *)
Theorem X27_insert_key_rna_not_animatable (rna_pointer : PointerRNA)
    (id : ID) (rna_paths : list RNAPath) (scene_frame : float)
    (flags key_type : Z) (ctx : AnimationEvalContext) :
  id_can_have_animdata id = false ->
  insert_key_rna rna_pointer id rna_paths scene_frame flags key_type ctx
  = Some (mkBatchRun (add1 CombinedKeyingResult_new ID_NOT_ANIMATABLE) id [])
  /\ total_count (add1 CombinedKeyingResult_new ID_NOT_ANIMATABLE) = 1.
Proof.
  intros Hcan. split; [|reflexivity].
  unfold insert_key_rna, BKE_animdata_ensure_id. now rewrite Hcan.
Qed.

End FailureModes.

(** ** Instances of the further properties *)


(** A cycle-aware insertion at frame 23 on a curve whose cycle accumulates
    an offset: the cycle is not perfect. *)
Lemma X10_cycle_aware_fallback_witness :
  let fcu :=
    example_curve [example_point (float_of_Z 0) (float_of_Z 0); example_point
        (float_of_Z 10) (float_of_Z 5)]
      [cycles_modifier FCM_EXTRAPOLATE_CYCLIC FCM_EXTRAPOLATE_CYCLIC_OFFSET] in
  insert_keyframe_value (E := simple_externals false) fcu (float_of_Z 23)
      (float_of_Z 1) 0
    INSERTKEY_CYCLE_AWARE
  = insert_keyframe_value (E := simple_externals false) fcu
      (remap_time
         (remap_cyclic_keyframe_location (E := simple_externals false) fcu
            (float_of_Z 23) (float_of_Z 1)))
      (remap_value
         (remap_cyclic_keyframe_location (E := simple_externals false) fcu
            (float_of_Z 23) (float_of_Z 1)))
      0 (flag_clear INSERTKEY_CYCLE_AWARE INSERTKEY_CYCLE_AWARE).
Proof.
  exact (proj2 (proj2
    (@X10_cycle_aware_fallback (simple_externals false)
       (example_curve [example_point (float_of_Z 0) (float_of_Z 0);
           example_point (float_of_Z 10) (float_of_Z 5)]
          [cycles_modifier FCM_EXTRAPOLATE_CYCLIC
             FCM_EXTRAPOLATE_CYCLIC_OFFSET])
       (float_of_Z 23) (float_of_Z 1) 0 INSERTKEY_CYCLE_AWARE eq_refl eq_refl
       ltac:(vm_compute; discriminate)))).
Defined.


(** Keying "scale" of "Cube", whose Action holds the curve "location[1]":
    that curve stays. *)
Lemma X15_insert_keyframe_keeps_other_paths_witness :
  exists act',
    adt (run_id (insert_keyframe (E := simple_externals false) example_id None
                   "scale" (-1) example_context 0 0))
    ≫= action = Some act'
    /\ path_frame "scale" example_action act'.
Proof.
  destruct (@X15_insert_keyframe_keeps_other_paths (simple_externals false)
              example_id None "scale" (-1) example_context 0 0 example_action
              eq_refl) as (act' & Hact & Hframe & _).
  exists act'. split; assumption.
Defined.

(** The three values of "scale" written to the legacy Action of "Cube". *)
Lemma X16_insert_key_legacy_action_frame_witness :
  exists result act',
    insert_key_legacy_action (E := simple_externals false) example_action
      example_pointer (mkPropertyRNA "scale" "scale" PROP_FLOAT) "scale"
          (float_of_Z 1)
      [float_of_Z 1; float_of_Z 2; float_of_Z 3] 0 0 [true; true; true]
    = Some (result, act')
    /\ path_frame "scale" example_action act'
    /\ is_action_legacy act' = true.
Proof.
  destruct (insert_key_legacy_action (E := simple_externals false)
              example_action example_pointer
              (mkPropertyRNA "scale" "scale" PROP_FLOAT) "scale" (float_of_Z 1)
              [float_of_Z 1; float_of_Z 2; float_of_Z 3] 0 0 [true; true; true])
    as [[result act']|] eqn:Hrun; [|vm_compute in Hrun; discriminate].
  exists result, act'. split; [reflexivity|].
  destruct (@X16_insert_key_legacy_action_frame (simple_externals false)
              example_action example_pointer
              (mkPropertyRNA "scale" "scale" PROP_FLOAT) "scale" (float_of_Z 1)
              [float_of_Z 1; float_of_Z 2; float_of_Z 3] 0 0 [true; true; true]
                  result act' Hrun)
    as (Hframe & Hlegacy & _).
  split; assumption.
Defined.

(** A legacy batch on "Cube": "location", and element 1 of "scale". *)
Lemma X17_insert_key_rna_legacy_outcomes_witness :
  exists run,
    insert_key_rna (E := simple_externals false) example_pointer example_id
      [mkRNAPath "location" None; mkRNAPath "scale" (Some 1)] (float_of_Z 1) 0 0
      example_context
    = Some run
    /\ total_count (batch_result run)
       = sum_list
           (map (legacy_path_outcomes (E := simple_externals false)
                   example_pointer 0)
              [mkRNAPath "location" None; mkRNAPath "scale" (Some 1)]).
Proof.
  destruct (insert_key_rna (E := simple_externals false) example_pointer
              example_id
              [mkRNAPath "location" None; mkRNAPath "scale" (Some 1)]
                  (float_of_Z 1) 0 0
              example_context)
    as [run|] eqn:Hrun; [|vm_compute in Hrun; discriminate].
  exists run. split; [reflexivity|].
  exact (@X17_insert_key_rna_legacy_outcomes (simple_externals false)
           example_pointer example_id
           [mkRNAPath "location" None; mkRNAPath "scale" (Some 1)]
               (float_of_Z 1) 0 0
           example_context run eq_refl
           (or_intror (ex_intro _ example_action (conj eq_refl eq_refl)))
           Hrun).
Defined.

(** A layered batch on the empty Action of "Cube": "location", and element
    1 of "scale". *)
Lemma X18_insert_key_layered_action_outcomes_witness :
  exists run,
    insert_key_layered_action (E := simple_externals false)
      example_empty_action 0 example_pointer example_layered_id
      [mkRNAPath "location" None; mkRNAPath "scale" (Some 1)] (float_of_Z 1)
      example_settings 0
    = Some run
    /\ total_count (layered_result run)
       = sum_list
           (map (layered_path_outcomes (E := simple_externals false)
                   example_pointer 0)
              [mkRNAPath "location" None; mkRNAPath "scale" (Some 1)]).
Proof.
  destruct (insert_key_layered_action (E := simple_externals false)
              example_empty_action 0 example_pointer example_layered_id
              [mkRNAPath "location" None; mkRNAPath "scale" (Some 1)]
                  (float_of_Z 1)
              example_settings 0)
    as [run|] eqn:Hrun; [|vm_compute in Hrun; discriminate].
  exists run. split; [reflexivity|].
  exact (@X18_insert_key_layered_action_outcomes (simple_externals false)
           example_empty_action 0 example_pointer example_layered_id
           [mkRNAPath "location" None; mkRNAPath "scale" (Some 1)]
               (float_of_Z 1)
           example_settings 0 run Hrun).
Defined.

(** Deleting without a data-block. *)
Lemma X21_delete_and_clear_failures_witness :
  Forall (fun run =>
            delete_return run = 0
            /\ (exists text,
                  delete_reports run = [] ++ [mkReport RPT_ERROR text])
            /\ delete_calls run = []
            /\ delete_id run = None
            /\ delete_act run = None)
    [delete_keyframe (E := simple_externals false) (D := simple_deletion) []
       None None "location" 1 (float_of_Z 5);
     clear_keyframe (E := simple_externals false) (D := simple_deletion) []
       None None "location" 1].
Proof.
  apply (@X21_delete_and_clear_failures (simple_externals false)
           simple_deletion [] None None "location" 1 (float_of_Z 5)).
  left. reflexivity.
Defined.

(** "Cube" with its curve "location[1]" locked. *)
Lemma X23_locked_curves_are_not_deleted_witness :
  let locked := set_flag example_location_1 FCURVE_PROTECTED in
  let act := set_curves example_action [locked] in
  let adt_ := mkAnimData (Some act) 0 EmptyString 0 in
  let id_ := mkID "Cube" RNA_Object true (Some adt_) in
  Forall (fun run =>
            delete_return run = 0 /\ delete_calls run = []
            /\ delete_id run = Some id_ /\ delete_act run = Some act)
    [delete_keyframe (E := simple_externals false) (D := simple_deletion) []
       (Some id_) None "location" (-1) (float_of_Z 5);
     clear_keyframe (E := simple_externals false) (D := simple_deletion) []
       (Some id_) None "location" (-1)].
Proof.
  cbv zeta.
  eapply Forall_impl;
    [apply (@X23_locked_curves_are_not_deleted (simple_externals false)
              simple_deletion []
              (mkID "Cube" RNA_Object true
                 (Some (mkAnimData
                          (Some (set_curves example_action
                                   [set_flag example_location_1 FCURVE_PROTECTED]))
                          0 EmptyString 0)))
              (mkAnimData
                 (Some (set_curves example_action
                          [set_flag example_location_1 FCURVE_PROTECTED]))
                 0 EmptyString 0)
              None
              (set_curves example_action
                 [set_flag example_location_1 FCURVE_PROTECTED])
              "location" (-1) (float_of_Z 5) example_pointer
              (mkPropertyRNA "location" "location" PROP_FLOAT)
              eq_refl eq_refl (or_intror (conj eq_refl eq_refl)));
     constructor; [intros _; reflexivity | constructor]
    |intros run (H1 & H2 & H3 & H4 & _); repeat split; assumption].
Defined.

(** "hide_viewport" is a single value: deleting its key at frame 5 with
    the index -1 deletes the key of the curve of index 0. *)
Lemma X24_all_elements_of_a_single_value_witness :
  delete_keyframe (E := scalar_externals) (D := simple_deletion) []
    (Some example_hidden_id) None "hide_viewport" (-1) (float_of_Z 5)
  = delete_keyframe (E := scalar_externals) (D := simple_deletion) []
      (Some example_hidden_id) None "hide_viewport" 0 (float_of_Z 5)
  /\ clear_keyframe (E := scalar_externals) (D := simple_deletion) []
       (Some example_hidden_id) None "hide_viewport" (-1)
     = clear_keyframe (E := scalar_externals) (D := simple_deletion) []
         (Some example_hidden_id) None "hide_viewport" 0.
Proof.
  apply (@X24_all_elements_of_a_single_value scalar_externals
           simple_deletion [] (Some example_hidden_id) None "hide_viewport"
           (float_of_Z 5)).
  intros id_ ptr prop [= <-] Hres. vm_compute in Hres.
  injection Hres as <- <-. left. reflexivity.
Defined.

Example delete_hidden_key :
  delete_return
    (delete_keyframe (E := scalar_externals) (D := simple_deletion) []
       (Some example_hidden_id) None "hide_viewport" (-1) (float_of_Z 5))
  = 1
  /\ delete_calls
       (delete_keyframe (E := scalar_externals) (D := simple_deletion) []
          (Some example_hidden_id) None "hide_viewport" (-1) (float_of_Z 5))
     = [DegIdTagUpdateEx "CubeAction" ID_RECALC_ANIMATION_NO_FLUSH].
Proof. split; reflexivity. Qed.

Example clear_hidden_curve :
  delete_return
    (clear_keyframe (E := scalar_externals) (D := simple_deletion) []
       (Some example_hidden_id) None "hide_viewport" (-1))
  = 1
  /\ delete_calls
       (clear_keyframe (E := scalar_externals) (D := simple_deletion) []
          (Some example_hidden_id) None "hide_viewport" (-1))
     = [DegIdTagUpdateEx "Cube" ID_RECALC_ANIMATION_NO_FLUSH;
        DegRelationsTagUpdate].
Proof. split; reflexivity. Qed.

(** Clearing "scale" of "Cube", which has no curve for it. *)
Lemma X25_clear_keyframe_zero_changes_nothing_witness :
  delete_id (clear_keyframe (E := simple_externals false)
               (D := simple_deletion) [] (Some example_id) None "scale" (-1))
  = Some example_id.
Proof.
  exact (proj1 (@X25_clear_keyframe_zero_changes_nothing
                  (simple_externals false) simple_deletion []
                  (Some example_id) None "scale" (-1) eq_refl)).
Defined.

(** A data-block of a type that cannot be animated. *)
Lemma X27_insert_key_rna_not_animatable_witness :
  insert_key_rna (E := simple_externals false) example_pointer
    (mkID "Cube" RNA_Object false None)
    [mkRNAPath "location" None; mkRNAPath "scale" None] (float_of_Z 1) 0 0
    example_context
  = Some (mkBatchRun (add1 CombinedKeyingResult_new ID_NOT_ANIMATABLE)
            (mkID "Cube" RNA_Object false None) []).
Proof.
  exact (proj1 (@X27_insert_key_rna_not_animatable (simple_externals false)
                  example_pointer (mkID "Cube" RNA_Object false None)
                  [mkRNAPath "location" None; mkRNAPath "scale" None]
                      (float_of_Z 1) 0 0
                  example_context eq_refl)).
Defined.
